(** * The risk-managed decision engine of the trading bot

    A shallow embedding of [src/engine/risk.js] (the [RiskManager]) and of the
    decision loop of the trading engine ([processPair],
    [executeSatelliteTrade], [manageTrailingStops]), followed by the
    properties of the specification that concern them.

    Numbers.  The program computes with JavaScript numbers.  They are
    modelled as exact rationals extended with the three special values a
    JavaScript computation can produce ([Infinity], [-Infinity], [NaN]):
    arithmetic on finite values is exact (rounding is abstracted away), the
    special values follow IEEE 754, and there is a single zero.

    Rounding.  The program's products and quotients are rounded to binary64.
    Where a property depends on the rounding it is stated for every
    rounding to nearest ([roundsToNearest]), with the margin the rounding
    needs; what the program computes on given inputs is computed in
    [Binary64], on the binary64 numbers of the kernel. *)

From Stdlib Require Import QArith Qminmax Lqa ZArith List String Bool Lia.
From Stdlib Require Import Qabs.
From Stdlib Require Floats.
Import ListNotations.

Open Scope Q_scope.

(* ================================================================== *)
(** ** JavaScript numbers and values *)

Module Js.

Inductive number : Type :=
| Fin (q : Q)
| PInf
| NInf
| NaN.

(** [x < y] on rationals, as a boolean. *)
Definition Qlt_bool (x y : Q) : bool := negb (Qle_bool y x).

(** The infinity carrying the sign given by a comparison with zero;
    [0 * Infinity] and [0 / 0] are [NaN]. *)
Definition inf_of_sign (c : comparison) : number :=
  match c with
  | Gt => PInf
  | Lt => NInf
  | Eq => NaN
  end.

Definition neg (a : number) : number :=
  match a with
  | Fin x => Fin (- x)
  | PInf => NInf
  | NInf => PInf
  | NaN => NaN
  end.

Definition add (a b : number) : number :=
  match a, b with
  | NaN, _ | _, NaN => NaN
  | Fin x, Fin y => Fin (x + y)
  | PInf, NInf | NInf, PInf => NaN
  | PInf, _ | _, PInf => PInf
  | NInf, _ | _, NInf => NInf
  end.

Definition sub (a b : number) : number := add a (neg b).

Definition mul (a b : number) : number :=
  match a, b with
  | NaN, _ | _, NaN => NaN
  | Fin x, Fin y => Fin (x * y)
  | Fin x, PInf | PInf, Fin x => inf_of_sign (x ?= 0)
  | Fin x, NInf | NInf, Fin x => inf_of_sign (0 ?= x)
  | PInf, PInf | NInf, NInf => PInf
  | PInf, NInf | NInf, PInf => NInf
  end.

Definition div (a b : number) : number :=
  match a, b with
  | NaN, _ | _, NaN => NaN
  | Fin x, Fin y =>
      if Qeq_bool y 0 then inf_of_sign (x ?= 0) else Fin (x / y)
  | Fin _, PInf | Fin _, NInf => Fin 0
  | PInf, Fin y => if Qle_bool 0 y then PInf else NInf
  | NInf, Fin y => if Qle_bool 0 y then NInf else PInf
  | _, _ => NaN
  end.

(** The relational operators; every comparison with [NaN] is false. *)
Definition lt (a b : number) : bool :=
  match a, b with
  | NaN, _ | _, NaN => false
  | Fin x, Fin y => Qlt_bool x y
  | _, NInf | PInf, _ => false
  | NInf, _ | _, PInf => true
  end.

Definition le (a b : number) : bool :=
  match a, b with
  | NaN, _ | _, NaN => false
  | Fin x, Fin y => Qle_bool x y
  | NInf, _ | _, PInf => true
  | PInf, _ | _, NInf => false
  end.

Definition gt (a b : number) : bool := lt b a.
Definition ge (a b : number) : bool := le b a.

(** [a === b] on numbers. *)
Definition strict_eq (a b : number) : bool :=
  match a, b with
  | Fin x, Fin y => Qeq_bool x y
  | PInf, PInf | NInf, NInf => true
  | _, _ => false
  end.

(** [Math.max(a, b)] and [Math.min(a, b)]. *)
Definition max (a b : number) : number :=
  match a, b with
  | NaN, _ | _, NaN => NaN
  | _, _ => if lt a b then b else a
  end.

Definition min (a b : number) : number :=
  match a, b with
  | NaN, _ | _, NaN => NaN
  | _, _ => if lt b a then b else a
  end.

(** [Math.max(...xs)] and [Math.min(...xs)]: the empty call gives
    [-Infinity] and [Infinity]. *)
Definition max_list (xs : list number) : number := fold_left max xs NInf.
Definition min_list (xs : list number) : number := fold_left min xs PInf.

(** Equality of numbers up to the equality of rationals. *)
Definition num_eq (a b : number) : Prop :=
  match a, b with
  | Fin x, Fin y => x == y
  | PInf, PInf | NInf, NInf | NaN, NaN => True
  | _, _ => False
  end.

(** The values an optional numeric argument or a field of a parsed JSON
    answer can hold. *)
Inductive value : Type :=
| VUndefined
| VNull
| VBool (b : bool)
| VNumber (n : number)
| VString (s : string).

(** Truthiness, as tested by [if (v)] and [v && ...]. *)
Definition truthy (v : value) : bool :=
  match v with
  | VUndefined | VNull => false
  | VBool b => b
  | VNumber (Fin q) => negb (Qeq_bool q 0)
  | VNumber NaN => false
  | VNumber _ => true
  | VString s => negb (String.eqb s EmptyString)
  end.

(** [typeof v === 'number']. *)
Definition typeof_number (v : value) : bool :=
  match v with
  | VNumber _ => true
  | _ => false
  end.

(** A numeric field of an object that may have come back from
    [JSON.parse]: JSON has no [NaN] and no infinities, [JSON.stringify]
    writes them as [null], and [null] is what [JSON.parse] gives back. *)
Inductive numfield : Type :=
| Num (n : number)
| Null.

(** [ToNumber]: in arithmetic and in relational comparisons [null] is 0. *)
Definition toNumber (f : numfield) : number :=
  match f with
  | Num n => n
  | Null => Fin 0
  end.

(** [f === k] for a number [k]: [null] is strictly equal to no number. *)
Definition field_strict_eq (f : numfield) (k : number) : bool :=
  match f with
  | Num n => strict_eq n k
  | Null => false
  end.

(** What [JSON.parse (JSON.stringify f)] is. *)
Definition json_roundtrip (f : numfield) : numfield :=
  match f with
  | Num (Fin q) => Num (Fin q)
  | Num _ => Null
  | Null => Null
  end.

End Js.

Notation "a =n= b" := (Js.num_eq a b) (at level 70, no associativity).

(* ================================================================== *)
(** ** Configuration ([src/config/index.js])

    The configuration values the decision engine reads.  They are finite
    numbers: each is read with [parseFloat (env) || default]. *)

Record Config : Type := mkConfig {
  allocation_satellite : Q;
  risk_maxRiskPerTrade : Q;
  risk_maxSatelliteExposure : Q;
  risk_dailyLossLimit : Q;
  risk_defaultStopLoss : Q;
  risk_defaultTakeProfit : Q;
  risk_maxTradesPerDay : Q;
  risk_minOrderSizeUsdt : Q;
  risk_minBalanceToTrade : Q;
  confidence_minToTrade : Q;
  confidence_highThreshold : Q;
  technicals_rsiOversold : Q
}.

(** The defaults of [config], used when the environment sets nothing. *)
Definition defaultConfig : Config := {|
  allocation_satellite := 0.40;
  risk_maxRiskPerTrade := 0.01;
  risk_maxSatelliteExposure := 0.25;
  risk_dailyLossLimit := 0.05;
  risk_defaultStopLoss := 0.02;
  risk_defaultTakeProfit := 0.04;
  risk_maxTradesPerDay := 10;
  risk_minOrderSizeUsdt := 10;
  risk_minBalanceToTrade := 15;
  confidence_minToTrade := 60;
  confidence_highThreshold := 85;
  technicals_rsiOversold := 30
|}.

(* ================================================================== *)
(** ** The risk manager ([src/engine/risk.js]) *)

(** [this.dailyStats]. *)
Record DailyStats : Type := mkDailyStats {
  date : string;
  initialBalance : Js.numfield;
  currentBalance : Js.numfield;
  tradesCount : Js.numfield;
  dailyPnL : Js.numfield;
  isHalted : bool
}.

(** The argument of a [logBreaker] call. *)
Inductive BreakerEvent : Type :=
| DailyLossLimitReached (pnl : Js.numfield) (limit : Js.number)
| MaxDailyTradesReached (count : Js.numfield)
| BalanceBelowSafeThreshold (balance : Js.numfield) (minimum : Js.number).

(** The risk manager together with the two pieces of the outside world it
    writes to: the parsed content of [data/daily_stats.json] ([None] when
    the file does not exist) and the breaker events logged so far, oldest
    first. *)
Record RiskManager : Type := mkRiskManager {
  dailyStats : DailyStats;
  dataFile : option DailyStats;
  breakerLog : list BreakerEvent
}.

Definition set_isHalted (b : bool) (s : DailyStats) : DailyStats :=
  {| date := date s;
     initialBalance := initialBalance s;
     currentBalance := currentBalance s;
     tradesCount := tradesCount s;
     dailyPnL := dailyPnL s;
     isHalted := b |}.

Definition with_stats (s : DailyStats) (rm : RiskManager) : RiskManager :=
  {| dailyStats := s; dataFile := dataFile rm; breakerLog := breakerLog rm |}.

(** The fresh record of a day: the constructor's initial value and the
    "reset for new day" value of [loadStats]. *)
Definition freshStats (today : string) : DailyStats :=
  {| date := today;
     initialBalance := Js.Num (Js.Fin 0);
     currentBalance := Js.Num (Js.Fin 0);
     tradesCount := Js.Num (Js.Fin 0);
     dailyPnL := Js.Num (Js.Fin 0);
     isHalted := false |}.

(** What [JSON.parse (JSON.stringify (s, null, 2))] is. *)
Definition toJSON (s : DailyStats) : DailyStats :=
  {| date := date s;
     initialBalance := Js.json_roundtrip (initialBalance s);
     currentBalance := Js.json_roundtrip (currentBalance s);
     tradesCount := Js.json_roundtrip (tradesCount s);
     dailyPnL := Js.json_roundtrip (dailyPnL s);
     isHalted := isHalted s |}.

Definition saveStats (rm : RiskManager) : RiskManager :=
  {| dailyStats := dailyStats rm;
     dataFile := Some (toJSON (dailyStats rm));
     breakerLog := breakerLog rm |}.

(** [loadStats], on the day [today] (the value of
    [new Date().toISOString().split('T')[0]]). *)
Definition loadStats (today : string) (rm : RiskManager) : RiskManager :=
  let reset := saveStats (with_stats (freshStats today) rm) in
  match dataFile rm with
  | Some saved =>
      if String.eqb (date saved) today then with_stats saved rm else reset
  | None => reset
  end.

(** [new RiskManager()], on the day [today], with the data file [file]. *)
Definition newRiskManager (today : string) (file : option DailyStats)
  : RiskManager :=
  loadStats today
    {| dailyStats := freshStats today; dataFile := file; breakerLog := [] |}.

(** The body shared by the three breakers:
    [if (!this.dailyStats.isHalted) { isHalted = true; logBreaker (e) }]. *)
Definition tripBreaker (e : BreakerEvent) (rm : RiskManager) : RiskManager :=
  if negb (isHalted (dailyStats rm)) then
    {| dailyStats := set_isHalted true (dailyStats rm);
       dataFile := dataFile rm;
       breakerLog := breakerLog rm ++ [e] |}
  else rm.

(** The three conditions of [checkBreakers]. *)
Definition dailyLossReached (cfg : Config) (s : DailyStats) : bool :=
  Js.le (Js.toNumber (dailyPnL s)) (Js.neg (Js.Fin (risk_dailyLossLimit cfg))).

Definition maxTradesReached (cfg : Config) (s : DailyStats) : bool :=
  Js.ge (Js.toNumber (tradesCount s)) (Js.Fin (risk_maxTradesPerDay cfg)).

Definition balanceBelowMinimum (cfg : Config) (s : DailyStats) : bool :=
  Js.gt (Js.toNumber (currentBalance s)) (Js.Fin 0)
  && Js.lt (Js.toNumber (currentBalance s))
       (Js.Fin (risk_minBalanceToTrade cfg)).

Definition checkBreakers (cfg : Config) (rm : RiskManager) : RiskManager :=
  (* 1. Daily Loss Limit *)
  let rm :=
    if dailyLossReached cfg (dailyStats rm) then
      tripBreaker
        (DailyLossLimitReached (dailyPnL (dailyStats rm))
           (Js.neg (Js.Fin (risk_dailyLossLimit cfg)))) rm
    else rm in
  (* 2. Max Trades per Day *)
  let rm :=
    if maxTradesReached cfg (dailyStats rm) then
      tripBreaker (MaxDailyTradesReached (tradesCount (dailyStats rm))) rm
    else rm in
  (* 3. Absolute Minimum Balance *)
  if balanceBelowMinimum cfg (dailyStats rm) then
    tripBreaker
      (BalanceBelowSafeThreshold (currentBalance (dailyStats rm))
         (Js.Fin (risk_minBalanceToTrade cfg))) rm
  else rm.

Definition updateBalance (cfg : Config) (totalValue : Js.number)
  (rm : RiskManager) : RiskManager :=
  let s := dailyStats rm in
  let initial :=
    if Js.field_strict_eq (initialBalance s) (Js.Fin 0) then Js.Num totalValue
    else initialBalance s in
  let s' :=
    {| date := date s;
       initialBalance := initial;
       currentBalance := Js.Num totalValue;
       tradesCount := tradesCount s;
       dailyPnL :=
         Js.Num (Js.sub (Js.div totalValue (Js.toNumber initial)) (Js.Fin 1));
       isHalted := isHalted s |} in
  saveStats (checkBreakers cfg (with_stats s' rm)).

Definition recordTrade (cfg : Config) (rm : RiskManager) : RiskManager :=
  let s := dailyStats rm in
  let s' :=
    {| date := date s;
       initialBalance := initialBalance s;
       currentBalance := currentBalance s;
       tradesCount := Js.Num (Js.add (Js.toNumber (tradesCount s)) (Js.Fin 1));
       dailyPnL := dailyPnL s;
       isHalted := isHalted s |} in
  saveStats (checkBreakers cfg (with_stats s' rm)).

Definition canTrade (rm : RiskManager) : bool :=
  negb (isHalted (dailyStats rm)).

Definition resetBreaker (rm : RiskManager) : RiskManager :=
  saveStats (with_stats (set_isHalted false (dailyStats rm)) rm).

(** [calculatePositionSize].  The two early [return 0] of the small-account
    adjustment and of the final check are the [None] of the first [match]
    and the last [Fin 0]. *)
Definition calculatePositionSize (cfg : Config) (rm : RiskManager)
  (totalCapital confidenceScore : Js.number) : Js.number :=
  if isHalted (dailyStats rm) then Js.Fin 0 else
  if Js.lt confidenceScore (Js.Fin (confidence_minToTrade cfg)) then Js.Fin 0
  else
  let minOrder := Js.Fin (risk_minOrderSizeUsdt cfg) in
  let satelliteCapital :=
    Js.mul totalCapital (Js.Fin (allocation_satellite cfg)) in
  let riskFactor := Js.Fin (risk_maxRiskPerTrade cfg) in
  let riskFactor :=
    if Js.ge confidenceScore (Js.Fin (confidence_highThreshold cfg)) then
      Js.mul riskFactor (Js.Fin 2)
    else if Js.ge confidenceScore (Js.Fin 75) then
      Js.mul riskFactor (Js.Fin 1.5)
    else riskFactor in
  let tradeValue := Js.mul totalCapital riskFactor in
  let adjusted :=
    if Js.lt tradeValue minOrder then
      if Js.ge satelliteCapital minOrder then Some minOrder else None
    else Some tradeValue in
  match adjusted with
  | None => Js.Fin 0
  | Some tradeValue =>
      let maxSatelliteTrade :=
        Js.max
          (Js.mul satelliteCapital (Js.Fin (risk_maxSatelliteExposure cfg)))
          minOrder in
      let tradeValue :=
        if Js.gt tradeValue maxSatelliteTrade then maxSatelliteTrade
        else tradeValue in
      if Js.lt tradeValue minOrder then
        if Js.ge satelliteCapital minOrder then minOrder else Js.Fin 0
      else tradeValue
  end.

Record ExitPoints : Type := mkExitPoints {
  stopLoss : Js.number;
  takeProfit : Js.number
}.

(** The number held by a value for which [typeof v === 'number']. *)
Definition number_of (v : Js.value) : Js.number :=
  match v with
  | Js.VNumber n => n
  | _ => Js.NaN
  end.

(** [getExitPoints (entryPrice, side = 'BUY', targetGain = null)]. *)
Definition getExitPoints (cfg : Config) (entryPrice : Js.number)
  (side : string) (targetGain : Js.value) : ExitPoints :=
  let slPercent := Js.Fin (risk_defaultStopLoss cfg) in
  let tpPercent :=
    if Js.truthy targetGain && Js.typeof_number targetGain then
      Js.min
        (Js.max (Js.div (number_of targetGain) (Js.Fin 100)) (Js.Fin 0.02))
        (Js.Fin 0.15)
    else Js.Fin (risk_defaultTakeProfit cfg) in
  if String.eqb side "BUY" then
    {| stopLoss := Js.mul entryPrice (Js.sub (Js.Fin 1) slPercent);
       takeProfit := Js.mul entryPrice (Js.add (Js.Fin 1) tpPercent) |}
  else
    {| stopLoss := Js.mul entryPrice (Js.add (Js.Fin 1) slPercent);
       takeProfit := Js.mul entryPrice (Js.sub (Js.Fin 1) tpPercent) |}.

(* ================================================================== *)
(** ** The trading engine ([src/engine/index.js])

    The engine talks to three collaborators: the exchange, the sentiment
    analyzer and the notification channel.  A run of one of its methods is
    modelled by the list of the requests it sends them, in order, and by the
    risk manager it leaves; the answers of the collaborators during the run
    are given by oracles, and an answer [None] is a call that throws. *)

Record Candle : Type := mkCandle {
  open : Js.number;
  high : Js.number;
  low : Js.number;
  close : Js.number;
  volume : Js.number
}.

(** An open order as [getOpenOrders] returns it; [stopPrice] is
    [parseFloat (order.stopPrice)]. *)
Record Order : Type := mkOrder {
  symbol : string;
  type : string;
  orderId : Z;
  orderListId : Z;
  origQty : Js.value;
  price : Js.value;
  stopPrice : Js.number
}.

(** The answer of [analyzeNews], as the prompt asks the model to shape it. *)
Record Analysis : Type := mkAnalysis {
  verdict : string;
  impact : string;
  confidence : Js.number;
  target_gain : Js.value;
  reasoning : string;
  suggested_action : string
}.

Inductive Request : Type :=
| GetCandles (pair interval : string) (limit : Z)
| GetLatestNews (pair : string)
| AnalyzeNews (news pair : string)
| GetTotalValueUsdt
| GetPrice (pair : string)
| GetOpenOrders
| MarketBuy (pair : string) (quantity : Js.number)
| OcoSell (pair : string) (quantity takeProfit : Js.value)
    (stopLossPrice : Js.number)
| CancelOrderList (pair : string) (id : Z)
| CancelOrder (pair : string) (id : Z)
| SendTradeAlert (pair : string)
| SendAlert (pair : string) (newStopPrice : Js.number).

Record Exchange : Type := mkExchange {
  getCandles : string -> string -> option (list Candle);
  getTotalValueUsdt : option Js.number;
  getPrice : string -> option Js.number;
  getOpenOrders : option (list Order);
  (* the [executedQty] of the filled order *)
  marketBuy : string -> Js.number -> option Js.value;
  ocoSell : string -> Js.value -> Js.value -> Js.number -> option unit;
  cancelOrderList : string -> Z -> option unit;
  cancelOrder : string -> Z -> option unit
}.

(** [getLatestNews] and [analyzeNews] catch their own errors: the first
    answers [[]] and the second [null] ([None]) instead of throwing. *)
Record Sentiment : Type := mkSentiment {
  getLatestNews : string -> list string;
  analyzeNews : string -> string -> option Analysis
}.

(** Computations of the engine: they send requests, update the risk manager
    and may throw. *)
Definition Eff (A : Type) : Type :=
  RiskManager -> list Request * RiskManager * option A.

Definition ret {A : Type} (a : A) : Eff A :=
  fun rm => ([], rm, Some a).

Definition bind {A B : Type} (m : Eff A) (f : A -> Eff B) : Eff B :=
  fun rm =>
    match m rm with
    | (t1, rm1, Some a) =>
        match f a rm1 with
        | (t2, rm2, r) => (t1 ++ t2, rm2, r)
        end
    | (t1, rm1, None) => (t1, rm1, None)
    end.

Notation "x <- m ;; k" := (bind m (fun x => k))
  (at level 61, m at next level, right associativity).
Notation "m ;;; k" := (bind m (fun _ => k))
  (at level 61, right associativity).

(** [await] of a call to a collaborator. *)
Definition request {A : Type} (r : Request) (answer : option A) : Eff A :=
  fun rm => ([r], rm, answer).

(** A call that is not awaited, or that cannot throw. *)
Definition notify (r : Request) : Eff unit :=
  fun rm => ([r], rm, Some tt).

(** A method of the risk manager that updates it. *)
Definition modify (f : RiskManager -> RiskManager) : Eff unit :=
  fun rm => ([], f rm, Some tt).

(** A query of the risk manager. *)
Definition query {A : Type} (f : RiskManager -> A) : Eff A :=
  fun rm => ([], rm, Some (f rm)).

(** [try { m } catch (error) { logger.error (...) }]. *)
Definition try_catch (m : Eff unit) : Eff unit :=
  fun rm =>
    match m rm with
    | (t, rm', _) => (t, rm', Some tt)
    end.

Definition trace_of {A : Type} (r : list Request * RiskManager * option A)
  : list Request := fst (fst r).

Definition manager_of {A : Type} (r : list Request * RiskManager * option A)
  : RiskManager := snd (fst r).

(** [xs.slice (-n)]: the last [n] elements. *)
Definition slice_last {A : Type} (n : nat) (xs : list A) : list A :=
  skipn (List.length xs - n) xs.

(** [xs.slice (-1)[0]] where it is only compared with numbers: the last
    element, and [undefined] (which compares as [NaN]) for the empty list. *)
Definition last_value (xs : list Js.number) : Js.number := last xs Js.NaN.

(** The test of a stop order in [manageTrailingStops]. *)
Definition isStopOrder (o : Order) : bool :=
  String.eqb (type o) "STOP_LOSS_LIMIT" || String.eqb (type o) "STOP_LOSS".

(** The test of the sentiment answer in [processPair]. *)
Definition isBuySignal (analysis : option Analysis) : bool :=
  match analysis with
  | Some a =>
      String.eqb (suggested_action a) "BUY"
      && String.eqb (verdict a) "BULLISH"
      && Js.gt (confidence a) (Js.Fin 80)
  | None => false
  end.

Section Engine.

Variable cfg : Config.
(** [RSI.calculate ({ values, period: 14 })] of the technicalindicators
    package. *)
Variable RSI_calculate : list Js.number -> list Js.number.
Variable binance : Exchange.
Variable sentimentAnalyzer : Sentiment.

Definition executeSatelliteTrade (pair : string) (analysis : Analysis)
  : Eff unit :=
  try_catch (
    totalValue <- request GetTotalValueUsdt (getTotalValueUsdt binance) ;;
    tradeSizeUsdt <- query (fun rm =>
      calculatePositionSize cfg rm totalValue (confidence analysis)) ;;
    if Js.le tradeSizeUsdt (Js.Fin 0) then ret tt else
    currentPrice <- request (GetPrice pair) (getPrice binance pair) ;;
    let quantity := Js.div tradeSizeUsdt currentPrice in
    executedQty <- request (MarketBuy pair quantity)
                     (marketBuy binance pair quantity) ;;
    let exits := getExitPoints cfg currentPrice "BUY" (target_gain analysis) in
    request (OcoSell pair executedQty (Js.VNumber (takeProfit exits))
               (stopLoss exits))
      (ocoSell binance pair executedQty (Js.VNumber (takeProfit exits))
         (stopLoss exits)) ;;;
    modify (recordTrade cfg) ;;;
    notify (SendTradeAlert pair)).

(** The loop over the news items of [processPair]. *)
Fixpoint scanNews (pair : string) (newsItems : list string) : Eff unit :=
  match newsItems with
  | [] => ret tt
  | news :: rest =>
      analysis <- request (AnalyzeNews news pair)
                    (Some (analyzeNews sentimentAnalyzer news pair)) ;;
      if isBuySignal analysis then
        match analysis with
        | Some a => executeSatelliteTrade pair a (* then [break] *)
        | None => ret tt
        end
      else scanNews pair rest
  end.

(** The three technical tests of [processPair]. *)
Definition overboughtVeto (candles4h : list Candle) : bool :=
  let rsi4h := last_value (RSI_calculate (map close candles4h)) in
  Js.gt rsi4h (Js.Fin 65).

Definition volatility (candles1h : list Candle) : Js.number :=
  let low := Js.min_list (map low (slice_last 3 candles1h)) in
  let high := Js.max_list (map high (slice_last 3 candles1h)) in
  Js.sub (Js.div high low) (Js.Fin 1).

Definition isCandidate (candles1h : list Candle) : bool :=
  let rsi1h := last_value (RSI_calculate (map close candles1h)) in
  let isOversold := Js.lt rsi1h (Js.Fin (technicals_rsiOversold cfg)) in
  let isMomentumUp :=
    Js.gt rsi1h (Js.Fin 45) && Js.lt rsi1h (Js.Fin 60) in
  isOversold || isMomentumUp.

Definition processPair (pair : string) : Eff unit :=
  try_catch (
    candles1h <- request (GetCandles pair "1h" 50)
                   (getCandles binance pair "1h") ;;
    candles4h <- request (GetCandles pair "4h" 30)
                   (getCandles binance pair "4h") ;;
    if overboughtVeto candles4h then ret tt else
    if Js.gt (volatility candles1h) (Js.Fin 0.05) then ret tt else
    if isCandidate candles1h then
      newsItems <- request (GetLatestNews pair)
                     (Some (getLatestNews sentimentAnalyzer pair)) ;;
      scanNews pair newsItems
    else ret tt).

(** The take-profit price handed to the replacement order:
    [openOrders.find (...)?.price || currentPrice * 1.04]. *)
Definition originalTP (openOrders : list Order) (order : Order)
  (currentPrice : Js.number) : Js.value :=
  let found :=
    find (fun o => String.eqb (symbol o) (symbol order)
                   && String.eqb (type o) "LIMIT_MAKER") openOrders in
  let fallback := Js.VNumber (Js.mul currentPrice (Js.Fin 1.04)) in
  match found with
  | Some o => if Js.truthy (price o) then price o else fallback
  | None => fallback
  end.

(** The loop over the stop orders of [manageTrailingStops]. *)
Fixpoint trailStops (openOrders stopOrders : list Order) : Eff unit :=
  match stopOrders with
  | [] => ret tt
  | order :: rest =>
      currentPrice <- request (GetPrice (symbol order))
                        (getPrice binance (symbol order)) ;;
      (if Js.gt currentPrice (Js.mul (stopPrice order) (Js.Fin 1.02)) then
         let newStopPrice := Js.mul (stopPrice order) (Js.Fin 1.01) in
         (if negb (Z.eqb (orderListId order) (-1)) then
            request (CancelOrderList (symbol order) (orderListId order))
              (cancelOrderList binance (symbol order) (orderListId order))
          else
            request (CancelOrder (symbol order) (orderId order))
              (cancelOrder binance (symbol order) (orderId order))) ;;;
         let tp := originalTP openOrders order currentPrice in
         request (OcoSell (symbol order) (origQty order) tp newStopPrice)
           (ocoSell binance (symbol order) (origQty order) tp
              newStopPrice) ;;;
         notify (SendAlert (symbol order) newStopPrice)
       else ret tt) ;;;
      trailStops openOrders rest
  end.

Definition manageTrailingStops : Eff unit :=
  try_catch (
    openOrders <- request GetOpenOrders (getOpenOrders binance) ;;
    trailStops openOrders (filter isStopOrder openOrders)).

End Engine.

(* ================================================================== *)
(** ** The algorithms in the words of the specification

    Definitions that follow the specification, to be compared with the
    ones above, which follow the source. *)

(** Confidence tier: x2 at or above the high threshold, x1.5 at or above 75,
    x1 otherwise. *)
Definition confidenceScale (cfg : Config) (confidenceScore : Js.number) : Q :=
  if Js.ge confidenceScore (Js.Fin (confidence_highThreshold cfg)) then 2
  else if Js.ge confidenceScore (Js.Fin 75) then 1.5
  else 1.

(** The minimum-order floor: a trade value under the minimum order size is
    bumped to it when the satellite capital covers it, and is no trade
    ([None]) otherwise. *)
Definition floorRule (cfg : Config) (satelliteCapital tradeValue : Js.number)
  : option Js.number :=
  if Js.lt tradeValue (Js.Fin (risk_minOrderSizeUsdt cfg)) then
    if Js.ge satelliteCapital (Js.Fin (risk_minOrderSizeUsdt cfg)) then
      Some (Js.Fin (risk_minOrderSizeUsdt cfg))
    else None
  else Some tradeValue.

(** The exposure cap. *)
Definition exposureCap (cfg : Config) (totalCapital : Js.number) : Js.number :=
  Js.max
    (Js.mul (Js.mul totalCapital (Js.Fin (allocation_satellite cfg)))
       (Js.Fin (risk_maxSatelliteExposure cfg)))
    (Js.Fin (risk_minOrderSizeUsdt cfg)).

(** Floor, then cap, then floor again. *)
Definition floorCapFloor (cfg : Config) (totalCapital tradeValue : Js.number)
  : Js.number :=
  let satelliteCapital :=
    Js.mul totalCapital (Js.Fin (allocation_satellite cfg)) in
  match floorRule cfg satelliteCapital tradeValue with
  | None => Js.Fin 0
  | Some floored =>
      let clamped :=
        if Js.gt floored (exposureCap cfg totalCapital)
        then exposureCap cfg totalCapital else floored in
      match floorRule cfg satelliteCapital clamped with
      | None => Js.Fin 0
      | Some final => final
      end
  end.

Definition positionSizeSpec (cfg : Config) (halted : bool)
  (totalCapital confidenceScore : Js.number) : Js.number :=
  if halted || Js.lt confidenceScore (Js.Fin (confidence_minToTrade cfg))
  then Js.Fin 0
  else
    floorCapFloor cfg totalCapital
      (Js.mul (Js.mul totalCapital (Js.Fin (risk_maxRiskPerTrade cfg)))
         (Js.Fin (confidenceScale cfg confidenceScore))).

(** At least one of the three breaker conditions holds. *)
Definition breakerCondition (cfg : Config) (s : DailyStats) : bool :=
  dailyLossReached cfg s || maxTradesReached cfg s
  || balanceBelowMinimum cfg s.

(** The event of the first condition that holds. *)
Definition breakerEvent (cfg : Config) (s : DailyStats) : BreakerEvent :=
  if dailyLossReached cfg s then
    DailyLossLimitReached (dailyPnL s)
      (Js.neg (Js.Fin (risk_dailyLossLimit cfg)))
  else if maxTradesReached cfg s then MaxDailyTradesReached (tradesCount s)
  else
    BalanceBelowSafeThreshold (currentBalance s)
      (Js.Fin (risk_minBalanceToTrade cfg)).

(** The calls of the risk manager that the latch property ranges over; the
    last three are queries and leave the manager as it is. *)
Inductive RiskCall : Type :=
| CallUpdateBalance (totalValue : Js.number)
| CallRecordTrade
| CallCalculatePositionSize (totalCapital confidenceScore : Js.number)
| CallGetExitPoints (entryPrice : Js.number) (side : string)
    (targetGain : Js.value)
| CallCanTrade.

Definition call (cfg : Config) (rm : RiskManager) (c : RiskCall)
  : RiskManager :=
  match c with
  | CallUpdateBalance totalValue => updateBalance cfg totalValue rm
  | CallRecordTrade => recordTrade cfg rm
  | CallCalculatePositionSize _ _ | CallGetExitPoints _ _ _ | CallCanTrade =>
      rm
  end.

Definition calls (cfg : Config) (cs : list RiskCall) (rm : RiskManager)
  : RiskManager :=
  fold_left (call cfg) cs rm.

(** [n] calls of [recordTrade] in a row. *)
Definition recordTrades (cfg : Config) (n : nat) (rm : RiskManager)
  : RiskManager :=
  Nat.iter n (recordTrade cfg) rm.

(** A day of balance observations. *)
Definition updateBalances (cfg : Config) (vs : list Q) (rm : RiskManager)
  : RiskManager :=
  fold_left (fun rm v => updateBalance cfg (Js.Fin v) rm) vs rm.

(** The clamp of a supplied target gain (in percent) to [[2%, 15%]]. *)
Definition clampTarget (targetGain : Js.number) : Js.number :=
  Js.min (Js.max (Js.div targetGain (Js.Fin 100)) (Js.Fin 0.02))
    (Js.Fin 0.15).

(** The take-profit fraction as the specification words it: the default
    unless a target gain is supplied, and then its clamp. *)
Definition takeProfitFractionSpec (cfg : Config) (targetGain : Js.value)
  : Js.number :=
  match targetGain with
  | Js.VNumber g => clampTarget g
  | _ => Js.Fin (risk_defaultTakeProfit cfg)
  end.

Definition exitPointsSpec (cfg : Config) (entryPrice : Js.number)
  (side : string) (targetGain : Js.value) : ExitPoints :=
  let sl := Js.Fin (risk_defaultStopLoss cfg) in
  let tp := takeProfitFractionSpec cfg targetGain in
  if String.eqb side "BUY" then
    {| stopLoss := Js.mul entryPrice (Js.sub (Js.Fin 1) sl);
       takeProfit := Js.mul entryPrice (Js.add (Js.Fin 1) tp) |}
  else
    {| stopLoss := Js.mul entryPrice (Js.add (Js.Fin 1) sl);
       takeProfit := Js.mul entryPrice (Js.sub (Js.Fin 1) tp) |}.

(** A target gain the code accepts: a number other than 0 and [NaN]. *)
Definition usableTarget (targetGain : Js.value) : bool :=
  match targetGain with
  | Js.VNumber (Js.Fin g) => negb (Qeq_bool g 0)
  | Js.VNumber Js.PInf | Js.VNumber Js.NInf => true
  | _ => false
  end.

(** The four numeric fields of a record are finite numbers. *)
Definition finiteField (f : Js.numfield) : bool :=
  match f with
  | Js.Num (Js.Fin _) => true
  | _ => false
  end.

Definition finiteStats (s : DailyStats) : bool :=
  finiteField (initialBalance s) && finiteField (currentBalance s)
  && finiteField (tradesCount s) && finiteField (dailyPnL s).

(** A field that holds a number equal to zero. *)
Definition zeroField (f : Js.numfield) : Prop :=
  exists z : Q, f = Js.Num (Js.Fin z) /\ z == 0.

(** Assignments made by the tests of the repository:
    [config.risk.maxRiskPerTrade = r] and
    [riskManager.dailyStats.initialBalance = v]. *)
Definition set_maxRiskPerTrade (r : Q) (cfg : Config) : Config :=
  {| allocation_satellite := allocation_satellite cfg;
     risk_maxRiskPerTrade := r;
     risk_maxSatelliteExposure := risk_maxSatelliteExposure cfg;
     risk_dailyLossLimit := risk_dailyLossLimit cfg;
     risk_defaultStopLoss := risk_defaultStopLoss cfg;
     risk_defaultTakeProfit := risk_defaultTakeProfit cfg;
     risk_maxTradesPerDay := risk_maxTradesPerDay cfg;
     risk_minOrderSizeUsdt := risk_minOrderSizeUsdt cfg;
     risk_minBalanceToTrade := risk_minBalanceToTrade cfg;
     confidence_minToTrade := confidence_minToTrade cfg;
     confidence_highThreshold := confidence_highThreshold cfg;
     technicals_rsiOversold := technicals_rsiOversold cfg |}.

Definition set_initialBalance (v : Js.number) (rm : RiskManager)
  : RiskManager :=
  with_stats
    {| date := date (dailyStats rm);
       initialBalance := Js.Num v;
       currentBalance := currentBalance (dailyStats rm);
       tradesCount := tradesCount (dailyStats rm);
       dailyPnL := dailyPnL (dailyStats rm);
       isHalted := isHalted (dailyStats rm) |} rm.

(** A new process started on the day [today] over the data file a manager
    left. *)
Definition restart (today : string) (rm : RiskManager) : RiskManager :=
  newRiskManager today (dataFile rm).

(** The pair passes the technical pre-screen of [processPair]: both candle
    requests are answered, the longer frame is not overbought, the
    volatility of the last three short-frame candles is not above the
    ceiling, and the short frame is oversold or in the momentum band. *)
Definition passesPreScreen (cfg : Config)
  (RSI_calculate : list Js.number -> list Js.number) (binance : Exchange)
  (pair : string) : Prop :=
  exists candles1h candles4h : list Candle,
    getCandles binance pair "1h" = Some candles1h
    /\ getCandles binance pair "4h" = Some candles4h
    /\ overboughtVeto RSI_calculate candles4h = false
    /\ Js.gt (volatility candles1h) (Js.Fin 0.05) = false
    /\ isCandidate cfg RSI_calculate candles1h = true.

(** Requests by kind.  [executeSatelliteTrade] is the only sender of
    [GetTotalValueUsdt] within [processPair], and it sends it first. *)
Definition startsExecution (r : Request) : bool :=
  match r with
  | GetTotalValueUsdt => true
  | _ => false
  end.

Definition isMarketBuy (r : Request) : bool :=
  match r with
  | MarketBuy _ _ => true
  | _ => false
  end.

(** The requests of [executeSatelliteTrade]. *)
Definition isTradeRequest (r : Request) : bool :=
  match r with
  | GetTotalValueUsdt | GetPrice _ | MarketBuy _ _ | OcoSell _ _ _ _
  | SendTradeAlert _ => true
  | _ => false
  end.

Definition isAnalyzeNews (r : Request) : bool :=
  match r with
  | AnalyzeNews _ _ => true
  | _ => false
  end.

Definition isSentimentRequest (r : Request) : bool :=
  match r with
  | GetLatestNews _ | AnalyzeNews _ _ => true
  | _ => false
  end.

Definition isOcoSell (r : Request) : bool :=
  match r with
  | OcoSell _ _ _ _ => true
  | _ => false
  end.

(** The news items up to and including the first one whose analysis is a
    buy signal. *)
Fixpoint upToFirstSignal (sentimentAnalyzer : Sentiment) (pair : string)
  (newsItems : list string) : list string :=
  match newsItems with
  | [] => []
  | news :: rest =>
      if isBuySignal (analyzeNews sentimentAnalyzer news pair) then [news]
      else news :: upToFirstSignal sentimentAnalyzer pair rest
  end.

(** The requests of the trailing-stop pass for one stop order, once the
    price of its symbol is known and when the exchange accepts them. *)
Definition ratchetRequests (openOrders : list Order) (order : Order)
  (currentPrice : Js.number) : list Request :=
  if Js.gt currentPrice (Js.mul (stopPrice order) (Js.Fin 1.02)) then
    [ if negb (Z.eqb (orderListId order) (-1))
      then CancelOrderList (symbol order) (orderListId order)
      else CancelOrder (symbol order) (orderId order);
      OcoSell (symbol order) (origQty order)
        (originalTP openOrders order currentPrice)
        (Js.mul (stopPrice order) (Js.Fin 1.01));
      SendAlert (symbol order) (Js.mul (stopPrice order) (Js.Fin 1.01)) ]
  else [].

(** An exchange that answers every request of the trailing-stop pass, with
    the open orders [orders] and the prices [prices]. *)
Definition answersTrailing (binance : Exchange) (orders : list Order)
  (prices : string -> Js.number) : Prop :=
  getOpenOrders binance = Some orders
  /\ (forall s, getPrice binance s = Some (prices s))
  /\ (forall s id, cancelOrderList binance s id = Some tt)
  /\ (forall s id, cancelOrder binance s id = Some tt)
  /\ (forall s q tp sl, ocoSell binance s q tp sl = Some tt).

(** An exchange for examples: it answers every request, with the given
    open orders and one price for every symbol. *)
Definition quietExchange (orders : list Order) (currentPrice : Js.number)
  : Exchange :=
  {| getCandles := fun _ _ => Some [];
     getTotalValueUsdt := Some (Js.Fin 1000);
     getPrice := fun _ => Some currentPrice;
     getOpenOrders := Some orders;
     marketBuy := fun _ quantity => Some (Js.VNumber quantity);
     ocoSell := fun _ _ _ _ => Some tt;
     cancelOrderList := fun _ _ => Some tt;
     cancelOrder := fun _ _ => Some tt |}.
(** The number of [recordTrade] calls in a sequence of calls. *)
Definition recordedCalls (cs : list RiskCall) : nat :=
  List.length
    (filter (fun c => match c with CallRecordTrade => true | _ => false end)
       cs).

(** The risk factor of [calculatePositionSize] after its scaling by the
    confidence. *)
Definition scaledRisk (cfg : Config) (confidenceScore : Js.number) : Q :=
  if Js.ge confidenceScore (Js.Fin (confidence_highThreshold cfg)) then
    risk_maxRiskPerTrade cfg * 2
  else if Js.ge confidenceScore (Js.Fin 75) then
    risk_maxRiskPerTrade cfg * 1.5
  else risk_maxRiskPerTrade cfg.

(* ================================================================== *)
(** ** The scan cycle, the heartbeat and the core rebalance
    ([src/engine/index.js])

    The rest of the configuration the engine reads. *)

Record TradingConfig : Type := mkTradingConfig {
  trading_pairs : list string;
  trading_coreCoins : list string;
  allocation_core : Q;
  risk_minSentiment : Q;
  risk_maxOpenSatelliteTrades : Q
}.

Definition defaultTradingConfig : TradingConfig := {|
  trading_pairs := ["BTCUSDT"; "ETHUSDT"]%string;
  trading_coreCoins := ["BTCUSDT"; "ETHUSDT"]%string;
  allocation_core := 0.60;
  risk_minSentiment := 20;
  risk_maxOpenSatelliteTrades := 2
|}.

(** What these methods send: the requests of before, the fetch of the
    fear-and-greed gauge, and the two alerts that are not about an order. *)
Inductive Event : Type :=
| Sent (r : Request)
| FetchFearGreed
| RebalanceAlert (pair : string) (buyAmount : Js.number)
| DailyRecap (pnl : Js.number) (totalValue : Js.number)
    (tradesToday : Js.numfield) (operational : bool).

Definition Run (A : Type) : Type :=
  RiskManager -> list Event * RiskManager * option A.

Definition done {A : Type} (a : A) : Run A :=
  fun rm => ([], rm, Some a).

Definition andThen {A B : Type} (m : Run A) (f : A -> Run B) : Run B :=
  fun rm =>
    match m rm with
    | (t1, rm1, Some a) =>
        match f a rm1 with
        | (t2, rm2, r) => (t1 ++ t2, rm2, r)
        end
    | (t1, rm1, None) => (t1, rm1, None)
    end.

Notation "x <~ m ;; k" := (andThen m (fun x => k))
  (at level 61, m at next level, right associativity).
Notation "m ~;; k" := (andThen m (fun _ => k))
  (at level 61, right associativity).

(** A computation of [Eff], with its requests as events. *)
Definition sent {A : Type} (m : Eff A) : Run A :=
  fun rm =>
    match m rm with
    | (t, rm', r) => (map Sent t, rm', r)
    end.

Definition emit (e : Event) : Run unit :=
  fun rm => ([e], rm, Some tt).

(** [try { m } catch (error) { logger.error (...) }]. *)
Definition guarded (m : Run unit) : Run unit :=
  fun rm =>
    match m rm with
    | (t, rm', _) => (t, rm', Some tt)
    end.

Definition events_of {A : Type} (r : list Event * RiskManager * option A)
  : list Event := fst (fst r).

Definition risk_of {A : Type} (r : list Event * RiskManager * option A)
  : RiskManager := snd (fst r).

(** [coreCoins.includes (s)]. *)
Definition isCoreCoin (tcfg : TradingConfig) (s : string) : bool :=
  existsb (String.eqb s) (trading_coreCoins tcfg).

(** The [Set] of the symbols of the open orders that are not core coins, as
    the list of its elements. *)
Definition satellitePairs (tcfg : TradingConfig) (openOrders : list Order)
  : list string :=
  nodup string_dec
    (filter (fun s => negb (isCoreCoin tcfg s)) (map symbol openOrders)).

(** [set.size >= config.risk.maxOpenSatelliteTrades]. *)
Definition capReached (tcfg : TradingConfig) (pairs : list string) : bool :=
  Js.ge (Js.Fin (inject_Z (Z.of_nat (List.length pairs))))
    (Js.Fin (risk_maxOpenSatelliteTrades tcfg)).

(** [s.replace (pattern, replacement)] for a string pattern: the first
    occurrence is replaced. *)
Fixpoint dropChars (n : nat) (s : string) : string :=
  match n, s with
  | O, _ => s
  | S n', String _ rest => dropChars n' rest
  | S _, EmptyString => EmptyString
  end.

Fixpoint replaceFirst (pattern replacement s : string) : string :=
  if String.prefix pattern s then
    append replacement (dropChars (String.length pattern) s)
  else
    match s with
    | EmptyString => EmptyString
    | String c rest => String c (replaceFirst pattern replacement rest)
    end.

Section Cycle.

Variable cfg : Config.
Variable tcfg : TradingConfig.
Variable RSI_calculate : list Js.number -> list Js.number.
Variable sentimentAnalyzer : Sentiment.

(** The answer of the fear-and-greed gauge: [parseInt (json.data[0].value)],
    or [None] when the fetch or the reading of the answer throws. *)
Variable fearGreed : option Js.number.

Definition getMarketSentiment : Run Js.number :=
  emit FetchFearGreed ~;;
  done match fearGreed with
       | Some value => value
       | None => Js.Fin 50
       end.

(** The loop over the pairs of [tick].  The exchange may answer differently
    from one pair to the next: [binanceAt k] gives its answers while the
    pair at position [k] of the list is processed and re-checked. *)
Fixpoint scanPairs (binanceAt : nat -> Exchange) (k : nat)
  (activeSatellitePairs : list string) (pairs : list string) : Run unit :=
  match pairs with
  | [] => done tt
  | p :: rest =>
      if existsb (String.eqb p) activeSatellitePairs then
        scanPairs binanceAt (S k) activeSatellitePairs rest
      else
        sent (processPair cfg RSI_calculate (binanceAt k) sentimentAnalyzer
                p) ~;;
        currentOpen <~ sent (request GetOpenOrders
                               (getOpenOrders (binanceAt k))) ;;
        if capReached tcfg (satellitePairs tcfg currentOpen) then done tt
        else scanPairs binanceAt (S k) activeSatellitePairs rest
  end.

(** [tick]; [binance] answers before the scan and [binanceAt k] during the
    processing of the pair at position [k].  It has no [try]: a failing
    request makes it throw. *)
Definition tick (binance : Exchange) (binanceAt : nat -> Exchange)
  : Run unit :=
  totalValue <~ sent (request GetTotalValueUsdt
                        (getTotalValueUsdt binance)) ;;
  sent (modify (updateBalance cfg totalValue)) ~;;
  tradable <~ sent (query canTrade) ;;
  if negb tradable then done tt else
  marketSentiment <~ getMarketSentiment ;;
  if Js.lt marketSentiment (Js.Fin (risk_minSentiment tcfg)) then done tt
  else
  openOrders <~ sent (request GetOpenOrders (getOpenOrders binance)) ;;
  let activeSatellitePairs := satellitePairs tcfg openOrders in
  if capReached tcfg activeSatellitePairs then done tt else
  scanPairs binanceAt 0 activeSatellitePairs (trading_pairs tcfg).

(** [binance.balances[asset]?.total || 0], from the cached balances. *)
Definition balanceOrZero (balances : string -> option Js.number)
  (asset : string) : Js.number :=
  match balances asset with
  | Some total => if Js.truthy (Js.VNumber total) then total else Js.Fin 0
  | None => Js.Fin 0
  end.

(** The first loop of [checkMaintainCore]. *)
Fixpoint coreValue (binance : Exchange)
  (balances : string -> option Js.number) (coreCoins : list string)
  (currentCoreValue : Js.number) : Run Js.number :=
  match coreCoins with
  | [] => done currentCoreValue
  | p :: rest =>
      let asset := replaceFirst "USDT" "" p in
      let balance := balanceOrZero balances asset in
      price <~ sent (request (GetPrice p) (getPrice binance p)) ;;
      coreValue binance balances rest
        (Js.add currentCoreValue (Js.mul balance price))
  end.

(** The second loop of [checkMaintainCore]. *)
Fixpoint buyCore (binance : Exchange) (buyAmount : Js.number)
  (coreCoins : list string) : Run unit :=
  match coreCoins with
  | [] => done tt
  | p :: rest =>
      (if Js.ge buyAmount (Js.Fin (risk_minOrderSizeUsdt cfg)) then
         price <~ sent (request (GetPrice p) (getPrice binance p)) ;;
         sent (request (MarketBuy p (Js.div buyAmount price))
                 (marketBuy binance p (Js.div buyAmount price))) ~;;
         emit (RebalanceAlert p buyAmount)
       else done tt) ~;;
      buyCore binance buyAmount rest
  end.

Definition checkMaintainCore (binance : Exchange)
  (balances : string -> option Js.number) (totalValue : Js.number)
  : Run unit :=
  guarded (
    let targetCoreValue := Js.mul totalValue (Js.Fin (allocation_core tcfg)) in
    let coreCoins := trading_coreCoins tcfg in
    currentCoreValue <~ coreValue binance balances coreCoins (Js.Fin 0) ;;
    if Js.lt currentCoreValue
         (Js.mul totalValue
            (Js.sub (Js.Fin (allocation_core tcfg)) (Js.Fin 0.05)))
    then
      let deficit := Js.sub targetCoreValue currentCoreValue in
      let buyAmount :=
        Js.div deficit
          (Js.Fin (inject_Z (Z.of_nat (List.length coreCoins)))) in
      buyCore binance buyAmount coreCoins
    else done tt).

(** [sendDailyRecap]: the alert carries the PnL in percent, the balance,
    the trades of the day and the status. *)
Definition sendDailyRecap (totalValue : Js.number) : Run unit :=
  fun rm =>
    ([DailyRecap
        (Js.mul (Js.toNumber (dailyPnL (dailyStats rm))) (Js.Fin 100))
        totalValue (tradesCount (dailyStats rm)) (canTrade rm)],
     rm, Some tt).

(** [!this.lastRecapTime || now - this.lastRecapTime > 86400000]. *)
Definition recapDue (now : Js.number) (lastRecapTime : option Js.number)
  : bool :=
  match lastRecapTime with
  | None => true
  | Some t =>
      negb (Js.truthy (Js.VNumber t))
      || Js.gt (Js.sub now t) (Js.Fin 86400000)
  end.

(** [heartbeat], at the time [now] ([Date.now ()]), with the value of
    [this.lastRecapTime] ([None] while it is undefined); it answers the
    value [this.lastRecapTime] has afterwards. *)
Definition heartbeat (binance : Exchange)
  (balances : string -> option Js.number) (now : Js.number)
  (lastRecapTime : option Js.number) : Run (option Js.number) :=
  fun rm =>
    let body :=
      totalValue <~ sent (request GetTotalValueUsdt
                            (getTotalValueUsdt binance)) ;;
      sent (modify (updateBalance cfg totalValue)) ~;;
      checkMaintainCore binance balances totalValue ~;;
      sent (manageTrailingStops binance) ~;;
      if recapDue now lastRecapTime then
        sendDailyRecap totalValue ~;; done (Some now)
      else done lastRecapTime in
    match body rm with
    | (t, rm', Some last) => (t, rm', Some last)
    | (t, rm', None) => (t, rm', Some lastRecapTime)
    end.

End Cycle.

(** The pair a request is about. *)
Definition pairOf (r : Request) : option string :=
  match r with
  | GetCandles p _ _ | GetLatestNews p | AnalyzeNews _ p | GetPrice p
  | MarketBuy p _ | OcoSell p _ _ _ | CancelOrderList p _ | CancelOrder p _
  | SendTradeAlert p | SendAlert p _ => Some p
  | GetTotalValueUsdt | GetOpenOrders => None
  end.

(** The events that are requests about the pair [p]. *)
Definition concerns (p : string) (e : Event) : bool :=
  match e with
  | Sent r =>
      match pairOf r with
      | Some s => String.eqb s p
      | None => false
      end
  | _ => false
  end.

(** The market orders for the pair [p]. *)
Definition buys (p : string) (e : Event) : bool :=
  match e with
  | Sent (MarketBuy s _) => String.eqb s p
  | _ => false
  end.

(** The value the gauge has for [tick]. *)
Definition gaugeValue (fearGreed : option Js.number) : Js.number :=
  match fearGreed with
  | Some value => value
  | None => Js.Fin 50
  end.

(** The value of the core holdings at the prices [prices]: what the first
    loop of [checkMaintainCore] adds up. *)
Definition coreValuation (balances : string -> option Js.number)
  (prices : string -> Js.number) (coreCoins : list string) : Js.number :=
  fold_left
    (fun acc p =>
       Js.add acc
         (Js.mul (balanceOrZero balances (replaceFirst "USDT" "" p))
            (prices p)))
    coreCoins (Js.Fin 0).

(** The test of the buffer band in [checkMaintainCore]. *)
Definition belowCoreBand (tcfg : TradingConfig)
  (totalValue currentCoreValue : Js.number) : bool :=
  Js.lt currentCoreValue
    (Js.mul totalValue
       (Js.sub (Js.Fin (allocation_core tcfg)) (Js.Fin 0.05))).

(** The amount [checkMaintainCore] buys of each core coin. *)
Definition coreBuyAmount (tcfg : TradingConfig)
  (totalValue currentCoreValue : Js.number) : Js.number :=
  Js.div
    (Js.sub (Js.mul totalValue (Js.Fin (allocation_core tcfg)))
       currentCoreValue)
    (Js.Fin
       (inject_Z (Z.of_nat (List.length (trading_coreCoins tcfg))))).

(** The value, at the prices [prices], of what the market orders among the
    events buy. *)
Fixpoint boughtValue (prices : string -> Js.number) (es : list Event)
  : Js.number :=
  match es with
  | [] => Js.Fin 0
  | Sent (MarketBuy p quantity) :: rest =>
      Js.add (Js.mul quantity (prices p)) (boughtValue prices rest)
  | _ :: rest => boughtValue prices rest
  end.

Definition isOrder (e : Event) : bool :=
  match e with
  | Sent (MarketBuy _ _) | Sent (OcoSell _ _ _ _) => true
  | _ => false
  end.

Definition isRecap (e : Event) : bool :=
  match e with
  | DailyRecap _ _ _ _ => true
  | _ => false
  end.

(** A computation that neither reads nor updates the risk manager, and
    whose events all satisfy [P]. *)
Definition stateless {E A : Type} (P : E -> Prop)
  (m : RiskManager -> list E * RiskManager * option A) : Prop :=
  exists t r, Forall P t /\ forall rm, m rm = (t, rm, r).

Definition anyRequest (r : Request) : Prop := True.

Definition notRecap (e : Event) : Prop := isRecap e = false.

(* ================================================================== *)
(** ** The remote control ([src/integration/discord.js])

    The pause and the resume of the two variants of the integration: both
    set the flag and save the record. *)

Definition handlePause (rm : RiskManager) : RiskManager :=
  saveStats (with_stats (set_isHalted true (dailyStats rm)) rm).

Definition handleResume (rm : RiskManager) : RiskManager :=
  saveStats (with_stats (set_isHalted false (dailyStats rm)) rm).

(** A message of the channel, for [handleCommand].  The characters of a
    string are taken as code units below 256. *)
Record Message : Type := mkMessage {
  author_bot : bool;
  author_id : string;
  content : string
}.

Inductive Reply : Type :=
| Unauthorized
| StatusReport (day : string) (halted : bool) (pnl : Js.number)
    (trades : Js.numfield) (balance : Js.number)
| TradingPaused
| TradingResumed
| ShuttingDown
| UnknownCommand (cmd : string).

(** How a call of [handleCommand] ends: it returns, it throws, or it ends
    the process ([process.exit (0)]). *)
Inductive Ending : Type :=
| Returned
| Thrown
| Exited.

(** [c.toLowerCase ()] on a code unit below 256: the letters A-Z and the
    capital letters of Latin-1 (U+00C0 to U+00DE, the sign U+00D7 apart). *)
Definition toLowerChar (c : Ascii.ascii) : Ascii.ascii :=
  let n := Ascii.nat_of_ascii c in
  if ((65 <=? n) && (n <=? 90))%nat
     || ((192 <=? n) && (n <=? 222) && negb (n =? 215))%nat
  then Ascii.ascii_of_nat (n + 32)
  else c.

Fixpoint toLowerCase (s : string) : string :=
  match s with
  | EmptyString => EmptyString
  | String c rest => String (toLowerChar c) (toLowerCase rest)
  end.

(** [s.split (' ')[0]]. *)
Fixpoint firstWord (s : string) : string :=
  match s with
  | EmptyString => EmptyString
  | String c rest =>
      if (Ascii.nat_of_ascii c =? 32)%nat then EmptyString
      else String c (firstWord rest)
  end.

Definition handleCommand (adminUserIds : list string) (message : Message)
  (rm : RiskManager) : list Reply * RiskManager * Ending :=
  if author_bot message then ([], rm, Returned)
  else if negb (String.prefix "!" (content message)) then ([], rm, Returned)
  else if negb (existsb (String.eqb (author_id message)) adminUserIds) then
    ([Unauthorized], rm, Returned)
  else
    let cmd := firstWord (dropChars 1 (content message)) in
    let command := toLowerCase cmd in
    if String.eqb command "status" then
      let stats := dailyStats rm in
      match currentBalance stats with
      | Js.Num balance =>
          ([StatusReport (date stats) (isHalted stats)
              (Js.mul (Js.toNumber (dailyPnL stats)) (Js.Fin 100))
              (tradesCount stats) balance],
           rm, Returned)
      | Js.Null => ([], rm, Thrown)
      end
    else if String.eqb command "pause" then
      ([TradingPaused], handlePause rm, Returned)
    else if String.eqb command "resume" then
      ([TradingResumed], handleResume rm, Returned)
    else if String.eqb command "kill" then ([ShuttingDown], rm, Exited)
    else ([UnknownCommand cmd], rm, Returned).

(* ================================================================== *)
(** ** The portfolio value ([src/exchange/binance.js]) *)

Module Binance.

(** An entry of [this.balances]. *)
Record Balance : Type := mkBalance {
  free : Js.number;
  locked : Js.number;
  total : Js.number
}.

(** [this.balances]: the entries in the order of their insertion (no asset
    is named by an integer). *)
Definition Balances : Type := list (string * Balance).

Fixpoint lookup (asset : string) (balances : Balances) : option Balance :=
  match balances with
  | [] => None
  | (a, b) :: rest => if String.eqb a asset then Some b else lookup asset rest
  end.

(** [balances[asset] = b]. *)
Fixpoint store (asset : string) (b : Balance) (balances : Balances)
  : Balances :=
  match balances with
  | [] => [(asset, b)]
  | (a, b') :: rest =>
      if String.eqb a asset then (a, b) :: rest
      else (a, b') :: store asset b rest
  end.

(** An entry of [account.balances], with its two amounts parsed. *)
Record AccountBalance : Type := mkAccountBalance {
  asset : string;
  parsedFree : Js.number;
  parsedLocked : Js.number
}.

(** [config.paper]. *)
Record Paper : Type := mkPaper {
  enabled : bool;
  startingBalance : Js.number
}.

(** [updateBalances]: the balances afterwards, and [None] when it throws
    (the account request failed, answer [None] of [accountInfo]). *)
Definition updateBalances (paper : Paper)
  (accountInfo : option (list AccountBalance)) (balances : Balances)
  : Balances * option unit :=
  if enabled paper then
    match lookup "USDT" balances with
    | Some _ => (balances, Some tt)
    | None =>
        (store "USDT"
           {| free := startingBalance paper;
              locked := Js.Fin 0;
              total := startingBalance paper |} balances,
         Some tt)
    end
  else
    match accountInfo with
    | None => (balances, None)
    | Some account =>
        (fold_left
           (fun bs balance =>
              if Js.gt (parsedFree balance) (Js.Fin 0)
                 || Js.gt (parsedLocked balance) (Js.Fin 0)
              then
                store (asset balance)
                  {| free := parsedFree balance;
                     locked := parsedLocked balance;
                     total := Js.add (parsedFree balance)
                                (parsedLocked balance) |} bs
              else bs)
           account [],
         Some tt)
    end.

(** The loop of [getTotalValueUsdt]; [getPrice] answers [None] when the
    price request throws. *)
Fixpoint sumValues (getPrice : string -> option Js.number)
  (entries : Balances) (totalValue : Js.number) : Js.number :=
  match entries with
  | [] => totalValue
  | (a, balance) :: rest =>
      if Js.le (total balance) (Js.Fin 0) then
        sumValues getPrice rest totalValue
      else if String.eqb a "USDT" then
        sumValues getPrice rest (Js.add totalValue (total balance))
      else
        match getPrice (append a "USDT") with
        | Some price =>
            sumValues getPrice rest
              (Js.add totalValue (Js.mul (total balance) price))
        | None => sumValues getPrice rest totalValue
        end
  end.

Definition getTotalValueUsdt (paper : Paper)
  (accountInfo : option (list AccountBalance))
  (getPrice : string -> option Js.number) (balances : Balances)
  : Balances * option Js.number :=
  match updateBalances paper accountInfo balances with
  | (balances', Some _) =>
      (balances', Some (sumValues getPrice balances' (Js.Fin 0)))
  | (balances', None) => (balances', None)
  end.

End Binance.

(** Whether a string holds a space. *)
Fixpoint hasSpace (s : string) : bool :=
  match s with
  | EmptyString => false
  | String c rest => (Ascii.nat_of_ascii c =? 32)%nat || hasSpace rest
  end.

(** A number that is not below zero: a finite one that is at least 0,
    [Infinity], or [NaN]. *)
Definition notNegative (x : Js.number) : Prop := Js.lt x (Js.Fin 0) = false.

(* ================================================================== *)
(** ** The arithmetic of the program on concrete inputs

    The program computes in binary64.  For the concrete inputs of the
    examples the computations that decide a claim at the level of one
    rounding are evaluated here in the binary64 numbers of the kernel,
    operation by operation as the source writes them. *)

Module Binary64.

Import Floats.

(** The double nearest to a fraction of two integers below 2^53 (the
    division is correctly rounded): the value of a decimal literal, and of
    [parseFloat] on a decimal string. *)
Definition ofZ (z : Z) : float :=
  if (z <? 0)%Z then (- of_uint63 (Uint63.of_Z (- z)))%float
  else of_uint63 (Uint63.of_Z z).

Definition ofQ (q : Q) : float := (ofZ (Qnum q) / ofZ (Zpos (Qden q)))%float.

Definition isNaN (x : float) : bool := negb (x =? x)%float.

(** [Math.max (a, b)] and [Math.min (a, b)] (up to the sign of a zero). *)
Definition max (a b : float) : float :=
  if isNaN a || isNaN b then nan else if (a <? b)%float then b else a.

Definition min (a b : float) : float :=
  if isNaN a || isNaN b then nan else if (b <? a)%float then b else a.

(** [|x - y| < eps], and [x === y]. *)
Definition near (eps x y : float) : bool := (abs (x - y) <? eps)%float.

Definition same (x y : float) : bool := (x =? y)%float.

Record ExitPoints : Type := mkExitPoints {
  stopLoss : float;
  takeProfit : float
}.

(** [getExitPoints]; the target gain is [None] when it is no number. *)
Definition getExitPoints (cfg : Config) (entryPrice : float) (side : string)
  (targetGain : option float) : ExitPoints :=
  let slPercent := ofQ (risk_defaultStopLoss cfg) in
  let tpPercent :=
    match targetGain with
    | Some g =>
        if negb (g =? 0)%float && negb (isNaN g) then
          min (max (g / 100) (ofQ 0.02)) (ofQ 0.15)
        else ofQ (risk_defaultTakeProfit cfg)
    | None => ofQ (risk_defaultTakeProfit cfg)
    end in
  if String.eqb side "BUY" then
    {| stopLoss := entryPrice * (1 - slPercent);
       takeProfit := entryPrice * (1 + tpPercent) |}
  else
    {| stopLoss := entryPrice * (1 + slPercent);
       takeProfit := entryPrice * (1 - tpPercent) |}.

(** [updateBalance]: [dailyPnL = (totalValue / initialBalance) - 1], and
    the first test of [checkBreakers]: [dailyPnL <= -dailyLossLimit]. *)
Definition dailyPnL (totalValue initialBalance : float) : float :=
  (totalValue / initialBalance - 1)%float.

Definition dailyLossReached (dailyLossLimit pnl : float) : bool :=
  (pnl <=? - dailyLossLimit)%float.

(** The test of [manageTrailingStops]: [currentPrice > stopPrice * 1.02]. *)
Definition ratchetDue (stopPrice currentPrice : float) : bool :=
  (stopPrice * ofQ 1.02 <? currentPrice)%float.

End Binary64.

(* ================================================================== *)
(** ** Rounding

    The products of the program are rounded to binary64.  On the range of
    the normal numbers the rounded value of [x] is within a relative error
    of 2^-53 of [x]; [roundsToNearest] says so of a rounding operator. *)

Definition unitRoundoff : Q := 1 # (2 ^ 53).
Definition smallestNormal : Q := 1 # (2 ^ 1022).
Definition largestPower : Q := inject_Z (2 ^ 1023).

Definition roundsToNearest (rnd : Q -> Q) : Prop :=
  forall x : Q,
    smallestNormal <= Qabs x -> Qabs x <= largestPower ->
    Qabs (rnd x - x) <= unitRoundoff * Qabs x.

(** [x] is a normal number with room for a rounding or two. *)
Definition wellInRange (x : Q) : bool :=
  Qle_bool (2 * smallestNormal) (Qabs x)
  && Qle_bool (2 * Qabs x) largestPower.

(** The price is clear of the threshold of the trailing-stop pass: the
    exact product [stopPrice * 1.02] is a normal number and the price is
    further from it than the two roundings of the program's
    [stopPrice * 1.02] (of the literal and of the product) can move it. *)
Definition clearOfThreshold (stopPrice currentPrice : Js.number) : bool :=
  match stopPrice, currentPrice with
  | Js.Fin s, Js.Fin p =>
      wellInRange (s * 1.02)
      && Js.Qlt_bool (4 * unitRoundoff * Qabs (s * 1.02))
           (Qabs (p - s * 1.02))
  | Js.Fin s, _ => wellInRange (s * 1.02)
  | _, _ => true
  end.

(** Below the normal numbers binary64 is evenly spaced: the rounded value
    of [x] is within 2^-1075 of [x]. *)
Definition roundsSubnormals (rnd : Q -> Q) : Prop :=
  forall x : Q,
    Qabs x <= smallestNormal ->
    Qabs (rnd x - x) <= unitRoundoff * smallestNormal.

(** The balance is clear of the daily-loss threshold: the quotient
    [totalValue / initialBalance] does not overflow and the exact
    [totalValue / initialBalance - 1] is further from [- dailyLossLimit]
    than the three roundings of the program (of the quotient, of the
    difference, of the limit) can move it. *)
Definition clearOfLossLimit (dailyLossLimit totalValue initialBalance : Q)
  : bool :=
  let q := totalValue / initialBalance in
  Qle_bool (2 * Qabs q + 2) largestPower
  && Qle_bool (Qabs dailyLossLimit) largestPower
  && Js.Qlt_bool (4 * unitRoundoff * (Qabs q + Qabs dailyLossLimit + 1))
       (Qabs (q - 1 + dailyLossLimit)).

(* ================================================================== *)
(** ** The write of the data file

    [saveStats] writes with [fs.writeFileSync] and has no [try]: when the
    file system refuses the write it throws, and so does the method that
    called it.  [writable] says whether the write is accepted; a refused
    write leaves the file as it was. *)

Definition saveStatsOn (writable : bool) (rm : RiskManager)
  : RiskManager * Ending :=
  if writable then (saveStats rm, Returned) else (rm, Thrown).

(** [updateBalance] on such a file system: the record is updated and the
    breakers are evaluated before the write. *)
Definition updateBalanceOn (writable : bool) (cfg : Config)
  (totalValue : Js.number) (rm : RiskManager) : RiskManager * Ending :=
  let s := dailyStats rm in
  let initial :=
    if Js.field_strict_eq (initialBalance s) (Js.Fin 0) then Js.Num totalValue
    else initialBalance s in
  let s' :=
    {| date := date s;
       initialBalance := initial;
       currentBalance := Js.Num totalValue;
       tradesCount := tradesCount s;
       dailyPnL :=
         Js.Num (Js.sub (Js.div totalValue (Js.toNumber initial)) (Js.Fin 1));
       isHalted := isHalted s |} in
  saveStatsOn writable (checkBreakers cfg (with_stats s' rm)).

(* ================================================================== *)
(** ** The trade decisions of a scan cycle *)

(** The analyses of news items for the pair [p]. *)
Definition analyses (p : string) (e : Event) : bool :=
  match e with
  | Sent (AnalyzeNews _ q) => String.eqb q p
  | _ => false
  end.

(** The trade decisions for the pair [p]: the analyses for [p] that come
    back as a buy signal. *)
Definition decides (sentimentAnalyzer : Sentiment) (p : string) (e : Event)
  : bool :=
  match e with
  | Sent (AnalyzeNews news q) =>
      String.eqb q p && isBuySignal (analyzeNews sentimentAnalyzer news q)
  | _ => false
  end.

(** The requests of a trade execution that name the pair [p]: the price,
    the market order, the exit order and the trade alert. *)
Definition trades (p : string) (e : Event) : bool :=
  match e with
  | Sent r => isTradeRequest r && concerns p e
  | _ => false
  end.

(** What the loop of [tick] sends for the entries of [config.trading.pairs]
    that it processes: for each the requests of [processPair], then the
    re-check of the open orders.  An entry is given with the answers of the
    exchange and the risk manager that its run starts from. *)
Definition pairRuns (cfg : Config)
  (RSI_calculate : list Js.number -> list Js.number)
  (sentimentAnalyzer : Sentiment)
  (runs : list (string * Exchange * RiskManager)) : list Event :=
  flat_map
    (fun run =>
       map Sent
         (trace_of
            (processPair cfg RSI_calculate (snd (fst run)) sentimentAnalyzer
               (fst (fst run)) (snd run)))
       ++ [Sent GetOpenOrders])
    runs.

(** The exchange [binance], leaving the orders on core coins out of its
    answers to [getOpenOrders]. *)
Definition dropCoreOrders (tcfg : TradingConfig) (binance : Exchange)
  : Exchange :=
  {| getCandles := getCandles binance;
     getTotalValueUsdt := getTotalValueUsdt binance;
     getPrice := getPrice binance;
     getOpenOrders :=
       option_map (filter (fun o => negb (isCoreCoin tcfg (symbol o))))
         (getOpenOrders binance);
     marketBuy := marketBuy binance;
     ocoSell := ocoSell binance;
     cancelOrderList := cancelOrderList binance;
     cancelOrder := cancelOrder binance |}.

(* ================================================================== *)
(** ** Values for the examples *)

Definition altcoinConfig : TradingConfig := {|
  trading_pairs := ["SOLUSDT"; "ADAUSDT"; "DOTUSDT"]%string;
  trading_coreCoins := ["BTCUSDT"; "ETHUSDT"]%string;
  allocation_core := 0.60;
  risk_minSentiment := 20;
  risk_maxOpenSatelliteTrades := 2
|}.

(** [TRADING_PAIRS=SOLUSDT,SOLUSDT]: the list of the pairs is the value of
    the variable split at the commas, so a pair can be listed twice. *)
Definition repeatedPairConfig : TradingConfig := {|
  trading_pairs := ["SOLUSDT"; "SOLUSDT"]%string;
  trading_coreCoins := ["BTCUSDT"; "ETHUSDT"]%string;
  allocation_core := 0.60;
  risk_minSentiment := 20;
  risk_maxOpenSatelliteTrades := 2
|}.

Definition bullishAnalyzer : Sentiment :=
  mkSentiment
    (fun _ => ["Mainnet launch confirmed by the team"%string])
    (fun _ _ =>
       Some (mkAnalysis "BULLISH" "HIGH" (Js.Fin 95) (Js.VNumber (Js.Fin 8))
               "launch" "BUY")).

Definition limitOrder (s : string) : Order :=
  mkOrder s "LIMIT" 1 (-1) (Js.VNumber (Js.Fin 1)) (Js.VNumber (Js.Fin 100))
    (Js.Fin 0).

Definition stopOrder (s : string) (stop : Q) : Order :=
  mkOrder s "STOP_LOSS_LIMIT" 2 7 (Js.VNumber (Js.Fin 1))
    (Js.VNumber (Js.Fin 99)) (Js.Fin stop).

(** An exchange that refuses every exit order. *)
Definition refusingExchange (orders : list Order) (currentPrice : Js.number)
  : Exchange :=
  {| getCandles := fun _ _ => Some [];
     getTotalValueUsdt := Some (Js.Fin 1000);
     getPrice := fun _ => Some currentPrice;
     getOpenOrders := Some orders;
     marketBuy := fun _ quantity => Some (Js.VNumber quantity);
     ocoSell := fun _ _ _ _ => None;
     cancelOrderList := fun _ _ => Some tt;
     cancelOrder := fun _ _ => Some tt |}.

(** A manager halted by a balance under the minimum. *)
Definition haltedManager : RiskManager :=
  updateBalance defaultConfig (Js.Fin 10) (newRiskManager "2026-01-01" None).


(* ================================================================== *)
(** ** Facts about numbers *)

Lemma Qlt_bool_iff (x y : Q) : Js.Qlt_bool x y = true <-> x < y.
Proof.
  unfold Js.Qlt_bool. rewrite negb_true_iff.
  destruct (Qle_bool y x) eqn:E.
  - apply Qle_bool_iff in E. split; [discriminate | intro; lra].
  - split; [intros _ | reflexivity].
    apply Qnot_le_lt. intro H. apply Qle_bool_iff in H. congruence.
Qed.

Lemma Qlt_bool_false (x y : Q) : Js.Qlt_bool x y = false <-> y <= x.
Proof.
  destruct (Js.Qlt_bool x y) eqn:E.
  - apply Qlt_bool_iff in E. split; [discriminate | intro; lra].
  - split; [intros _ | reflexivity].
    apply Qnot_lt_le. intro H. apply Qlt_bool_iff in H. congruence.
Qed.

Lemma Qle_bool_false (x y : Q) : Qle_bool x y = false <-> y < x.
Proof.
  destruct (Qle_bool x y) eqn:E.
  - apply Qle_bool_iff in E. split; [discriminate | intro; lra].
  - split; [intros _ | reflexivity].
    apply Qnot_le_lt. intro H. apply Qle_bool_iff in H. congruence.
Qed.

Lemma Qeq_bool_false (x y : Q) : Qeq_bool x y = false <-> ~ x == y.
Proof.
  split.
  - apply Qeq_bool_neq.
  - intro H. destruct (Qeq_bool x y) eqn:E; [|reflexivity].
    apply Qeq_bool_iff in E. contradiction.
Qed.

Lemma Qcompare_0_Gt (x : Q) : 0 < x -> (x ?= 0) = Gt.
Proof. intro H. apply Qgt_alt. exact H. Qed.

(** Turns the boolean tests on rationals among the hypotheses and in the
    goal into propositions. *)
Ltac q_reflect :=
  repeat match goal with
  | H : Js.Qlt_bool _ _ = true |- _ => apply Qlt_bool_iff in H
  | H : Js.Qlt_bool _ _ = false |- _ => apply Qlt_bool_false in H
  | H : Qle_bool _ _ = true |- _ => apply Qle_bool_iff in H
  | H : Qle_bool _ _ = false |- _ => apply Qle_bool_false in H
  | H : Qeq_bool _ _ = true |- _ => apply Qeq_bool_iff in H
  | H : Qeq_bool _ _ = false |- _ => apply Qeq_bool_false in H
  | |- Js.Qlt_bool _ _ = true => apply Qlt_bool_iff
  | |- Js.Qlt_bool _ _ = false => apply Qlt_bool_false
  | |- Qle_bool _ _ = true => apply Qle_bool_iff
  | |- Qle_bool _ _ = false => apply Qle_bool_false
  | |- Qeq_bool _ _ = true => apply Qeq_bool_iff
  | |- Qeq_bool _ _ = false => apply Qeq_bool_false
  end.

Lemma num_eq_refl (a : Js.number) : a =n= a.
Proof. destruct a; simpl; auto with qarith. Qed.

Lemma num_eq_sym (a b : Js.number) : a =n= b -> b =n= a.
Proof. destruct a, b; simpl; auto with qarith. Qed.

Lemma num_eq_trans (a b c : Js.number) : a =n= b -> b =n= c -> a =n= c.
Proof.
  destruct a, b, c; simpl; try tauto. intros H1 H2. now rewrite H1.
Qed.

Lemma lt_num_eq (a a' b b' : Js.number) :
  a =n= a' -> b =n= b' -> Js.lt a b = Js.lt a' b'.
Proof.
  destruct a, a', b, b'; simpl; try tauto; intros H1 H2.
  unfold Js.Qlt_bool. now rewrite H1, H2.
Qed.

Lemma max_num_eq (a a' b b' : Js.number) :
  a =n= a' -> b =n= b' -> Js.max a b =n= Js.max a' b'.
Proof.
  intros H1 H2. unfold Js.max.
  rewrite (lt_num_eq a a' b b' H1 H2).
  destruct a, a', b, b'; simpl in *; try tauto;
    destruct (Js.Qlt_bool _ _); simpl; auto.
Qed.

Lemma mul_num_eq (a a' b b' : Js.number) :
  a =n= a' -> b =n= b' -> Js.mul a b =n= Js.mul a' b'.
Proof.
  destruct a, a', b, b'; simpl; try tauto; intros H1 H2;
    try (now rewrite ?H1, ?H2);
    try (rewrite H1; apply num_eq_refl);
    try (rewrite H2; apply num_eq_refl).
Qed.

(** Scaling a product by a positive factor can be done on either side. *)
Lemma mul_scale_assoc (a : Js.number) (r k : Q) :
  0 < k ->
  Js.mul (Js.mul a (Js.Fin r)) (Js.Fin k) =n= Js.mul a (Js.Fin (r * k)).
Proof.
  intro Hk. destruct a as [q| | |]; simpl; auto.
  - ring.
  - destruct (Qcompare_spec r 0) as [E|E|E]; simpl.
    + assert (H : r * k == 0) by (rewrite E; ring).
      rewrite (proj1 (Qeq_alt _ _) H). exact I.
    + assert (H : r * k < 0) by nra.
      rewrite (proj1 (Qlt_alt _ _) H). simpl.
      rewrite (proj1 (Qlt_alt _ _) Hk). exact I.
    + assert (H : 0 < r * k) by nra.
      rewrite (proj1 (Qgt_alt _ _) H). simpl.
      rewrite (Qcompare_0_Gt k Hk). exact I.
  - destruct (Qcompare_spec 0 r) as [E|E|E]; simpl.
    + assert (H : 0 == r * k) by (rewrite <- E; ring).
      rewrite (proj1 (Qeq_alt _ _) H). exact I.
    + assert (H : 0 < r * k) by nra.
      rewrite (proj1 (Qlt_alt _ _) H). simpl.
      rewrite (proj1 (Qlt_alt _ _) Hk). exact I.
    + assert (H : r * k < 0) by nra.
      rewrite (proj1 (Qgt_alt _ _) H). simpl.
      rewrite (Qcompare_0_Gt k Hk). exact I.
Qed.

(* ================================================================== *)
(** ** Position sizing *)

Lemma floorRule_num_eq (cfg : Config) (sat a b : Js.number) :
  a =n= b ->
  match floorRule cfg sat a, floorRule cfg sat b with
  | Some x, Some y => x =n= y
  | None, None => True
  | _, _ => False
  end.
Proof.
  intro H. unfold floorRule.
  rewrite (lt_num_eq a b _ _ H (num_eq_refl _)).
  destruct (Js.lt b _); [destruct (Js.ge sat _)|]; simpl; auto.
  apply Qeq_refl.
Qed.

Lemma floorCapFloor_num_eq (cfg : Config) (tc a b : Js.number) :
  a =n= b -> floorCapFloor cfg tc a =n= floorCapFloor cfg tc b.
Proof.
  intro H. unfold floorCapFloor.
  pose proof (floorRule_num_eq cfg
                (Js.mul tc (Js.Fin (allocation_satellite cfg))) a b H) as F.
  destruct (floorRule cfg _ a) as [x|], (floorRule cfg _ b) as [y|];
    try contradiction; [|apply Qeq_refl].
  unfold Js.gt.
  rewrite (lt_num_eq _ _ x y (num_eq_refl (exposureCap cfg tc)) F).
  set (cx := if Js.lt (exposureCap cfg tc) y then exposureCap cfg tc else x).
  set (cy := if Js.lt (exposureCap cfg tc) y then exposureCap cfg tc else y).
  assert (C : cx =n= cy).
  { unfold cx, cy. destruct (Js.lt _ y); [apply num_eq_refl | exact F]. }
  pose proof (floorRule_num_eq cfg
                (Js.mul tc (Js.Fin (allocation_satellite cfg))) cx cy C) as G.
  destruct (floorRule cfg _ cx), (floorRule cfg _ cy);
    try contradiction; [exact G | apply Qeq_refl].
Qed.

(** The source, once past its two guards, is floor, cap, floor applied to
    [totalCapital * riskFactor]. *)
Lemma calculatePositionSize_active (cfg : Config) (rm : RiskManager)
  (tc cs : Js.number) :
  isHalted (dailyStats rm) = false ->
  Js.lt cs (Js.Fin (confidence_minToTrade cfg)) = false ->
  calculatePositionSize cfg rm tc cs =
  floorCapFloor cfg tc
    (Js.mul tc
       (if Js.ge cs (Js.Fin (confidence_highThreshold cfg))
        then Js.Fin (risk_maxRiskPerTrade cfg * 2)
        else if Js.ge cs (Js.Fin 75)
             then Js.Fin (risk_maxRiskPerTrade cfg * 1.5)
             else Js.Fin (risk_maxRiskPerTrade cfg))).
Proof.
  intros Hh Hc. unfold calculatePositionSize. rewrite Hh, Hc.
  unfold floorCapFloor, floorRule, exposureCap. cbv zeta.
  set (m := Js.Fin (risk_minOrderSizeUsdt cfg)).
  set (sat := Js.mul tc (Js.Fin (allocation_satellite cfg))).
  set (cap := Js.max (Js.mul sat (Js.Fin (risk_maxSatelliteExposure cfg))) m).
  assert (T : forall tv : Js.number,
    match (if Js.lt tv m then if Js.ge sat m then Some m else None
           else Some tv) with
    | Some tradeValue =>
        if Js.lt (if Js.gt tradeValue cap then cap else tradeValue) m
        then if Js.ge sat m then m else Js.Fin 0
        else if Js.gt tradeValue cap then cap else tradeValue
    | None => Js.Fin 0
    end =
    match (if Js.lt tv m then if Js.ge sat m then Some m else None
           else Some tv) with
    | Some floored =>
        match (if Js.lt (if Js.gt floored cap then cap else floored) m
               then if Js.ge sat m then Some m else None
               else Some (if Js.gt floored cap then cap else floored)) with
        | Some final => final
        | None => Js.Fin 0
        end
    | None => Js.Fin 0
    end).
  { intro tv. destruct (Js.lt tv m).
    - destruct (Js.ge sat m); [|reflexivity].
      destruct (Js.lt (if Js.gt m cap then cap else m) m); reflexivity.
    - destruct (Js.lt (if Js.gt tv cap then cap else tv) m);
        [destruct (Js.ge sat m)|]; reflexivity. }
  destruct (Js.ge cs (Js.Fin (confidence_highThreshold cfg)));
    [|destruct (Js.ge cs (Js.Fin 75))]; apply T.
Qed.

Lemma calculatePositionSize_refines (cfg : Config) (rm : RiskManager)
  (tc cs : Js.number) :
  calculatePositionSize cfg rm tc cs
  =n= positionSizeSpec cfg (isHalted (dailyStats rm)) tc cs.
Proof.
  unfold positionSizeSpec.
  destruct (isHalted (dailyStats rm)) eqn:Hh.
  { unfold calculatePositionSize. rewrite Hh. simpl. apply Qeq_refl. }
  destruct (Js.lt cs (Js.Fin (confidence_minToTrade cfg))) eqn:Hc.
  { unfold calculatePositionSize. rewrite Hh, Hc. simpl. apply Qeq_refl. }
  rewrite (calculatePositionSize_active cfg rm tc cs Hh Hc). simpl orb.
  apply floorCapFloor_num_eq. unfold confidenceScale.
  destruct (Js.ge cs (Js.Fin (confidence_highThreshold cfg)));
    [|destruct (Js.ge cs (Js.Fin 75))].
  - apply num_eq_sym, mul_scale_assoc. reflexivity.
  - apply num_eq_sym, mul_scale_assoc. reflexivity.
  - apply num_eq_sym.
    eapply num_eq_trans; [apply mul_scale_assoc; reflexivity|].
    apply mul_num_eq; [apply num_eq_refl|]. simpl. ring.
Qed.



Lemma le_max_r (x : Js.number) (m : Q) :
  x <> Js.NaN -> Js.le (Js.Fin m) (Js.max x (Js.Fin m)) = true.
Proof.
  intro H. destruct x as [q| | |]; simpl; try congruence.
  - destruct (Js.Qlt_bool q m) eqn:E; simpl; q_reflect; lra.
  - q_reflect. lra.
Qed.

Lemma max_not_NaN (x : Js.number) (m : Q) :
  x <> Js.NaN -> Js.max x (Js.Fin m) <> Js.NaN.
Proof.
  intro H. destruct x as [q| | |]; simpl; try congruence.
  destruct (Js.Qlt_bool q m); congruence.
Qed.

(** Floor, cap, floor gives 0 or a value between the minimum order size and
    the cap, as soon as neither the trade value nor the cap is [NaN]. *)
Lemma floorCapFloor_bounds (cfg : Config) (tc tv : Js.number) :
  tv <> Js.NaN ->
  exposureCap cfg tc <> Js.NaN ->
  Js.le (Js.Fin (risk_minOrderSizeUsdt cfg)) (exposureCap cfg tc) = true ->
  floorCapFloor cfg tc tv = Js.Fin 0
  \/ (Js.le (Js.Fin (risk_minOrderSizeUsdt cfg)) (floorCapFloor cfg tc tv)
      = true
      /\ Js.le (floorCapFloor cfg tc tv) (exposureCap cfg tc) = true).
Proof.
  intros Htv Hcap Hle. unfold floorCapFloor, floorRule.
  set (m := risk_minOrderSizeUsdt cfg) in *.
  set (cap := exposureCap cfg tc) in *.
  set (sat := Js.mul tc (Js.Fin (allocation_satellite cfg))).
  destruct (Js.ge sat (Js.Fin m)); unfold Js.gt;
    destruct tv as [v| | |], cap as [c| | |]; try congruence;
    simpl in *; try discriminate;
    repeat match goal with
           | |- context [Js.Qlt_bool ?a ?b] =>
               destruct (Js.Qlt_bool a b) eqn:?; simpl
           end;
    q_reflect; auto; try (right; split; q_reflect; lra); try lra.
Qed.

(** C10.  With strictly positive minimum order size, satellite allocation,
    satellite exposure and risk per trade, and a total capital that is not
    negative, the position size is 0 or lies between the minimum order size
    and the exposure cap, the larger of
    [totalCapital * satellite * maxSatelliteExposure] and the minimum order
    size. *)
Theorem calculatePositionSize_bounds :
  forall (cfg : Config) (rm : RiskManager)
         (totalCapital confidenceScore : Js.number),
    0 < risk_minOrderSizeUsdt cfg ->
    0 < allocation_satellite cfg ->
    0 < risk_maxSatelliteExposure cfg ->
    0 < risk_maxRiskPerTrade cfg ->
    Js.le (Js.Fin 0) totalCapital = true ->
    let size := calculatePositionSize cfg rm totalCapital confidenceScore in
    size = Js.Fin 0
    \/ (Js.le (Js.Fin (risk_minOrderSizeUsdt cfg)) size = true
        /\ Js.le size
             (Js.max
                (Js.mul
                   (Js.mul totalCapital (Js.Fin (allocation_satellite cfg)))
                   (Js.Fin (risk_maxSatelliteExposure cfg)))
                (Js.Fin (risk_minOrderSizeUsdt cfg))) = true).
Proof.
  intros cfg rm tc cs Hm Hs He Hr Htc size. subst size.
  fold (exposureCap cfg tc).
  destruct (isHalted (dailyStats rm)) eqn:Hh.
  { left. unfold calculatePositionSize. now rewrite Hh. }
  destruct (Js.lt cs (Js.Fin (confidence_minToTrade cfg))) eqn:Hc.
  { left. unfold calculatePositionSize. now rewrite Hh, Hc. }
  rewrite (calculatePositionSize_active cfg rm tc cs Hh Hc).
  assert (Hsat : Js.mul (Js.mul tc (Js.Fin (allocation_satellite cfg)))
                   (Js.Fin (risk_maxSatelliteExposure cfg)) <> Js.NaN).
  { destruct tc as [q| | |]; simpl in *; try discriminate.
    rewrite (Qcompare_0_Gt _ Hs). simpl.
    rewrite (Qcompare_0_Gt _ He). discriminate. }
  apply floorCapFloor_bounds.
  - set (rf := if Js.ge cs _ then _ else _).
    assert (Hrf : exists r, rf = Js.Fin r /\ 0 < r).
    { unfold rf. destruct (Js.ge cs _); [|destruct (Js.ge cs _)];
        eexists; (split; [reflexivity|]); lra. }
    destruct Hrf as [r [-> Hr']].
    destruct tc as [q| | |]; simpl in *; try discriminate.
    rewrite (Qcompare_0_Gt _ Hr'). discriminate.
  - apply max_not_NaN, Hsat.
  - apply le_max_r, Hsat.
Qed.

Lemma calculatePositionSize_bounds_witness :
  calculatePositionSize defaultConfig (newRiskManager "2026-01-01" None)
    (Js.Fin 1000) (Js.Fin 90) = Js.Fin 0
  \/ (Js.le (Js.Fin 10)
        (calculatePositionSize defaultConfig
           (newRiskManager "2026-01-01" None) (Js.Fin 1000) (Js.Fin 90))
      = true
      /\ Js.le
           (calculatePositionSize defaultConfig
              (newRiskManager "2026-01-01" None) (Js.Fin 1000) (Js.Fin 90))
           (Js.max (Js.mul (Js.mul (Js.Fin 1000) (Js.Fin 0.40)) (Js.Fin 0.25))
              (Js.Fin 10)) = true).
Proof.
  apply (calculatePositionSize_bounds defaultConfig
           (newRiskManager "2026-01-01" None) (Js.Fin 1000) (Js.Fin 90));
    reflexivity.
Defined.

(* ================================================================== *)
(** ** Circuit breakers *)

(** The three conditions read the numeric fields only. *)
Lemma breakerCondition_fields (cfg : Config) (s s' : DailyStats) :
  dailyPnL s' = dailyPnL s ->
  tradesCount s' = tradesCount s ->
  currentBalance s' = currentBalance s ->
  dailyLossReached cfg s' = dailyLossReached cfg s
  /\ maxTradesReached cfg s' = maxTradesReached cfg s
  /\ balanceBelowMinimum cfg s' = balanceBelowMinimum cfg s
  /\ breakerCondition cfg s' = breakerCondition cfg s
  /\ breakerEvent cfg s' = breakerEvent cfg s.
Proof.
  intros Hp Ht Hc.
  unfold breakerEvent, breakerCondition, dailyLossReached, maxTradesReached,
    balanceBelowMinimum.
  rewrite Hp, Ht, Hc. repeat split; reflexivity.
Qed.

(** One guarded breaker: [if (c) { if (!isHalted) { ... } }]. *)
Lemma guarded_trip (c : bool) (e : BreakerEvent) (rm : RiskManager) :
  let rm1 := if c then tripBreaker e rm else rm in
  isHalted (dailyStats rm1) = isHalted (dailyStats rm) || c
  /\ date (dailyStats rm1) = date (dailyStats rm)
  /\ initialBalance (dailyStats rm1) = initialBalance (dailyStats rm)
  /\ currentBalance (dailyStats rm1) = currentBalance (dailyStats rm)
  /\ tradesCount (dailyStats rm1) = tradesCount (dailyStats rm)
  /\ dailyPnL (dailyStats rm1) = dailyPnL (dailyStats rm)
  /\ dataFile rm1 = dataFile rm
  /\ breakerLog rm1
     = breakerLog rm
       ++ (if negb (isHalted (dailyStats rm)) && c then [e] else []).
Proof.
  destruct rm as [[d i b t p h] f l]. unfold tripBreaker.
  destruct c, h; simpl; rewrite ?app_nil_r; repeat split; reflexivity.
Qed.

(** What one evaluation of the breakers does to a manager. *)
Lemma checkBreakers_effect (cfg : Config) (rm : RiskManager) :
  let s := dailyStats rm in
  let s' := dailyStats (checkBreakers cfg rm) in
  isHalted s' = isHalted s || breakerCondition cfg s
  /\ date s' = date s
  /\ initialBalance s' = initialBalance s
  /\ currentBalance s' = currentBalance s
  /\ tradesCount s' = tradesCount s
  /\ dailyPnL s' = dailyPnL s
  /\ dataFile (checkBreakers cfg rm) = dataFile rm
  /\ breakerLog (checkBreakers cfg rm)
     = breakerLog rm
       ++ (if negb (isHalted s) && breakerCondition cfg s
           then [breakerEvent cfg s] else []).
Proof.
  unfold checkBreakers. cbv zeta.
  set (rm1 := if dailyLossReached cfg (dailyStats rm) then _ else rm).
  set (rm2 := if maxTradesReached cfg (dailyStats rm1) then _ else rm1).
  destruct (guarded_trip (dailyLossReached cfg (dailyStats rm))
              (DailyLossLimitReached (dailyPnL (dailyStats rm))
                 (Js.neg (Js.Fin (risk_dailyLossLimit cfg)))) rm)
    as (Hh1 & Hd1 & Hi1 & Hc1 & Ht1 & Hp1 & Hf1 & Hl1).
  fold rm1 in Hh1, Hd1, Hi1, Hc1, Ht1, Hp1, Hf1, Hl1.
  destruct (guarded_trip (maxTradesReached cfg (dailyStats rm1))
              (MaxDailyTradesReached (tradesCount (dailyStats rm1))) rm1)
    as (Hh2 & Hd2 & Hi2 & Hc2 & Ht2 & Hp2 & Hf2 & Hl2).
  fold rm2 in Hh2, Hd2, Hi2, Hc2, Ht2, Hp2, Hf2, Hl2.
  destruct (guarded_trip (balanceBelowMinimum cfg (dailyStats rm2))
              (BalanceBelowSafeThreshold (currentBalance (dailyStats rm2))
                 (Js.Fin (risk_minBalanceToTrade cfg))) rm2)
    as (Hh3 & Hd3 & Hi3 & Hc3 & Ht3 & Hp3 & Hf3 & Hl3).
  destruct (breakerCondition_fields cfg (dailyStats rm) (dailyStats rm1)
              Hp1 Ht1 Hc1) as (_ & E2 & _ & _ & _).
  destruct (breakerCondition_fields cfg (dailyStats rm) (dailyStats rm2))
    as (_ & _ & E3 & _ & _); try congruence.
  rewrite Hh3, Hd3, Hi3, Hc3, Ht3, Hp3, Hf3, Hl3.
  rewrite Hh2, Hd2, Hi2, Hc2, Ht2, Hp2, Hf2, Hl2.
  rewrite Hh1, Hd1, Hi1, Hc1, Ht1, Hp1, Hf1, Hl1.
  rewrite E2, E3. unfold breakerCondition, breakerEvent.
  destruct (isHalted (dailyStats rm)), (dailyLossReached cfg (dailyStats rm)),
    (maxTradesReached cfg (dailyStats rm)),
    (balanceBelowMinimum cfg (dailyStats rm));
    simpl; rewrite <- ?app_assoc, ?app_nil_r; repeat split; reflexivity.
Qed.

Lemma updateBalance_halted (cfg : Config) (v : Js.number) (rm : RiskManager) :
  let rm' := updateBalance cfg v rm in
  isHalted (dailyStats rm')
  = isHalted (dailyStats rm) || breakerCondition cfg (dailyStats rm')
  /\ breakerLog rm'
     = breakerLog rm
       ++ (if negb (isHalted (dailyStats rm))
              && breakerCondition cfg (dailyStats rm')
           then [breakerEvent cfg (dailyStats rm')] else []).
Proof.
  unfold updateBalance. cbv zeta.
  set (s1 := {| date := _; isHalted := isHalted (dailyStats rm) |}).
  destruct (checkBreakers_effect cfg (with_stats s1 rm))
    as (Hh & _ & _ & Hc & Ht & Hp & _ & Hl).
  cbn [dailyStats saveStats breakerLog with_stats] in *.
  destruct (breakerCondition_fields cfg s1 _ Hp Ht Hc)
    as (_ & _ & _ & Hcond & Hev).
  rewrite Hcond, Hev. split; assumption.
Qed.

Lemma recordTrade_halted (cfg : Config) (rm : RiskManager) :
  let rm' := recordTrade cfg rm in
  isHalted (dailyStats rm')
  = isHalted (dailyStats rm) || breakerCondition cfg (dailyStats rm')
  /\ breakerLog rm'
     = breakerLog rm
       ++ (if negb (isHalted (dailyStats rm))
              && breakerCondition cfg (dailyStats rm')
           then [breakerEvent cfg (dailyStats rm')] else []).
Proof.
  unfold recordTrade. cbv zeta.
  set (s1 := {| date := _; isHalted := isHalted (dailyStats rm) |}).
  destruct (checkBreakers_effect cfg (with_stats s1 rm))
    as (Hh & _ & _ & Hc & Ht & Hp & _ & Hl).
  cbn [dailyStats saveStats breakerLog with_stats] in *.
  destruct (breakerCondition_fields cfg s1 _ Hp Ht Hc)
    as (_ & _ & _ & Hcond & Hev).
  rewrite Hcond, Hev. split; assumption.
Qed.

(** C2.  Every [updateBalance] and every [recordTrade] ends with an
    evaluation of the breakers: an active manager is halted after the call
    exactly when, on the updated record, dailyPnL <= -dailyLossLimit, or
    tradesCount >= maxTradesPerDay, or 0 < currentBalance <
    minBalanceToTrade; a breaker event is logged on that transition (one
    event, that of the first condition that holds) and none when the manager
    was already halted or when no condition holds.  With initialBalance =
    1000 and dailyLossLimit = 5%, [updateBalance 940] leaves [canTrade]
    false. *)
Theorem breaker_evaluation :
  forall (cfg : Config) (rm : RiskManager) (rm' : RiskManager),
    (rm' = recordTrade cfg rm
     \/ exists totalValue, rm' = updateBalance cfg totalValue rm) ->
    let s' := dailyStats rm' in
    (isHalted (dailyStats rm) = false ->
     (isHalted s' = true <->
      Js.le (Js.toNumber (dailyPnL s'))
        (Js.Fin (- risk_dailyLossLimit cfg)) = true
      \/ Js.ge (Js.toNumber (tradesCount s'))
           (Js.Fin (risk_maxTradesPerDay cfg)) = true
      \/ (Js.lt (Js.Fin 0) (Js.toNumber (currentBalance s')) = true
          /\ Js.lt (Js.toNumber (currentBalance s'))
               (Js.Fin (risk_minBalanceToTrade cfg)) = true)))
    /\ (isHalted (dailyStats rm) = true ->
        isHalted s' = true /\ breakerLog rm' = breakerLog rm)
    /\ (isHalted (dailyStats rm) = false -> isHalted s' = true ->
        breakerLog rm' = breakerLog rm ++ [breakerEvent cfg s'])
    /\ (isHalted s' = false -> breakerLog rm' = breakerLog rm)
    /\ (risk_dailyLossLimit cfg == 0.05 ->
        initialBalance (dailyStats rm) = Js.Num (Js.Fin 1000) ->
        canTrade (updateBalance cfg (Js.Fin 940) rm) = false).
Proof.
  intros cfg rm rm' Hcall s'.
  assert (H : isHalted s'
              = isHalted (dailyStats rm) || breakerCondition cfg s'
              /\ breakerLog rm'
                 = breakerLog rm
                   ++ (if negb (isHalted (dailyStats rm))
                          && breakerCondition cfg s'
                       then [breakerEvent cfg s'] else [])).
  { destruct Hcall as [-> | [v ->]];
      [apply recordTrade_halted | apply updateBalance_halted]. }
  destruct H as [Hh Hl].
  assert (Hcond : breakerCondition cfg s' = true <->
      Js.le (Js.toNumber (dailyPnL s'))
        (Js.Fin (- risk_dailyLossLimit cfg)) = true
      \/ Js.ge (Js.toNumber (tradesCount s'))
           (Js.Fin (risk_maxTradesPerDay cfg)) = true
      \/ (Js.lt (Js.Fin 0) (Js.toNumber (currentBalance s')) = true
          /\ Js.lt (Js.toNumber (currentBalance s'))
               (Js.Fin (risk_minBalanceToTrade cfg)) = true)).
  { unfold breakerCondition, dailyLossReached, maxTradesReached,
      balanceBelowMinimum, Js.gt. simpl Js.neg.
    rewrite !orb_true_iff, andb_true_iff. tauto. }
  split; [|split; [|split; [|split]]].
  - intros Ha. rewrite Hh, Ha. simpl. exact Hcond.
  - intros Ha. rewrite Hh, Hl, Ha. simpl. split; [reflexivity|].
    apply app_nil_r.
  - intros Ha Hb. rewrite Hl, Ha. rewrite Hh, Ha in Hb. simpl in Hb.
    rewrite Hb. reflexivity.
  - intros Hb. rewrite Hh in Hb. apply orb_false_iff in Hb as [Ha Hc].
    rewrite Hl, Hc, andb_false_r. apply app_nil_r.
  - intros Hlim Hinit. unfold canTrade.
    destruct (updateBalance_halted cfg (Js.Fin 940) rm) as [Hu _].
    cbv zeta in Hu. rewrite Hu. apply negb_false_iff, orb_true_iff. right.
    unfold breakerCondition. apply orb_true_iff. left. apply orb_true_iff.
    left. unfold dailyLossReached, updateBalance. cbv zeta.
    set (s1 := {| date := _; isHalted := isHalted (dailyStats rm) |}).
    destruct (checkBreakers_effect cfg (with_stats s1 rm))
      as (_ & _ & _ & _ & _ & Hp & _).
    cbn [dailyStats saveStats with_stats] in *. rewrite Hp.
    unfold s1. cbn [dailyPnL]. rewrite Hinit. simpl.
    q_reflect. rewrite Hlim. apply Qle_bool_iff. reflexivity.
Qed.

Lemma breaker_evaluation_witness :
  canTrade
    (updateBalance defaultConfig (Js.Fin 940)
       (updateBalance defaultConfig (Js.Fin 1000)
          (newRiskManager "2026-01-01" None))) = false.
Proof.
  pose proof (breaker_evaluation defaultConfig
                (updateBalance defaultConfig (Js.Fin 1000)
                   (newRiskManager "2026-01-01" None))
                (recordTrade defaultConfig
                   (updateBalance defaultConfig (Js.Fin 1000)
                      (newRiskManager "2026-01-01" None)))
                (or_introl eq_refl)) as (_ & _ & _ & _ & H).
  apply H; reflexivity.
Defined.

(* ================================================================== *)
(** ** The halt latch *)

Lemma call_keeps_halted (cfg : Config) (c : RiskCall) (rm : RiskManager) :
  isHalted (dailyStats rm) = true ->
  isHalted (dailyStats (call cfg rm c)) = true.
Proof.
  intro H. destruct c; cbn [call]; try exact H.
  - destruct (updateBalance_halted cfg totalValue rm) as [E _].
    cbv zeta in E. rewrite E, H. reflexivity.
  - destruct (recordTrade_halted cfg rm) as [E _].
    cbv zeta in E. rewrite E, H. reflexivity.
Qed.

Lemma calls_keep_halted (cfg : Config) (cs : list RiskCall) :
  forall rm : RiskManager,
    isHalted (dailyStats rm) = true ->
    isHalted (dailyStats (calls cfg cs rm)) = true.
Proof.
  unfold calls. induction cs as [|c cs IH]; intros rm H; cbn [fold_left].
  - exact H.
  - apply IH, call_keeps_halted, H.
Qed.

Lemma recordTrade_tradesCount (cfg : Config) (rm : RiskManager) :
  tradesCount (dailyStats (recordTrade cfg rm))
  = Js.Num (Js.add (Js.toNumber (tradesCount (dailyStats rm))) (Js.Fin 1)).
Proof.
  unfold recordTrade. cbv zeta.
  set (s1 := {| date := _; isHalted := isHalted (dailyStats rm) |}).
  destruct (checkBreakers_effect cfg (with_stats s1 rm))
    as (_ & _ & _ & _ & Ht & _).
  cbn [dailyStats saveStats with_stats] in *. rewrite Ht. reflexivity.
Qed.

Lemma recordTrades_S (cfg : Config) (rm : RiskManager) (k : nat) :
  recordTrades cfg (S k) rm = recordTrade cfg (recordTrades cfg k rm).
Proof. reflexivity. Qed.

(** After [k] recorded trades the counter of a fresh day holds [k]. *)
Lemma recordTrades_count (cfg : Config) (rm : RiskManager) (k : nat) :
  zeroField (tradesCount (dailyStats rm)) ->
  exists q : Q,
    tradesCount (dailyStats (recordTrades cfg k rm)) = Js.Num (Js.Fin q)
    /\ q == inject_Z (Z.of_nat k).
Proof.
  intros [z [Hz Hz0]].
  induction k as [|k [q [Hq Hqk]]].
  - exists z. split; [exact Hz | exact Hz0].
  - exists (q + 1). split.
    + rewrite recordTrades_S, recordTrade_tradesCount, Hq. reflexivity.
    + rewrite Nat2Z.inj_succ. unfold Z.succ. rewrite inject_Z_plus, Hqk.
      reflexivity.
Qed.

Lemma recordTrades_keep_halted (cfg : Config) (rm : RiskManager) (k : nat) :
  isHalted (dailyStats rm) = true ->
  isHalted (dailyStats (recordTrades cfg k rm)) = true
  /\ breakerLog (recordTrades cfg k rm) = breakerLog rm.
Proof.
  intro H. induction k as [|k [IH1 IH2]]; [now split|].
  rewrite recordTrades_S.
  destruct (recordTrade_halted cfg (recordTrades cfg k rm)) as [E L].
  cbv zeta in E, L. rewrite E, L, IH1, IH2. split; [reflexivity|].
  apply app_nil_r.
Qed.

Lemma recordTrades_add (cfg : Config) (rm : RiskManager) (n k : nat) :
  recordTrades cfg (k + n) rm = recordTrades cfg k (recordTrades cfg n rm).
Proof. unfold recordTrades. apply Nat.iter_add. Qed.

(** C3.  The halt flag is a latch: no sequence of [updateBalance],
    [recordTrade], [calculatePositionSize], [getExitPoints] and [canTrade]
    calls makes a halted manager active.  From a fresh day,
    [maxTradesPerDay] calls of [recordTrade] leave [canTrade] false, and any
    further calls leave the manager halted and log nothing more.
    [resetBreaker] restores [canTrade] and is idempotent; so does a restart
    on a later day. *)
Theorem halt_latch :
  forall cfg : Config,
    (forall (cs : list RiskCall) (rm : RiskManager),
        canTrade rm = false -> canTrade (calls cfg cs rm) = false)
    /\ (forall (n : nat) (today : string) (rm : RiskManager),
          dailyStats rm = freshStats today ->
          (1 <= n)%nat ->
          risk_maxTradesPerDay cfg == inject_Z (Z.of_nat n) ->
          canTrade (recordTrades cfg n rm) = false
          /\ forall k : nat,
               canTrade (recordTrades cfg (k + n) rm) = false
               /\ breakerLog (recordTrades cfg (k + n) rm)
                  = breakerLog (recordTrades cfg n rm))
    /\ (forall rm : RiskManager,
          canTrade (resetBreaker rm) = true
          /\ resetBreaker (resetBreaker rm) = resetBreaker rm)
    /\ (forall (today : string) (rm : RiskManager) (saved : DailyStats),
          dataFile rm = Some saved ->
          date saved <> today ->
          canTrade (restart today rm) = true).
Proof.
  intro cfg. split; [|split; [|split]].
  - intros cs rm H. unfold canTrade in *.
    apply negb_false_iff in H. apply negb_false_iff.
    apply calls_keep_halted, H.
  - intros n today rm Hfresh Hn Hmax.
    assert (Hhalt : isHalted (dailyStats (recordTrades cfg n rm)) = true).
    { destruct n as [|n]; [lia|].
      destruct (recordTrades_count cfg rm (S n)) as [q [Hq Hqn]].
      { rewrite Hfresh. exists 0. split; reflexivity. }
      rewrite recordTrades_S in *.
      destruct (recordTrade_halted cfg (recordTrades cfg n rm)) as [E _].
      cbv zeta in E. rewrite E. apply orb_true_iff. right.
      unfold breakerCondition. apply orb_true_iff. left.
      apply orb_true_iff. right. unfold maxTradesReached. rewrite Hq.
      simpl. q_reflect. rewrite Hmax, Hqn. apply Qle_refl. }
    split.
    + unfold canTrade. rewrite Hhalt. reflexivity.
    + intro k. rewrite recordTrades_add.
      destruct (recordTrades_keep_halted cfg (recordTrades cfg n rm) k Hhalt)
        as [H1 H2].
      unfold canTrade. rewrite H1. split; [reflexivity | exact H2].
  - intro rm. split; reflexivity.
  - intros today rm saved Hfile Hdate.
    unfold restart, newRiskManager, loadStats.
    cbn [dataFile]. rewrite Hfile.
    apply String.eqb_neq in Hdate. rewrite Hdate. reflexivity.
Qed.

Lemma halt_latch_witness :
  canTrade
    (calls defaultConfig
       [CallUpdateBalance (Js.Fin 1000); CallRecordTrade; CallCanTrade]
       (recordTrades defaultConfig 10 (newRiskManager "2026-01-01" None)))
  = false.
Proof.
  destruct (halt_latch defaultConfig) as (Hlatch & Hcount & _).
  apply Hlatch.
  refine (proj1 (Hcount 10%nat "2026-01-01"%string
           (newRiskManager "2026-01-01" None) _ _ _)).
  - vm_compute. reflexivity.
  - lia.
  - vm_compute. reflexivity.
Defined.

(* ================================================================== *)
(** ** Exit points *)

(** The guard of [getExitPoints] accepts the numbers other than 0 and
    [NaN]. *)
Lemma target_guard (targetGain : Js.value) :
  Js.truthy targetGain && Js.typeof_number targetGain
  = usableTarget targetGain.
Proof.
  destruct targetGain as [| |b|[q| | |]|s]; simpl;
    rewrite ?andb_true_r, ?andb_false_r; reflexivity.
Qed.

Lemma clampTarget_bounds (g : Js.number) :
  g <> Js.NaN ->
  Js.le (Js.Fin 0.02) (clampTarget g) = true
  /\ Js.le (clampTarget g) (Js.Fin 0.15) = true.
Proof.
  intro H. unfold clampTarget.
  destruct g as [x| | |]; try congruence; simpl; try (split; reflexivity).
  destruct (Js.Qlt_bool (x / 100) 0.02) eqn:E1; simpl.
  - split; reflexivity.
  - destruct (Js.Qlt_bool 0.15 (x / 100)) eqn:E2; simpl.
    + split; reflexivity.
    + split; q_reflect; lra.
Qed.

(** Counterexample to C4 as the specification words it: a supplied target
    gain of 0.  The code takes 0 for "no target" and applies the default
    take-profit (4%, so 104), where the clamp of a supplied target would
    apply 2% (102). *)
Lemma getExitPoints_zero_target :
  takeProfit
    (getExitPoints defaultConfig (Js.Fin 100) "BUY" (Js.VNumber (Js.Fin 0)))
  =n= Js.Fin 104
  /\ takeProfit
       (exitPointsSpec defaultConfig (Js.Fin 100) "BUY"
          (Js.VNumber (Js.Fin 0)))
     =n= Js.Fin 102
  /\ ~ (takeProfit
          (getExitPoints defaultConfig (Js.Fin 100) "BUY"
             (Js.VNumber (Js.Fin 0)))
        =n= takeProfit
              (exitPointsSpec defaultConfig (Js.Fin 100) "BUY"
                 (Js.VNumber (Js.Fin 0)))).
Proof.
  split; [reflexivity|]. split; [reflexivity|].
  vm_compute. discriminate.
Qed.

(** C4 (amended).  The stop-loss is [entryPrice * (1 - defaultStopLoss)] for
    BUY and [entryPrice * (1 + defaultStopLoss)] for any other side,
    whatever the target gain.  The take-profit fraction is the clamp of
    [targetGain / 100] to [[0.02, 0.15]] when the target gain is a number
    other than 0 and NaN, and [defaultTakeProfit] otherwise (no target, a
    target of 0, a value that is not a number); it is added to 1 for BUY and
    subtracted from 1 otherwise.  With the defaults, in binary64, (100, BUY)
    gives 98 and 104, and (100, BUY, 10) gives 98 and a take-profit that is
    not 110 but within 0.0000000000001 of it. *)
Theorem getExitPoints_spec :
  forall (cfg : Config) (entryPrice : Js.number) (side : string)
         (targetGain : Js.value),
    let exits := getExitPoints cfg entryPrice side targetGain in
    let fraction :=
      if usableTarget targetGain then clampTarget (number_of targetGain)
      else Js.Fin (risk_defaultTakeProfit cfg) in
    (side = "BUY"%string ->
     stopLoss exits
     = Js.mul entryPrice (Js.Fin (1 - risk_defaultStopLoss cfg))
     /\ takeProfit exits = Js.mul entryPrice (Js.add (Js.Fin 1) fraction))
    /\ (side <> "BUY"%string ->
        stopLoss exits
        = Js.mul entryPrice (Js.Fin (1 + risk_defaultStopLoss cfg))
        /\ takeProfit exits = Js.mul entryPrice (Js.sub (Js.Fin 1) fraction))
    /\ (usableTarget targetGain = true ->
        Js.le (Js.Fin 0.02) fraction = true
        /\ Js.le fraction (Js.Fin 0.15) = true)
    /\ (usableTarget targetGain = true ->
        exits = exitPointsSpec cfg entryPrice side targetGain)
    /\ (let exitsDefault :=
          Binary64.getExitPoints defaultConfig (Binary64.ofQ 100) "BUY"
            None in
        let exitsAI :=
          Binary64.getExitPoints defaultConfig (Binary64.ofQ 100) "BUY"
            (Some (Binary64.ofQ 10)) in
        Binary64.stopLoss exitsDefault = Binary64.ofQ 98
        /\ Binary64.takeProfit exitsDefault = Binary64.ofQ 104
        /\ Binary64.stopLoss exitsAI = Binary64.ofQ 98
        /\ Binary64.same (Binary64.takeProfit exitsAI) (Binary64.ofQ 110)
           = false
        /\ Binary64.near (Binary64.ofQ (1 # 10000000000000))
             (Binary64.takeProfit exitsAI) (Binary64.ofQ 110) = true).
Proof.
  intros cfg e side tg exits fraction. subst exits fraction.
  unfold getExitPoints. rewrite target_guard. fold (clampTarget (number_of tg)).
  split; [|split; [|split; [|split]]].
  - intros ->. simpl String.eqb. cbv iota. split; reflexivity.
  - intros H. apply String.eqb_neq in H. rewrite H. split; reflexivity.
  - intros H. rewrite H. apply clampTarget_bounds.
    destruct tg as [| |b|[q| | |]|s]; simpl in *; congruence.
  - intros H. unfold exitPointsSpec, takeProfitFractionSpec. rewrite H.
    destruct tg as [| |b|n|s]; simpl in H; try discriminate. reflexivity.
  - cbv zeta. repeat split; vm_compute; reflexivity.
Qed.

Lemma getExitPoints_spec_witness :
  takeProfit
    (getExitPoints defaultConfig (Js.Fin 100) "BUY" (Js.VNumber (Js.Fin 10)))
  = Js.mul (Js.Fin 100)
      (Js.add (Js.Fin 1) (clampTarget (Js.Fin 10)))
  /\ Js.le (clampTarget (Js.Fin 10)) (Js.Fin 0.15) = true.
Proof.
  destruct (getExitPoints_spec defaultConfig (Js.Fin 100) "BUY"
              (Js.VNumber (Js.Fin 10))) as (Hbuy & _ & Hclamp & _).
  split.
  - apply (proj2 (Hbuy eq_refl)).
  - apply (proj2 (Hclamp eq_refl)).
Defined.

(* ================================================================== *)
(** ** The balance baseline *)

Lemma updateBalance_fields (cfg : Config) (v : Js.number) (rm : RiskManager) :
  let initial :=
    if Js.field_strict_eq (initialBalance (dailyStats rm)) (Js.Fin 0)
    then Js.Num v else initialBalance (dailyStats rm) in
  let rm' := updateBalance cfg v rm in
  initialBalance (dailyStats rm') = initial
  /\ currentBalance (dailyStats rm') = Js.Num v
  /\ dailyPnL (dailyStats rm')
     = Js.Num (Js.sub (Js.div v (Js.toNumber initial)) (Js.Fin 1))
  /\ dataFile rm' = Some (toJSON (dailyStats rm')).
Proof.
  unfold updateBalance. cbv zeta.
  set (s1 := {| date := _; isHalted := isHalted (dailyStats rm) |}).
  destruct (checkBreakers_effect cfg (with_stats s1 rm))
    as (_ & _ & Hi & Hc & _ & Hp & _).
  cbn [dailyStats dataFile saveStats with_stats] in *.
  rewrite Hi, Hc, Hp. repeat split; reflexivity.
Qed.

(** An observation while the baseline is unset sets it to the observed
    value. *)
Lemma updateBalance_unset (cfg : Config) (v : Q) (rm : RiskManager) :
  zeroField (initialBalance (dailyStats rm)) ->
  let rm' := updateBalance cfg (Js.Fin v) rm in
  initialBalance (dailyStats rm') = Js.Num (Js.Fin v)
  /\ currentBalance (dailyStats rm') = Js.Num (Js.Fin v)
  /\ (~ v == 0 ->
      dailyPnL (dailyStats rm') = Js.Num (Js.Fin (v / v - 1))).
Proof.
  intros [i [Hi Hi0]].
  destruct (updateBalance_fields cfg (Js.Fin v) rm) as (Ei & Ec & Ep & _).
  cbv zeta in *. set (rm1 := updateBalance cfg (Js.Fin v) rm) in *.
  clearbody rm1. rewrite Hi in Ei, Ep. cbn in Ei, Ep.
  rewrite (Qeq_eq_bool _ _ Hi0) in Ei, Ep. cbn in Ep.
  split; [exact Ei|]. split; [exact Ec|]. intro Hv.
  apply Qeq_bool_false in Hv. rewrite Hv in Ep. exact Ep.
Qed.

(** An observation once the baseline is set leaves it alone. *)
Lemma updateBalance_baseline (cfg : Config) (v i : Q) (rm : RiskManager) :
  initialBalance (dailyStats rm) = Js.Num (Js.Fin i) ->
  ~ i == 0 ->
  let rm' := updateBalance cfg (Js.Fin v) rm in
  initialBalance (dailyStats rm') = Js.Num (Js.Fin i)
  /\ currentBalance (dailyStats rm') = Js.Num (Js.Fin v)
  /\ dailyPnL (dailyStats rm') = Js.Num (Js.Fin (v / i - 1)).
Proof.
  intros Hi Hi0.
  destruct (updateBalance_fields cfg (Js.Fin v) rm) as (Ei & Ec & Ep & _).
  cbv zeta in *. set (rm1 := updateBalance cfg (Js.Fin v) rm) in *.
  clearbody rm1. rewrite Hi in Ei, Ep. cbn in Ei, Ep.
  apply Qeq_bool_false in Hi0. rewrite Hi0 in Ei, Ep.
  cbn in Ep. rewrite Hi0 in Ep.
  split; [exact Ei|]. split; [exact Ec | exact Ep].
Qed.

(** While only zero balances have been seen the baseline stays unset. *)
Lemma updateBalances_zeros (cfg : Config) (zeros : list Q) :
  forall rm : RiskManager,
    zeroField (initialBalance (dailyStats rm)) ->
    Forall (fun z => z == 0) zeros ->
    zeroField (initialBalance (dailyStats (updateBalances cfg zeros rm))).
Proof.
  unfold updateBalances.
  induction zeros as [|z zeros IH]; intros rm Hrm Hz; cbn [fold_left].
  - exact Hrm.
  - inversion Hz as [|? ? Hz0 Hzs]; subst. apply IH; [|exact Hzs].
    destruct (updateBalance_unset cfg z rm Hrm) as (Hi & _).
    exists z. split; [exact Hi | exact Hz0].
Qed.

Lemma last_nonempty {A : Type} (l : list A) (x d d' : A) :
  last (x :: l) d = last (x :: l) d'.
Proof.
  revert x. induction l as [|y l IH]; intro x; [reflexivity|].
  change (last (y :: l) d = last (y :: l) d'). apply IH.
Qed.

(** Once the baseline holds a non-zero value, every later observation leaves
    it alone. *)
Lemma updateBalances_set (cfg : Config) (i : Q) (vs : list Q) :
  ~ i == 0 ->
  forall (rm : RiskManager) (c : Q),
    initialBalance (dailyStats rm) = Js.Num (Js.Fin i) ->
    currentBalance (dailyStats rm) = Js.Num (Js.Fin c) ->
    dailyPnL (dailyStats rm) = Js.Num (Js.Fin (c / i - 1)) ->
    let rm' := updateBalances cfg vs rm in
    initialBalance (dailyStats rm') = Js.Num (Js.Fin i)
    /\ currentBalance (dailyStats rm') = Js.Num (Js.Fin (last vs c))
    /\ dailyPnL (dailyStats rm') = Js.Num (Js.Fin (last vs c / i - 1)).
Proof.
  intro Hi0. unfold updateBalances.
  induction vs as [|v vs IH]; intros rm c Hi Hc Hp; cbn [fold_left].
  - cbn [last]. repeat split; assumption.
  - destruct (updateBalance_baseline cfg v i rm Hi Hi0) as (Ei & Ec & Ep).
    specialize (IH (updateBalance cfg (Js.Fin v) rm) v Ei Ec Ep).
    cbv zeta in IH. destruct vs as [|q vs]; [exact IH|].
    change (last (v :: q :: vs) c) with (last (q :: vs) c).
    rewrite (last_nonempty vs q c v). exact IH.
Qed.

Lemma last_after {A : Type} (before : list A) (x : A) (after : list A)
  (d : A) :
  last (before ++ x :: after) d = last after x.
Proof.
  induction before as [|b before IH]; cbn [app].
  - revert x. induction after as [|a after IHa]; intro x; [reflexivity|].
    change (last (a :: after) d = last (a :: after) x).
    apply last_nonempty.
  - destruct (before ++ x :: after) eqn:E; [destruct before; discriminate E|].
    exact IH.
Qed.

Lemma updateBalance_date (cfg : Config) (v : Js.number) (rm : RiskManager) :
  date (dailyStats (updateBalance cfg v rm)) = date (dailyStats rm).
Proof.
  unfold updateBalance. cbv zeta.
  set (s1 := {| date := _; isHalted := isHalted (dailyStats rm) |}).
  destruct (checkBreakers_effect cfg (with_stats s1 rm)) as (_ & Hd & _).
  cbn [dailyStats saveStats with_stats] in *. rewrite Hd. reflexivity.
Qed.

Lemma updateBalances_date (cfg : Config) (vs : list Q) :
  forall rm : RiskManager,
    date (dailyStats (updateBalances cfg vs rm)) = date (dailyStats rm).
Proof.
  unfold updateBalances. induction vs as [|v vs IH]; intro rm; [reflexivity|].
  cbn [fold_left]. rewrite IH. apply updateBalance_date.
Qed.

Lemma updateBalances_file (cfg : Config) (vs : list Q) (v : Q)
  (rm : RiskManager) :
  let rm' := updateBalances cfg (vs ++ [v]) rm in
  dataFile rm' = Some (toJSON (dailyStats rm')).
Proof.
  cbv zeta. unfold updateBalances. rewrite fold_left_app. cbn [fold_left].
  apply updateBalance_fields.
Qed.

(** A start of the process on another date than the one of the record that
    was written leaves the baseline unset. *)
Lemma restart_stale (today : string) (rm : RiskManager) :
  dataFile rm = Some (toJSON (dailyStats rm)) ->
  date (dailyStats rm) <> today ->
  dailyStats (restart today rm) = freshStats today.
Proof.
  intros Hf Hd. unfold restart, newRiskManager, loadStats.
  cbn [dataFile]. rewrite Hf. cbn [date toJSON].
  apply String.eqb_neq in Hd. rewrite Hd. reflexivity.
Qed.




(* ================================================================== *)
(** ** Persistence *)

(** A record of finite numbers comes back from the data file as it was
    written. *)
Lemma toJSON_finite (s : DailyStats) :
  finiteStats s = true -> toJSON s = s.
Proof.
  destruct s as [d [[i| | |]|] [[c| | |]|] [[t| | |]|] [[p| | |]|] h];
    unfold finiteStats; simpl; intro H; try discriminate H; reflexivity.
Qed.

Lemma finiteStats_fields (s s' : DailyStats) :
  initialBalance s' = initialBalance s ->
  currentBalance s' = currentBalance s ->
  tradesCount s' = tradesCount s ->
  dailyPnL s' = dailyPnL s ->
  finiteStats s' = finiteStats s.
Proof. unfold finiteStats. now intros -> -> -> ->. Qed.

Lemma recordTrade_finite (cfg : Config) (rm : RiskManager) :
  finiteStats (dailyStats rm) = true ->
  finiteStats (dailyStats (recordTrade cfg rm)) = true.
Proof.
  intro H. unfold recordTrade. cbv zeta.
  set (s1 := {| date := _; isHalted := isHalted (dailyStats rm) |}).
  destruct (checkBreakers_effect cfg (with_stats s1 rm))
    as (_ & _ & Hi & Hc & Ht & Hp & _).
  cbn [dailyStats saveStats with_stats] in *.
  rewrite (finiteStats_fields s1 _ Hi Hc Ht Hp).
  unfold finiteStats in *. cbn [initialBalance currentBalance tradesCount
    dailyPnL s1].
  destruct (dailyStats rm)
    as [d [[i| | |]|] [[c| | |]|] [[t| | |]|] [[p| | |]|] h];
    simpl in *; try discriminate H; reflexivity.
Qed.

Lemma updateBalance_finite (cfg : Config) (v : Q) (rm : RiskManager) :
  finiteStats (dailyStats rm) = true ->
  ~ v == 0 \/ ~ zeroField (initialBalance (dailyStats rm)) ->
  finiteStats (dailyStats (updateBalance cfg (Js.Fin v) rm)) = true.
Proof.
  intros H Hnz. unfold updateBalance. cbv zeta.
  set (s1 := {| date := _; isHalted := isHalted (dailyStats rm) |}).
  destruct (checkBreakers_effect cfg (with_stats s1 rm))
    as (_ & _ & Hi & Hc & Ht & Hp & _).
  cbn [dailyStats saveStats with_stats] in *.
  rewrite (finiteStats_fields s1 _ Hi Hc Ht Hp).
  unfold finiteStats in *. cbn [initialBalance currentBalance tradesCount
    dailyPnL s1].
  destruct (dailyStats rm)
    as [d [[i| | |]|] [[c| | |]|] [[t| | |]|] [[p| | |]|] h];
    simpl in *; try discriminate H.
  destruct (Qeq_bool i 0) eqn:E; simpl.
  - destruct (Qeq_bool v 0) eqn:Ev; [|reflexivity].
    q_reflect. destruct Hnz as [Hnz|Hnz]; [contradiction|].
    exfalso. apply Hnz. exists i. split; [reflexivity | exact E].
  - rewrite E. reflexivity.
Qed.

Lemma recordTrade_date (cfg : Config) (rm : RiskManager) :
  date (dailyStats (recordTrade cfg rm)) = date (dailyStats rm).
Proof.
  unfold recordTrade. cbv zeta.
  set (s1 := {| date := _; isHalted := isHalted (dailyStats rm) |}).
  destruct (checkBreakers_effect cfg (with_stats s1 rm)) as (_ & Hd & _).
  cbn [dailyStats saveStats with_stats] in *. rewrite Hd. reflexivity.
Qed.




(* ================================================================== *)
(** ** The technical pre-screen and the sentiment gate *)

Section EngineFacts.

Variable cfg : Config.
Variable RSI_calculate : list Js.number -> list Js.number.
Variable binance : Exchange.
Variable sentimentAnalyzer : Sentiment.

(** A run of [processPair] either stops after the candles, or passes the
    pre-screen, asks for the news and scans them. *)
Lemma processPair_cases (pair : string) (rm : RiskManager) :
  let run :=
    processPair cfg RSI_calculate binance sentimentAnalyzer pair rm in
  let scan :=
    scanNews cfg binance sentimentAnalyzer pair
      (getLatestNews sentimentAnalyzer pair) rm in
  (~ passesPreScreen cfg RSI_calculate binance pair
   /\ manager_of run = rm
   /\ (trace_of run = [GetCandles pair "1h" 50]
       \/ trace_of run
          = [GetCandles pair "1h" 50; GetCandles pair "4h" 30]))
  \/ (passesPreScreen cfg RSI_calculate binance pair
      /\ manager_of run = manager_of scan
      /\ trace_of run
         = [GetCandles pair "1h" 50; GetCandles pair "4h" 30;
            GetLatestNews pair] ++ trace_of scan).
Proof.
  unfold processPair, try_catch, bind, request, ret, trace_of, manager_of,
    passesPreScreen.
  destruct (getCandles binance pair "1h") as [c1|] eqn:E1.
  2:{ left. split; [|simpl; split; [reflexivity | left; reflexivity]].
      intros (? & ? & H & _). discriminate H. }
  destruct (getCandles binance pair "4h") as [c4|] eqn:E4.
  2:{ left. split; [|simpl; split; [reflexivity | right; reflexivity]].
      intros (? & ? & _ & H & _). discriminate H. }
  destruct (overboughtVeto RSI_calculate c4) eqn:Ev.
  { left. split; [|simpl; split; [reflexivity | right; reflexivity]].
    intros (? & ? & _ & H4 & Hv & _).
    injection H4 as <-. rewrite Ev in Hv. discriminate Hv. }
  destruct (Js.gt (volatility c1) (Js.Fin 0.05)) eqn:Evol.
  { left. split; [|simpl; split; [reflexivity | right; reflexivity]].
    intros (? & ? & H1 & _ & _ & Hv & _).
    injection H1 as <-. rewrite Evol in Hv. discriminate Hv. }
  destruct (isCandidate cfg RSI_calculate c1) eqn:Ec.
  2:{ left. split; [|simpl; split; [reflexivity | right; reflexivity]].
      intros (? & ? & H1 & _ & _ & _ & Hc).
      injection H1 as <-. rewrite Ec in Hc. discriminate Hc. }
  right. split; [exists c1, c4; repeat split; assumption|].
  destruct (scanNews _ _ _ _ _ _) as [[t rm'] r]. simpl.
  split; reflexivity.
Qed.

(** What a run of [executeSatelliteTrade] sends: the portfolio request
    first and only once, at most one market order, no request to the
    sentiment analyzer. *)
Lemma executeSatelliteTrade_trace (pair : string) (a : Analysis)
  (rm : RiskManager) :
  let run := executeSatelliteTrade cfg binance pair a rm in
  filter startsExecution (trace_of run) = [GetTotalValueUsdt]
  /\ (List.length (filter isMarketBuy (trace_of run)) <= 1)%nat
  /\ filter isSentimentRequest (trace_of run) = [].
Proof.
  unfold executeSatelliteTrade, try_catch, bind, request, query, modify,
    notify, ret, trace_of.
  destruct (getTotalValueUsdt binance) as [tv|]; simpl;
    [|repeat split; auto].
  destruct (Js.le _ _); simpl; [repeat split; auto|].
  destruct (getPrice binance pair) as [p|]; simpl; [|repeat split; auto].
  destruct (marketBuy binance pair _) as [q|]; simpl; [|repeat split; auto].
  destruct (ocoSell binance pair q _ _) as [[]|]; simpl; repeat split; auto.
Qed.

Lemma isBuySignal_true (analysis : option Analysis) :
  isBuySignal analysis = true <->
  exists a, analysis = Some a
            /\ verdict a = "BULLISH"%string
            /\ suggested_action a = "BUY"%string
            /\ Js.gt (confidence a) (Js.Fin 80) = true.
Proof.
  destruct analysis as [a|]; simpl.
  - rewrite !andb_true_iff, !String.eqb_eq. split.
    + intros [[H1 H2] H3]. exists a. auto.
    + intros [a' [E [H1 [H2 H3]]]]. injection E as <-. auto.
  - split; [discriminate | intros [a [E _]]; discriminate E].
Qed.

Lemma upToFirstSignal_prefix (pair : string) (before : list string)
  (news : string) (after : list string) :
  Forall (fun n => isBuySignal (analyzeNews sentimentAnalyzer n pair) = false)
    before ->
  isBuySignal (analyzeNews sentimentAnalyzer news pair) = true ->
  upToFirstSignal sentimentAnalyzer pair (before ++ news :: after)
  = before ++ [news].
Proof.
  intros HF Hs. induction before as [|b before IH]; simpl.
  - rewrite Hs. reflexivity.
  - inversion HF as [|? ? Hb HF']; subst. rewrite Hb.
    f_equal. apply IH, HF'.
Qed.

Lemma analyses_not_trade (pair : string) (newsItems : list string) :
  filter isTradeRequest (map (fun news => AnalyzeNews news pair) newsItems)
  = [].
Proof. induction newsItems as [|n l IH]; [reflexivity | exact IH]. Qed.

(** The scan of the news: the items are analyzed up to the first buy
    signal, and the trade is executed for that one. *)
Lemma scanNews_run (pair : string) (newsItems : list string) :
  forall rm : RiskManager,
    let run := scanNews cfg binance sentimentAnalyzer pair newsItems rm in
    filter isAnalyzeNews (trace_of run)
    = map (fun news => AnalyzeNews news pair)
        (upToFirstSignal sentimentAnalyzer pair newsItems)
    /\ (List.length (filter startsExecution (trace_of run)) <= 1)%nat
    /\ (List.length (filter isMarketBuy (trace_of run)) <= 1)%nat
    /\ ((exists r, In r (trace_of run) /\ isAnalyzeNews r = false) ->
        exists news,
          In news newsItems
          /\ isBuySignal (analyzeNews sentimentAnalyzer news pair) = true)
    /\ (Forall (fun news =>
                  isBuySignal (analyzeNews sentimentAnalyzer news pair)
                  = false) newsItems ->
        trace_of run = map (fun news => AnalyzeNews news pair) newsItems
        /\ manager_of run = rm).
Proof.
  induction newsItems as [|news rest IH]; intro rm.
  - simpl. split; [reflexivity|]. split; [auto|]. split; [auto|].
    split; [intros [r [[] _]] | intros _; split; reflexivity].
  - cbn [scanNews upToFirstSignal]. unfold bind, request.
    destruct (isBuySignal (analyzeNews sentimentAnalyzer news pair)) eqn:E.
    + destruct (analyzeNews sentimentAnalyzer news pair) as [a|] eqn:Ea;
        [|discriminate E].
      destruct (executeSatelliteTrade_trace pair a rm) as (H1 & H2 & H3).
      cbv zeta in H1, H2, H3. unfold trace_of in *.
      destruct (executeSatelliteTrade cfg binance pair a rm) as [[t rm'] r].
      cbn [fst snd app filter isAnalyzeNews startsExecution isMarketBuy map]
        in *.
      rewrite H1. split; [|split; [|split; [|split]]].
      * f_equal. clear - H3. induction t as [|x t IHt]; [reflexivity|].
        simpl in H3. destruct x; simpl in *; try discriminate H3; auto.
      * auto.
      * exact H2.
      * intros _. exists news. split; [left; reflexivity|].
        rewrite Ea. exact E.
      * intro HF. inversion HF as [|? ? Hn _]; subst.
        rewrite Ea, E in Hn. discriminate Hn.
    + specialize (IH rm). cbv zeta in IH.
      destruct IH as (I1 & I2 & I3 & I4 & I5).
      unfold trace_of, manager_of in *.
      destruct (scanNews cfg binance sentimentAnalyzer pair rest rm)
        as [[t rm'] r].
      cbn [fst snd app filter isAnalyzeNews startsExecution isMarketBuy map
           In] in *.
      split; [|split; [|split; [|split]]].
      * f_equal. exact I1.
      * exact I2.
      * exact I3.
      * intros [x [[<-|H] Hx]]; [discriminate Hx|].
        destruct I4 as [n [Hn Hs]]; [exists x; auto|].
        exists n. split; [right|]; auto.
      * intro HF. inversion HF; subst.
        destruct I5 as [J1 J2]; [assumption|]. rewrite J1. auto.
Qed.

(** C8.  In a run of [processPair] the sentiment analyzer is asked for
    news, and news are analyzed, only if the technical pre-screen passes:
    the 4h RSI is not above the overbought veto threshold (65), the
    volatility of the last three 1h candles (max high / min low - 1) is
    not above the ceiling (0.05), and the 1h RSI is under the oversold
    threshold or inside the momentum band (45, 60).  When the volatility is
    above the ceiling no request goes to the sentiment analyzer, whatever
    the RSI values. *)
Theorem sentiment_gate_after_prescreen :
  forall (pair : string) (rm : RiskManager),
    let requests :=
      trace_of
        (processPair cfg RSI_calculate binance sentimentAnalyzer pair rm) in
    ((exists r, In r requests /\ isSentimentRequest r = true) ->
     exists candles1h candles4h : list Candle,
       let rsi1h := last_value (RSI_calculate (map close candles1h)) in
       let rsi4h := last_value (RSI_calculate (map close candles4h)) in
       let lastThree := slice_last 3 candles1h in
       getCandles binance pair "1h" = Some candles1h
       /\ getCandles binance pair "4h" = Some candles4h
       /\ Js.gt rsi4h (Js.Fin 65) = false
       /\ Js.gt
            (Js.sub
               (Js.div (Js.max_list (map high lastThree))
                  (Js.min_list (map low lastThree)))
               (Js.Fin 1))
            (Js.Fin 0.05) = false
       /\ (Js.lt rsi1h (Js.Fin (technicals_rsiOversold cfg)) = true
           \/ (Js.gt rsi1h (Js.Fin 45) = true
               /\ Js.lt rsi1h (Js.Fin 60) = true)))
    /\ (passesPreScreen cfg RSI_calculate binance pair ->
        In (GetLatestNews pair) requests)
    /\ (forall candles1h : list Candle,
          getCandles binance pair "1h" = Some candles1h ->
          Js.gt (volatility candles1h) (Js.Fin 0.05) = true ->
          filter isSentimentRequest requests = []).
Proof.
  intros pair rm requests. subst requests.
  destruct (processPair_cases pair rm)
    as [(Hno & _ & Ht) | (Hyes & _ & Ht)]; cbv zeta in Ht.
  - split; [|split].
    + intros [r [Hin Hr]]. exfalso.
      destruct Ht as [Ht|Ht]; rewrite Ht in Hin; simpl in Hin;
        repeat (destruct Hin as [<-|Hin]; [discriminate Hr|]);
        exact Hin.
    + intro H. contradiction.
    + intros _ _ _. destruct Ht as [-> | ->]; reflexivity.
  - split; [|split].
    + intros _. destruct Hyes as (c1 & c4 & H1 & H4 & Hv & Hvol & Hc).
      exists c1, c4. cbv zeta. split; [exact H1|]. split; [exact H4|].
      split; [exact Hv|]. split; [exact Hvol|].
      unfold isCandidate in Hc. cbv zeta in Hc.
      apply orb_true_iff in Hc as [Hc|Hc]; [left; exact Hc|].
      right. apply andb_true_iff in Hc. exact Hc.
    + intros _. rewrite Ht. simpl. auto.
    + intros c1 H1 Hvol. exfalso.
      destruct Hyes as (c1' & c4 & H1' & _ & _ & Hvol' & _).
      rewrite H1 in H1'. injection H1' as <-.
      rewrite Hvol in Hvol'. discriminate Hvol'.
Qed.

End EngineFacts.

Lemma sentiment_gate_after_prescreen_witness :
  filter isSentimentRequest
    (trace_of
       (processPair defaultConfig (fun _ => [Js.Fin 50])
          (mkExchange
             (fun _ _ =>
                Some [mkCandle (Js.Fin 100) (Js.Fin 110) (Js.Fin 100)
                        (Js.Fin 105) (Js.Fin 1)])
             None (fun _ => None) None (fun _ _ => None)
             (fun _ _ _ _ => None) (fun _ _ => None) (fun _ _ => None))
          (mkSentiment
             (fun _ => ["Mainnet launch announced for next week"%string])
             (fun _ _ => None))
          "SOLUSDT" (newRiskManager "2026-01-01" None))) = [].
Proof.
  refine (proj2 (proj2 (sentiment_gate_after_prescreen defaultConfig
            (fun _ => [Js.Fin 50]) _ _ "SOLUSDT"
            (newRiskManager "2026-01-01" None)))
          [mkCandle (Js.Fin 100) (Js.Fin 110) (Js.Fin 100) (Js.Fin 105)
             (Js.Fin 1)] _ _); reflexivity.
Defined.

(* ================================================================== *)
(** ** The trailing-stop pass *)

Lemma trailStops_run (binance : Exchange) (orders : list Order)
  (prices : string -> Js.number) :
  answersTrailing binance orders prices ->
  forall (openOrders stopOrders : list Order) (rm : RiskManager),
    trailStops binance openOrders stopOrders rm
    = (flat_map
         (fun o =>
            GetPrice (symbol o)
            :: ratchetRequests openOrders o (prices (symbol o)))
         stopOrders,
       rm, Some tt).
Proof.
  intros (_ & Hp & Hcl & Hc & Ho) openOrders.
  induction stopOrders as [|o rest IH]; intro rm; [reflexivity|].
  cbn [trailStops flat_map]. unfold bind at 1. unfold request at 1.
  rewrite Hp. unfold bind at 1. unfold ratchetRequests.
  destruct (Js.gt (prices (symbol o)) _).
  - unfold bind, request, notify. rewrite Ho.
    destruct (negb (orderListId o =? -1)%Z); rewrite ?Hcl, ?Hc, IH;
      reflexivity.
  - unfold ret. rewrite IH. reflexivity.
Qed.

(* ================================================================== *)
(** ** Rounded products *)

Lemma unitRoundoff_value : unitRoundoff == 1 # 9007199254740992.
Proof. reflexivity. Qed.

Lemma range_facts :
  0 < smallestNormal /\ smallestNormal <= 1 /\ 4 <= largestPower.
Proof.
  split; [reflexivity|].
  split; apply Qle_bool_iff; vm_compute; reflexivity.
Qed.

(** The rounded product [rnd (s * rnd k)] of a number with a literal [k]
    between 1 and 2 is within [(2u + u^2)] of the exact product,
    relatively. *)
Lemma rounded_product (rnd : Q -> Q) (k s : Q) :
  roundsToNearest rnd ->
  1 <= k -> k <= 2 ->
  wellInRange (s * k) = true ->
  Qabs (rnd (s * rnd k) - s * k) <= 3 * unitRoundoff * Qabs (s * k).
Proof.
  intros Hrnd Hk1 Hk2 Hr. unfold wellInRange in Hr.
  apply andb_true_iff in Hr. destruct Hr as [Hlo Hhi].
  apply Qle_bool_iff in Hlo. apply Qle_bool_iff in Hhi.
  destruct range_facts as (Hlo0 & Hlo1 & Hhi4).
  assert (Hck : Qabs (rnd k - k) <= unitRoundoff * Qabs k).
  { apply Hrnd; rewrite Qabs_pos by lra; lra. }
  rewrite (Qabs_pos k) in Hck by lra.
  rewrite Qabs_Qmult in Hlo, Hhi |- *. rewrite (Qabs_pos k) in * by lra.
  pose proof (Qabs_nonneg s) as Ha.
  assert (Hsc : Qabs (rnd (s * rnd k) - s * rnd k)
                <= unitRoundoff * Qabs (s * rnd k)).
  { apply Hrnd; rewrite Qabs_Qmult.
    - apply Qabs_Qle_condition in Hck.
      rewrite (Qabs_pos (rnd k)).
      + rewrite unitRoundoff_value in Hck.
        set (a := Qabs s) in *. clearbody a.
        set (c := rnd k) in *. clearbody c.
        set (lo := smallestNormal) in *. clearbody lo.
        assert (a * k - (1 # 9007199254740992) * (a * k) <= a * c) by nra.
        lra.
      + rewrite unitRoundoff_value in Hck. lra.
    - apply Qabs_Qle_condition in Hck.
      rewrite (Qabs_pos (rnd k)).
      + rewrite unitRoundoff_value in Hck.
        set (a := Qabs s) in *. clearbody a.
        set (c := rnd k) in *. clearbody c.
        set (hi := largestPower) in *. clearbody hi.
        assert (a * c <= a * k + (1 # 9007199254740992) * (a * k)) by nra.
        lra.
      + rewrite unitRoundoff_value in Hck. lra. }
  rewrite Qabs_Qmult in Hsc.
  assert (Hpos : 0 <= rnd k).
  { apply Qabs_Qle_condition in Hck. rewrite unitRoundoff_value in Hck.
    lra. }
  rewrite (Qabs_pos (rnd k)) in Hsc by exact Hpos.
  assert (Hd : Qabs (s * rnd k - s * k) <= unitRoundoff * k * Qabs s).
  { setoid_replace (s * rnd k - s * k) with (s * (rnd k - k)) by ring.
    rewrite Qabs_Qmult.
    setoid_replace (unitRoundoff * k * Qabs s)
      with (Qabs s * (unitRoundoff * k)) by ring.
    rewrite unitRoundoff_value in *.
    set (a := Qabs s) in *. clearbody a.
    set (b := Qabs (rnd k - k)) in *. clearbody b. nra. }
  apply Qabs_Qle_condition in Hsc. apply Qabs_Qle_condition in Hd.
  apply Qabs_Qle_condition in Hck. apply Qabs_Qle_condition.
  rewrite unitRoundoff_value in *.
  set (a := Qabs s) in *. clearbody a.
  set (c := rnd k) in *. clearbody c.
  set (T := rnd (s * c)) in *. clearbody T.
  set (x := s * c) in *. clearbody x.
  set (y := s * k) in *. clearbody y.
  assert (Hac : a * c <= a * k + (1 # 9007199254740992) * k * a) by nra.
  assert (Hak : a * k <= 2 * a) by nra.
  split; nra.
Qed.

(** Clear of the threshold, the comparison of the price with the rounded
    product decides as the comparison with the exact product does. *)
Lemma rounded_threshold (rnd : Q -> Q) (s p : Q) :
  roundsToNearest rnd ->
  clearOfThreshold (Js.Fin s) (Js.Fin p) = true ->
  Js.gt (Js.Fin p) (Js.mul (Js.Fin s) (Js.Fin 1.02))
  = Js.Qlt_bool (rnd (s * rnd 1.02)) p.
Proof.
  intros Hrnd Hc. cbn [clearOfThreshold] in Hc.
  apply andb_true_iff in Hc. destruct Hc as [Hr Hm].
  pose proof (rounded_product rnd 1.02 s Hrnd) as H.
  assert (H1 : 1 <= 1.02) by lra. assert (H2 : 1.02 <= 2) by lra.
  specialize (H H1 H2 Hr). clear H1 H2.
  apply Qlt_bool_iff in Hm. apply Qabs_Qle_condition in H.
  rewrite unitRoundoff_value in *.
  cbn [Js.mul Js.gt Js.lt].
  set (T := rnd (s * rnd 1.02)) in *. clearbody T.
  set (t := s * 1.02) in *. clearbody t.
  pose proof (Qabs_nonneg t) as Ht.
  set (a := Qabs t) in *. clearbody a.
  destruct (Qlt_le_dec t p) as [Hlt | Hle].
  - rewrite (proj2 (Qlt_bool_iff t p) Hlt). symmetry. apply Qlt_bool_iff.
    rewrite Qabs_pos in Hm by lra. lra.
  - rewrite (proj2 (Qlt_bool_false t p) Hle). symmetry.
    apply Qlt_bool_false.
    rewrite Qabs_neg in Hm by lra. lra.
Qed.

(** The rounded replacement of a positive stop is above the stop. *)
Lemma rounded_stop_higher (rnd : Q -> Q) (s : Q) :
  roundsToNearest rnd ->
  0 < s ->
  wellInRange (s * 1.01) = true ->
  s < rnd (s * rnd 1.01).
Proof.
  intros Hrnd Hs Hr.
  pose proof (rounded_product rnd 1.01 s Hrnd) as H.
  assert (H1 : 1 <= 1.01) by lra. assert (H2 : 1.01 <= 2) by lra.
  specialize (H H1 H2 Hr). clear H1 H2.
  apply Qabs_Qle_condition in H. rewrite unitRoundoff_value in H.
  rewrite Qabs_pos in H by nra.
  set (T := rnd (s * rnd 1.01)) in *. clearbody T. lra.
Qed.

(** Counterexample to C6 as the specification words it: the boundary.  With
    a stop at 100 and a price of 102 the price has risen 2% above the stop,
    and the stop is not replaced (so it is in binary64: 100 * 1.02 is 102).
    At the boundary the outcome is the one of the rounded product: with a
    stop at 0.09 and a price of 0.0918 the program's 0.09 * 1.02 is below
    0.0918 and the stop is replaced.  Besides, for a stop order without a
    take-profit order on its symbol the replacement carries a new
    take-profit, 4% above the price. *)
Lemma trailing_stop_boundary :
  let stop :=
    mkOrder "SOLUSDT" "STOP_LOSS_LIMIT" 1 7 (Js.VString "2.5")
      (Js.VString "99.50") (Js.Fin 100) in
  let target :=
    mkOrder "SOLUSDT" "LIMIT_MAKER" 2 7 (Js.VString "2.5")
      (Js.VString "120.00") (Js.Fin 0) in
  let alone :=
    mkOrder "SOLUSDT" "STOP_LOSS" 3 (-1) (Js.VString "2.5")
      (Js.VString "0.00") (Js.Fin 100) in
  let rm := newRiskManager "2026-01-01" None in
  Js.ge (Js.Fin 102) (Js.mul (stopPrice stop) (Js.Fin 1.02)) = true
  /\ trace_of
       (manageTrailingStops (quietExchange [stop; target] (Js.Fin 102)) rm)
     = [GetOpenOrders; GetPrice "SOLUSDT"]
  /\ filter isOcoSell
       (trace_of
          (manageTrailingStops (quietExchange [alone] (Js.Fin 110)) rm))
     = [OcoSell "SOLUSDT" (Js.VString "2.5")
          (Js.VNumber (Js.mul (Js.Fin 110) (Js.Fin 1.04)))
          (Js.mul (Js.Fin 100) (Js.Fin 1.01))]
  /\ Binary64.ratchetDue (Binary64.ofQ 100) (Binary64.ofQ 102) = false
  /\ Binary64.ratchetDue (Binary64.ofQ 0.09) (Binary64.ofQ 0.0918) = true.
Proof.
  split; [reflexivity|]. split; [reflexivity|]. split; [reflexivity|].
  split; vm_compute; reflexivity.
Qed.

(** C6 (amended).  When the exchange answers its requests, the
    trailing-stop pass asks the price of every open stop order in turn and,
    for a price that is clear of the threshold (further from
    stop * 1.02 than the rounding of the program's product can reach),
    replaces the stop exactly when the price is more than 2% above the stop
    price (price > stop * 1.02): the comparison with the rounded product
    decides in the same way, for every arithmetic that rounds to nearest.
    The replacement stop is the old stop * 1.01, for the quantity of the
    old order; its take-profit is the price of the first open LIMIT_MAKER
    order on the same symbol when there is one, and 4% above the current
    price otherwise.  A replacement of a positive stop is strictly higher
    than the stop it replaces, also when the product is rounded.  What is
    sent for an order depends on that order, on the open orders and on the
    price of its symbol only. *)
Theorem trailing_stop_ratchet :
  forall (binance : Exchange) (orders : list Order)
         (prices : string -> Js.number) (rm : RiskManager),
    answersTrailing binance orders prices ->
    Forall (fun o =>
              clearOfThreshold (stopPrice o) (prices (symbol o)) = true)
      (filter isStopOrder orders) ->
    trace_of (manageTrailingStops binance rm)
    = GetOpenOrders
      :: flat_map
           (fun o =>
              GetPrice (symbol o)
              :: ratchetRequests orders o (prices (symbol o)))
           (filter isStopOrder orders)
    /\ manager_of (manageTrailingStops binance rm) = rm
    /\ forall (order : Order) (currentPrice : Js.number),
         clearOfThreshold (stopPrice order) currentPrice = true ->
         let stop := stopPrice order in
         let takeProfitOrder :=
           find (fun o => String.eqb (symbol o) (symbol order)
                          && String.eqb (type o) "LIMIT_MAKER") orders in
         filter isOcoSell (ratchetRequests orders order currentPrice)
         = (if Js.gt currentPrice (Js.mul stop (Js.Fin 1.02))
            then [OcoSell (symbol order) (origQty order)
                    (originalTP orders order currentPrice)
                    (Js.mul stop (Js.Fin 1.01))]
            else [])
         /\ (forall (rnd : Q -> Q) (s p : Q),
                roundsToNearest rnd ->
                stop = Js.Fin s -> currentPrice = Js.Fin p ->
                Js.gt currentPrice (Js.mul stop (Js.Fin 1.02))
                = Js.Qlt_bool (rnd (s * rnd 1.02)) p)
         /\ (Js.gt currentPrice (Js.mul stop (Js.Fin 1.02)) = true ->
             Js.lt (Js.Fin 0) stop = true ->
             Js.lt stop (Js.mul stop (Js.Fin 1.01)) = true)
         /\ (forall (rnd : Q -> Q) (s : Q),
                roundsToNearest rnd ->
                stop = Js.Fin s -> 0 < s ->
                wellInRange (s * 1.01) = true ->
                s < rnd (s * rnd 1.01))
         /\ (forall o, takeProfitOrder = Some o ->
                       Js.truthy (price o) = true ->
                       originalTP orders order currentPrice = price o)
         /\ (takeProfitOrder = None ->
             originalTP orders order currentPrice
             = Js.VNumber (Js.mul currentPrice (Js.Fin 1.04))).
Proof.
  intros binance orders prices rm Hex _.
  assert (Hrun : manageTrailingStops binance rm
                 = (GetOpenOrders
                    :: flat_map
                         (fun o =>
                            GetPrice (symbol o)
                            :: ratchetRequests orders o (prices (symbol o)))
                         (filter isStopOrder orders),
                    rm, Some tt)).
  { unfold manageTrailingStops, try_catch, bind, request.
    destruct Hex as (Hoo & Hrest) eqn:E. rewrite Hoo.
    rewrite (trailStops_run binance orders prices
               (conj Hoo Hrest) orders (filter isStopOrder orders) rm).
    reflexivity. }
  rewrite Hrun. split; [reflexivity|]. split; [reflexivity|].
  intros order p Hclear stop takeProfitOrder.
  split; [|split; [|split; [|split; [|split]]]].
  - unfold ratchetRequests. fold stop.
    destruct (Js.gt p (Js.mul stop (Js.Fin 1.02))); [|reflexivity].
    destruct (negb (orderListId order =? -1)%Z); reflexivity.
  - intros rnd s q Hrnd Es Ep. fold stop in Hclear. rewrite Es, Ep in *.
    apply rounded_threshold; assumption.
  - destruct stop as [s| | |]; simpl; try discriminate.
    + intros _ Hs. q_reflect. lra.
    + now destruct p.
  - intros rnd s Hrnd _ Hs Hr. apply rounded_stop_higher; assumption.
  - intros o Hf Ht. unfold originalTP. fold takeProfitOrder.
    rewrite Hf, Ht. reflexivity.
  - intros Hf. unfold originalTP. fold takeProfitOrder.
    rewrite Hf. reflexivity.
Qed.

Lemma trailing_stop_ratchet_witness :
  trace_of
    (manageTrailingStops
       (quietExchange
          [mkOrder "SOLUSDT" "STOP_LOSS_LIMIT" 1 7 (Js.VString "2.5")
             (Js.VString "99.50") (Js.Fin 100);
           mkOrder "SOLUSDT" "LIMIT_MAKER" 2 7 (Js.VString "2.5")
             (Js.VString "120.00") (Js.Fin 0)]
          (Js.Fin 103))
       (newRiskManager "2026-01-01" None))
  = [GetOpenOrders; GetPrice "SOLUSDT"; CancelOrderList "SOLUSDT" 7;
     OcoSell "SOLUSDT" (Js.VString "2.5") (Js.VString "120.00")
       (Js.mul (Js.Fin 100) (Js.Fin 1.01));
     SendAlert "SOLUSDT" (Js.mul (Js.Fin 100) (Js.Fin 1.01))].
Proof.
  refine (proj1 (trailing_stop_ratchet
                  (quietExchange
                     [mkOrder "SOLUSDT" "STOP_LOSS_LIMIT" 1 7
                        (Js.VString "2.5") (Js.VString "99.50") (Js.Fin 100);
                      mkOrder "SOLUSDT" "LIMIT_MAKER" 2 7 (Js.VString "2.5")
                        (Js.VString "120.00") (Js.Fin 0)]
                     (Js.Fin 103))
                  [mkOrder "SOLUSDT" "STOP_LOSS_LIMIT" 1 7
                     (Js.VString "2.5") (Js.VString "99.50") (Js.Fin 100);
                   mkOrder "SOLUSDT" "LIMIT_MAKER" 2 7 (Js.VString "2.5")
                     (Js.VString "120.00") (Js.Fin 0)]
                  (fun _ => Js.Fin 103)
                  (newRiskManager "2026-01-01" None)
                  (conj eq_refl
                     (conj (fun _ => eq_refl)
                        (conj (fun _ _ => eq_refl)
                           (conj (fun _ _ => eq_refl)
                              (fun _ _ _ _ => eq_refl)))))
                  _)).
  constructor; [vm_compute; reflexivity | constructor].
Defined.

(* ================================================================== *)
(** ** The tests of the repository

    The assertions of the unit tests of the risk manager and of the mock
    integration test, on a manager of a fresh day with the default
    configuration. *)

Example test_small_account :
  let rm := resetBreaker (newRiskManager "2026-01-01" None) in
  calculatePositionSize defaultConfig rm (Js.Fin 50) (Js.Fin 65) =n= Js.Fin 10
  /\ calculatePositionSize defaultConfig rm (Js.Fin 50) (Js.Fin 95)
     =n= Js.Fin 10.
Proof. split; reflexivity. Qed.

Example test_position_sizing :
  let rm := newRiskManager "2026-01-01" None in
  calculatePositionSize defaultConfig rm (Js.Fin 1000) (Js.Fin 50) =n= Js.Fin 0
  /\ calculatePositionSize defaultConfig rm (Js.Fin 1000) (Js.Fin 65)
     =n= Js.Fin 10
  /\ calculatePositionSize defaultConfig rm (Js.Fin 1000) (Js.Fin 90)
     =n= Js.Fin 20
  /\ calculatePositionSize (set_maxRiskPerTrade 0.5 defaultConfig) rm
       (Js.Fin 1000) (Js.Fin 90)
     =n= Js.Fin 100.
Proof. repeat split. Qed.

Example test_exit_points :
  let entry := Binary64.ofQ 100 in
  let exitsDefault := Binary64.getExitPoints defaultConfig entry "BUY" None in
  let exitsAI :=
    Binary64.getExitPoints defaultConfig entry "BUY"
      (Some (Binary64.ofQ 10)) in
  Binary64.stopLoss exitsDefault = Binary64.ofQ 98
  /\ Binary64.takeProfit exitsDefault = Binary64.ofQ 104
  /\ Binary64.stopLoss exitsAI = Binary64.ofQ 98
  /\ Binary64.near (Binary64.ofQ 0.0001) (Binary64.takeProfit exitsAI)
       (Binary64.ofQ 110) = true.
Proof. cbv zeta. repeat split; vm_compute; reflexivity. Qed.

Example test_panic_breaker :
  canTrade
    (updateBalance defaultConfig (Js.Fin 10)
       (resetBreaker (newRiskManager "2026-01-01" None))) = false.
Proof. reflexivity. Qed.

Example test_trade_count_breaker :
  canTrade
    (recordTrades defaultConfig 10
       (resetBreaker (newRiskManager "2026-01-01" None))) = false.
Proof. vm_compute. reflexivity. Qed.

Example test_daily_loss_breaker :
  let rm :=
    updateBalance defaultConfig (Js.Fin 940)
      (resetBreaker (newRiskManager "2026-01-01" None)) in
  canTrade rm = true
  /\ canTrade
       (updateBalance defaultConfig (Js.Fin 940)
          (set_initialBalance (Js.Fin 1000) rm)) = false.
Proof. split; reflexivity. Qed.

(* ================================================================== *)
(** ** Further properties of the risk manager *)

(** One evaluation of the breakers, on a manager given field by field. *)
Lemma checkBreakers_record (cfg : Config) (d : string)
  (i c t p : Js.numfield) (h : bool) (f : option DailyStats)
  (l : list BreakerEvent) :
  let s := mkDailyStats d i c t p h in
  checkBreakers cfg (mkRiskManager s f l)
  = mkRiskManager (mkDailyStats d i c t p (h || breakerCondition cfg s)) f
      (l ++ (if negb h && breakerCondition cfg s
             then [breakerEvent cfg s] else [])).
Proof.
  cbv zeta.
  unfold checkBreakers, tripBreaker, breakerCondition, breakerEvent,
    dailyLossReached, maxTradesReached, balanceBelowMinimum.
  cbn [dailyStats dataFile breakerLog date initialBalance currentBalance
       tradesCount dailyPnL isHalted set_isHalted].
  destruct (Js.le (Js.toNumber p) _);
    cbn [dailyStats dataFile breakerLog date initialBalance currentBalance
         tradesCount dailyPnL isHalted set_isHalted negb orb andb];
    destruct h;
    cbn [dailyStats dataFile breakerLog date initialBalance currentBalance
         tradesCount dailyPnL isHalted set_isHalted negb orb andb];
    destruct (Js.ge (Js.toNumber t) _);
    cbn [dailyStats dataFile breakerLog date initialBalance currentBalance
         tradesCount dailyPnL isHalted set_isHalted negb orb andb];
    destruct (Js.gt (Js.toNumber c) _ && Js.lt (Js.toNumber c) _);
    cbn [dailyStats dataFile breakerLog date initialBalance currentBalance
         tradesCount dailyPnL isHalted set_isHalted negb orb andb];
    rewrite <- ?app_assoc, ?app_nil_r; reflexivity.
Qed.

(** X1.  Evaluating the breakers twice in a row is the same as evaluating
    them once: the second evaluation changes nothing and logs nothing. *)
Theorem checkBreakers_idempotent :
  forall (cfg : Config) (rm : RiskManager),
    checkBreakers cfg (checkBreakers cfg rm) = checkBreakers cfg rm.
Proof.
  intros cfg [[d i c t p h] f l].
  rewrite (checkBreakers_record cfg d i c t p h f l). cbv zeta.
  rewrite checkBreakers_record. cbv zeta.
  destruct (breakerCondition_fields cfg (mkDailyStats d i c t p h)
              (mkDailyStats d i c t p
                 (h || breakerCondition cfg (mkDailyStats d i c t p h)))
              eq_refl eq_refl eq_refl) as (_ & _ & _ & -> & _).
  destruct h, (breakerCondition cfg (mkDailyStats d i c t p false));
    destruct (breakerCondition cfg (mkDailyStats d i c t p true));
    cbn [negb orb andb]; rewrite ?app_nil_r; reflexivity.
Qed.

(** X2.  The minimum-balance breaker: observing a balance that is positive
    and under [minBalanceToTrade] halts trading, whatever the record held
    before (no trade recorded, a gain on the day, ...). *)
Theorem low_balance_halts :
  forall (cfg : Config) (rm : RiskManager) (v : Q),
    0 < v ->
    v < risk_minBalanceToTrade cfg ->
    canTrade (updateBalance cfg (Js.Fin v) rm) = false.
Proof.
  intros cfg rm v H0 Hmin. unfold canTrade. apply negb_false_iff.
  destruct (updateBalance_halted cfg (Js.Fin v) rm) as [E _].
  cbv zeta in E. rewrite E. apply orb_true_iff. right.
  unfold breakerCondition. apply orb_true_iff. right.
  unfold balanceBelowMinimum.
  destruct (updateBalance_fields cfg (Js.Fin v) rm) as (_ & Ec & _).
  cbv zeta in Ec. rewrite Ec. simpl. apply andb_true_iff.
  split; q_reflect; assumption.
Qed.

Lemma low_balance_halts_witness :
  canTrade
    (updateBalance defaultConfig (Js.Fin 12)
       (updateBalance defaultConfig (Js.Fin 10)
          (newRiskManager "2026-01-01" None))) = false.
Proof.
  refine (low_balance_halts defaultConfig _ 12 _ _); reflexivity.
Defined.

(** The daily-loss condition after a balance update, with a positive
    baseline: the loss limit is reached exactly when the balance is at or
    under [initialBalance * (1 - dailyLossLimit)]. *)
Lemma loss_threshold (v i l : Q) :
  0 < i -> (v / i - 1 <= - l <-> v <= i * (1 - l)).
Proof.
  intro Hi.
  assert (E : v == (v / i) * i) by (field; lra).
  set (q := v / i) in *. clearbody q. split; intro H.
  - rewrite E. nra.
  - rewrite E in H. nra.
Qed.

Lemma smallestNormal_small : smallestNormal <= 1 # 8.
Proof. apply Qle_bool_iff. vm_compute. reflexivity. Qed.

(** The error of one rounding, on the normal numbers and below. *)
Lemma rounding_error (rnd : Q -> Q) (x : Q) :
  roundsToNearest rnd -> roundsSubnormals rnd ->
  Qabs x <= largestPower ->
  Qabs (rnd x - x) <= unitRoundoff * (Qabs x + smallestNormal).
Proof.
  intros Hn Hs Hx. destruct range_facts as (Hlo0 & _ & _).
  pose proof (Qabs_nonneg x) as Ha.
  destruct (Qlt_le_dec (Qabs x) smallestNormal) as [Hsub | Hnorm].
  - specialize (Hs x (Qlt_le_weak _ _ Hsub)).
    rewrite unitRoundoff_value in *.
    set (a := Qabs x) in *. clearbody a.
    set (e := Qabs (rnd x - x)) in *. clearbody e.
    set (lo := smallestNormal) in *. clearbody lo. lra.
  - specialize (Hn x Hnorm Hx).
    rewrite unitRoundoff_value in *.
    set (a := Qabs x) in *. clearbody a.
    set (e := Qabs (rnd x - x)) in *. clearbody e.
    set (lo := smallestNormal) in *. clearbody lo. lra.
Qed.

(** Clear of the threshold, the program's rounded [v / i - 1] compares with
    its rounded limit as the exact values do. *)
Lemma rounded_loss_test (rnd : Q -> Q) (l v i : Q) :
  roundsToNearest rnd -> roundsSubnormals rnd ->
  clearOfLossLimit l v i = true ->
  Qle_bool (rnd (rnd (v / i) - 1)) (- rnd l) = Qle_bool (v / i - 1) (- l).
Proof.
  intros Hn Hs Hc. unfold clearOfLossLimit in Hc. cbv zeta in Hc.
  apply andb_true_iff in Hc. destruct Hc as [Hc Hm].
  apply andb_true_iff in Hc. destruct Hc as [Hq Hl].
  apply Qle_bool_iff in Hq. apply Qle_bool_iff in Hl.
  apply Qlt_bool_iff in Hm.
  destruct range_facts as (Hlo0 & _ & Hhi4).
  pose proof smallestNormal_small as Hlo1.
  set (q := v / i) in *. clearbody q.
  pose proof (Qabs_nonneg q) as Hq0. pose proof (Qabs_nonneg l) as Hl0.
  assert (E1 : Qabs (rnd q - q) <= unitRoundoff * (Qabs q + smallestNormal)).
  { apply rounding_error; [assumption | assumption | lra]. }
  assert (E3 : Qabs (rnd l - l) <= unitRoundoff * (Qabs l + smallestNormal)).
  { apply rounding_error; assumption. }
  assert (B2 : Qabs (rnd q - 1) <= Qabs q + 1 + Qabs (rnd q - q)).
  { setoid_replace (rnd q - 1) with ((rnd q - q) + (q - 1)) by ring.
    eapply Qle_trans; [apply Qabs_triangle|].
    assert (Qabs (q - 1) <= Qabs q + 1).
    { setoid_replace (q - 1) with (q + - (1)) by ring.
      eapply Qle_trans; [apply Qabs_triangle|].
      rewrite Qabs_opp. rewrite (Qabs_pos 1) by lra. lra. }
    lra. }
  assert (E2 : Qabs (rnd (rnd q - 1) - (rnd q - 1))
               <= unitRoundoff * (Qabs (rnd q - 1) + smallestNormal)).
  { apply rounding_error; [assumption | assumption |].
    rewrite unitRoundoff_value in E1.
    set (a := Qabs q) in *. clearbody a.
    set (e := Qabs (rnd q - q)) in *. clearbody e.
    set (b := Qabs (rnd q - 1)) in *. clearbody b.
    set (lo := smallestNormal) in *. clearbody lo.
    set (hi := largestPower) in *. clearbody hi. lra. }
  rewrite unitRoundoff_value in *.
  set (d := rnd (rnd q - 1)) in *. clearbody d.
  set (q1 := rnd q) in *. clearbody q1.
  set (L := rnd l) in *. clearbody L.
  apply Qabs_Qle_condition in E1. apply Qabs_Qle_condition in E3.
  apply Qabs_Qle_condition in E2.
  assert (B2' : Qabs (q1 - 1)
                <= Qabs q + 1
                   + (1 # 9007199254740992) * (Qabs q + smallestNormal)).
  { assert (Qabs (q1 - q)
            <= (1 # 9007199254740992) * (Qabs q + smallestNormal))
      by (apply Qabs_Qle_condition; exact E1).
    lra. }
  clear B2.
  set (a := Qabs q) in *. clearbody a.
  set (c := Qabs l) in *. clearbody c.
  set (b := Qabs (q1 - 1)) in *. clearbody b.
  set (lo := smallestNormal) in *. clearbody lo.
  clear Hq Hl Hhi4.
  destruct (Qlt_le_dec (- l) (q - 1)) as [Hgt | Hle].
  - rewrite (proj2 (Qle_bool_false (q - 1) (- l)) Hgt).
    apply Qle_bool_false.
    rewrite Qabs_pos in Hm by lra. lra.
  - rewrite (proj2 (Qle_bool_iff (q - 1) (- l)) Hle).
    apply Qle_bool_iff.
    rewrite Qabs_neg in Hm by lra. lra.
Qed.

(** X3.  With a positive baseline [i], a balance update trips the
    daily-loss breaker exactly when the new balance is at or under
    [i * (1 - dailyLossLimit)], for a balance that is clear of this
    threshold (further from it than the roundings of the program's
    [v / i - 1] and of the limit can reach): the test on the rounded values
    decides in the same way, for every arithmetic that rounds to nearest.
    At the threshold the outcome is the one of the rounded values: in
    binary64, with a limit of 5%, a balance of 950 on a baseline of 1000
    trips the breaker and a balance of 18.05 on a baseline of 19 does
    not. *)
Theorem daily_loss_threshold :
  forall (cfg : Config) (rm : RiskManager) (v i : Q),
    initialBalance (dailyStats rm) = Js.Num (Js.Fin i) ->
    0 < i ->
    clearOfLossLimit (risk_dailyLossLimit cfg) v i = true ->
    (dailyLossReached cfg (dailyStats (updateBalance cfg (Js.Fin v) rm))
     = true
     <-> v <= i * (1 - risk_dailyLossLimit cfg))
    /\ (forall rnd : Q -> Q,
           roundsToNearest rnd -> roundsSubnormals rnd ->
           (Qle_bool (rnd (rnd (v / i) - 1))
              (- rnd (risk_dailyLossLimit cfg)) = true
            <-> v <= i * (1 - risk_dailyLossLimit cfg)))
    /\ (let pnl x y := Binary64.dailyPnL (Binary64.ofQ x) (Binary64.ofQ y) in
        Binary64.dailyLossReached (Binary64.ofQ 0.05) (pnl 950 1000) = true
        /\ Binary64.dailyLossReached (Binary64.ofQ 0.05) (pnl 18.05 19)
           = false
        /\ 18.05 == 19 * (1 - 0.05)).
Proof.
  intros cfg rm v i Hi Hpos Hclear.
  split; [|split].
  - unfold dailyLossReached.
    destruct (updateBalance_baseline cfg v i rm Hi) as (_ & _ & Ep);
      [lra|].
    cbv zeta in Ep. rewrite Ep. simpl. rewrite Qle_bool_iff.
    apply loss_threshold, Hpos.
  - intros rnd Hn Hs.
    rewrite (rounded_loss_test rnd _ v i Hn Hs Hclear), Qle_bool_iff.
    apply loss_threshold, Hpos.
  - cbv zeta. split; [vm_compute; reflexivity|].
    split; [vm_compute; reflexivity | reflexivity].
Qed.

Lemma daily_loss_threshold_witness :
  dailyLossReached defaultConfig
    (dailyStats
       (updateBalance defaultConfig (Js.Fin 940)
          (updateBalance defaultConfig (Js.Fin 1000)
             (newRiskManager "2026-01-01" None)))) = true.
Proof.
  refine (proj2 (proj1 (daily_loss_threshold defaultConfig
                   (updateBalance defaultConfig (Js.Fin 1000)
                      (newRiskManager "2026-01-01" None)) 940 1000 _ _ _))
            _);
    vm_compute; try reflexivity; discriminate.
Defined.

Lemma call_tradesCount (cfg : Config) (c : RiskCall) (rm : RiskManager) :
  tradesCount (dailyStats (call cfg rm c))
  = match c with
    | CallRecordTrade =>
        Js.Num (Js.add (Js.toNumber (tradesCount (dailyStats rm))) (Js.Fin 1))
    | _ => tradesCount (dailyStats rm)
    end.
Proof.
  destruct c; cbn [call]; try reflexivity.
  - unfold updateBalance. cbv zeta.
    set (s1 := {| date := _; isHalted := isHalted (dailyStats rm) |}).
    destruct (checkBreakers_effect cfg (with_stats s1 rm))
      as (_ & _ & _ & _ & Ht & _).
    cbn [dailyStats saveStats with_stats] in *. rewrite Ht. reflexivity.
  - apply recordTrade_tradesCount.
Qed.

(** X4.  The trade counter counts the [recordTrade] calls and nothing else:
    after any sequence of calls it holds its former value plus the number
    of [recordTrade] among them, whether or not the manager was halted
    meanwhile. *)
Theorem tradesCount_counts_recordTrade :
  forall (cfg : Config) (cs : list RiskCall) (rm : RiskManager) (t : Q),
    tradesCount (dailyStats rm) = Js.Num (Js.Fin t) ->
    exists q : Q,
      tradesCount (dailyStats (calls cfg cs rm)) = Js.Num (Js.Fin q)
      /\ q == t + inject_Z (Z.of_nat (recordedCalls cs)).
Proof.
  intros cfg cs. unfold calls.
  induction cs as [|c cs IH]; intros rm t Ht; cbn [fold_left].
  - exists t. split; [exact Ht|]. unfold recordedCalls. simpl. ring.
  - pose proof (call_tradesCount cfg c rm) as Hc. rewrite Ht in Hc.
    destruct c; cbn [Js.toNumber Js.add] in Hc;
      destruct (IH _ _ Hc) as [q [Hq Eq]]; exists q;
      (split; [exact Hq|]); rewrite Eq; unfold recordedCalls;
      cbn [filter List.length]; try reflexivity.
    rewrite Nat2Z.inj_succ. unfold Z.succ. rewrite inject_Z_plus.
    change (inject_Z 1) with 1. ring.
Qed.

Lemma tradesCount_counts_recordTrade_witness :
  exists q : Q,
    tradesCount
      (dailyStats
         (calls defaultConfig
            [CallRecordTrade; CallUpdateBalance (Js.Fin 10); CallRecordTrade]
            (newRiskManager "2026-01-01" None)))
    = Js.Num (Js.Fin q)
    /\ q == 0 + inject_Z 2.
Proof.
  exact (tradesCount_counts_recordTrade defaultConfig
           [CallRecordTrade; CallUpdateBalance (Js.Fin 10); CallRecordTrade]
           (newRiskManager "2026-01-01" None) 0 eq_refl).
Defined.

(** X5.  Restarting twice on the same day is the same as restarting once:
    the second process reads back what the first one loaded or wrote. *)
Theorem restart_idempotent :
  forall (today : string) (rm : RiskManager),
    restart today (restart today rm) = restart today rm.
Proof.
  intros today rm. unfold restart, newRiskManager, loadStats.
  cbn [dataFile]. destruct (dataFile rm) as [saved|] eqn:Ef.
  - destruct (String.eqb (date saved) today) eqn:Ed.
    + cbn [with_stats dataFile]. rewrite Ed. reflexivity.
    + cbn [saveStats with_stats dataFile dailyStats toJSON freshStats date
           Js.json_roundtrip].
      rewrite String.eqb_refl. reflexivity.
  - cbn [saveStats with_stats dataFile dailyStats toJSON freshStats date
         Js.json_roundtrip].
    rewrite String.eqb_refl. reflexivity.
Qed.

(* ================================================================== *)
(** ** Further properties of the position size *)

(** Destructs the comparisons of rationals in the goal. *)
Ltac q_cases :=
  repeat (cbn [Js.mul Js.max Js.min Js.lt Js.ge Js.gt Js.le negb andb orb];
          match goal with
          | |- context [Js.Qlt_bool ?a ?b] =>
              destruct (Js.Qlt_bool a b) eqn:?
          | |- context [Qle_bool ?a ?b] =>
              destruct (Qle_bool a b) eqn:?
          end).

(** Floor, cap, floor on finite values, case by case: no trade, the
    minimum order, the trade value, or the cap. *)
Lemma floorCapFloor_cases (cfg : Config) (q tv : Q) :
  let m := risk_minOrderSizeUsdt cfg in
  let sat := q * allocation_satellite cfg in
  let exposed := sat * risk_maxSatelliteExposure cfg in
  exists r cap : Q,
    floorCapFloor cfg (Js.Fin q) (Js.Fin tv) = Js.Fin r
    /\ (exposed < m /\ cap = m \/ m <= exposed /\ cap = exposed)
    /\ (tv < m /\ sat < m /\ r = 0
        \/ tv < m /\ m <= sat /\ r = m
        \/ m <= tv /\ tv <= cap /\ r = tv
        \/ m <= tv /\ cap < tv /\ r = cap).
Proof.
  cbv zeta. unfold floorCapFloor, floorRule, exposureCap. cbv zeta.
  q_cases; q_reflect;
    eexists; eexists; (split; [reflexivity|]);
    (split; [first [left; split; [assumption | reflexivity]
                   | right; split; [assumption | reflexivity]] |]);
    first [ left; repeat split; (assumption || reflexivity || lra)
          | right; left; repeat split; (assumption || reflexivity || lra)
          | right; right; left; repeat split;
            (assumption || reflexivity || lra)
          | right; right; right; repeat split;
            (assumption || reflexivity || lra)
          | exfalso; lra ].
Qed.

Lemma calculatePositionSize_finite (cfg : Config) (rm : RiskManager) (q : Q)
  (cs : Js.number) :
  isHalted (dailyStats rm) = false ->
  Js.lt cs (Js.Fin (confidence_minToTrade cfg)) = false ->
  calculatePositionSize cfg rm (Js.Fin q) cs
  = floorCapFloor cfg (Js.Fin q) (Js.Fin (q * scaledRisk cfg cs)).
Proof.
  intros Hh Hc. rewrite (calculatePositionSize_active cfg rm _ cs Hh Hc).
  unfold scaledRisk.
  destruct (Js.ge cs (Js.Fin (confidence_highThreshold cfg)));
    [|destruct (Js.ge cs (Js.Fin 75))]; reflexivity.
Qed.

Lemma scaledRisk_positive (cfg : Config) (cs : Js.number) :
  0 < risk_maxRiskPerTrade cfg ->
  0 < scaledRisk cfg cs /\ scaledRisk cfg cs <= risk_maxRiskPerTrade cfg * 2.
Proof.
  intro H. unfold scaledRisk.
  destruct (Js.ge cs _); [|destruct (Js.ge cs _)]; lra.
Qed.

(** The risk factor does not decrease with the confidence. *)
Lemma scaledRisk_monotone (cfg : Config) (c1 c2 : Js.number) :
  0 < risk_maxRiskPerTrade cfg ->
  Js.le c1 c2 = true ->
  scaledRisk cfg c1 <= scaledRisk cfg c2.
Proof.
  intros Hr Hle. unfold scaledRisk, Js.ge.
  destruct c1 as [x| | |], c2 as [y| | |]; simpl in *; try discriminate;
    q_cases; q_reflect; lra.
Qed.

Lemma lt_le_trans_false (c1 c2 : Js.number) (k : Q) :
  Js.le c1 c2 = true ->
  Js.lt c1 (Js.Fin k) = false ->
  Js.lt c2 (Js.Fin k) = false.
Proof.
  destruct c1 as [x| | |], c2 as [y| | |]; simpl; try discriminate;
    try reflexivity.
  intros H1 H2. q_reflect. lra.
Qed.

(** Floor, cap, floor does not decrease with the trade value. *)
Lemma floorCapFloor_monotone_value (cfg : Config) (q a b : Q) :
  0 < risk_minOrderSizeUsdt cfg ->
  a <= b ->
  Js.le (floorCapFloor cfg (Js.Fin q) (Js.Fin a))
    (floorCapFloor cfg (Js.Fin q) (Js.Fin b)) = true.
Proof.
  intros Hm Hab.
  destruct (floorCapFloor_cases cfg q a) as (r1 & cap1 & -> & C1 & R1).
  destruct (floorCapFloor_cases cfg q b) as (r2 & cap2 & -> & C2 & R2).
  simpl. q_reflect.
  set (m := risk_minOrderSizeUsdt cfg) in *.
  set (sat := q * allocation_satellite cfg) in *.
  set (ex := sat * risk_maxSatelliteExposure cfg) in *.
  clearbody sat ex m.
  destruct C1 as [[? ->] | [? ->]], C2 as [[? ->] | [? ->]];
    destruct R1 as [(? & ? & ->) | [(? & ? & ->) | [(? & ? & ->)
                   | (? & ? & ->)]]];
    destruct R2 as [(? & ? & ->) | [(? & ? & ->) | [(? & ? & ->)
                   | (? & ? & ->)]]];
    lra.
Qed.

(** X6.  A higher confidence never gives a smaller position: for a finite
    capital that is not negative and a positive minimum order size and risk
    per trade, the position size does not decrease when the confidence
    score increases. *)
Theorem position_size_monotone_confidence :
  forall (cfg : Config) (rm : RiskManager) (totalCapital : Q)
         (c1 c2 : Js.number),
    0 < risk_minOrderSizeUsdt cfg ->
    0 < risk_maxRiskPerTrade cfg ->
    0 <= totalCapital ->
    Js.le c1 c2 = true ->
    Js.le (calculatePositionSize cfg rm (Js.Fin totalCapital) c1)
      (calculatePositionSize cfg rm (Js.Fin totalCapital) c2) = true.
Proof.
  intros cfg rm q c1 c2 Hm Hr Hq Hle.
  destruct (isHalted (dailyStats rm)) eqn:Hh.
  { unfold calculatePositionSize. rewrite Hh. reflexivity. }
  destruct (Js.lt c1 (Js.Fin (confidence_minToTrade cfg))) eqn:H1.
  - assert (E : calculatePositionSize cfg rm (Js.Fin q) c1 = Js.Fin 0).
    { unfold calculatePositionSize. now rewrite Hh, H1. }
    rewrite E.
    destruct (Js.lt c2 (Js.Fin (confidence_minToTrade cfg))) eqn:H2.
    + unfold calculatePositionSize. now rewrite Hh, H2.
    + rewrite (calculatePositionSize_finite cfg rm q c2 Hh H2).
      destruct (floorCapFloor_cases cfg q (q * scaledRisk cfg c2))
        as (r & cap & -> & C & R).
      simpl. q_reflect.
      destruct C as [[? ->] | [? ->]];
        destruct R as [(? & ? & ->) | [(? & ? & ->) | [(? & ? & ->)
                      | (? & ? & ->)]]]; lra.
  - pose proof (lt_le_trans_false c1 c2 _ Hle H1) as H2.
    rewrite (calculatePositionSize_finite cfg rm q c1 Hh H1).
    rewrite (calculatePositionSize_finite cfg rm q c2 Hh H2).
    apply floorCapFloor_monotone_value; [exact Hm|].
    pose proof (scaledRisk_monotone cfg c1 c2 Hr Hle). nra.
Qed.

Lemma position_size_monotone_confidence_witness :
  Js.le
    (calculatePositionSize defaultConfig (newRiskManager "2026-01-01" None)
       (Js.Fin 1000) (Js.Fin 70))
    (calculatePositionSize defaultConfig (newRiskManager "2026-01-01" None)
       (Js.Fin 1000) (Js.Fin 80)) = true.
Proof.
  refine (position_size_monotone_confidence defaultConfig _ 1000
            (Js.Fin 70) (Js.Fin 80) _ _ _ _);
    vm_compute; try reflexivity; discriminate.
Defined.

(** X7.  A larger account never gets a smaller position: for positive
    minimum order size, satellite allocation, exposure and risk per trade,
    the position size does not decrease when the (finite, non-negative)
    total capital increases. *)
Theorem position_size_monotone_capital :
  forall (cfg : Config) (rm : RiskManager) (capital1 capital2 : Q)
         (confidenceScore : Js.number),
    0 < risk_minOrderSizeUsdt cfg ->
    0 < allocation_satellite cfg ->
    0 < risk_maxSatelliteExposure cfg ->
    0 < risk_maxRiskPerTrade cfg ->
    0 <= capital1 ->
    capital1 <= capital2 ->
    Js.le (calculatePositionSize cfg rm (Js.Fin capital1) confidenceScore)
      (calculatePositionSize cfg rm (Js.Fin capital2) confidenceScore)
    = true.
Proof.
  intros cfg rm q1 q2 cs Hm Hs He Hr Hq Hle.
  destruct (isHalted (dailyStats rm)) eqn:Hh.
  { unfold calculatePositionSize. rewrite Hh. reflexivity. }
  destruct (Js.lt cs (Js.Fin (confidence_minToTrade cfg))) eqn:Hc.
  { unfold calculatePositionSize. rewrite Hh, Hc. reflexivity. }
  rewrite !(calculatePositionSize_finite cfg rm _ cs Hh Hc).
  destruct (scaledRisk_positive cfg cs Hr) as [Hf _].
  destruct (floorCapFloor_cases cfg q1 (q1 * scaledRisk cfg cs))
    as (r1 & cap1 & -> & C1 & R1).
  destruct (floorCapFloor_cases cfg q2 (q2 * scaledRisk cfg cs))
    as (r2 & cap2 & -> & C2 & R2).
  simpl. q_reflect.
  set (m := risk_minOrderSizeUsdt cfg) in *.
  set (s := allocation_satellite cfg) in *.
  set (e := risk_maxSatelliteExposure cfg) in *.
  set (f := scaledRisk cfg cs) in *.
  assert (A1 : q1 * s <= q2 * s) by nra.
  assert (A2 : q1 * s * e <= q2 * s * e) by nra.
  assert (A3 : q1 * f <= q2 * f) by nra.
  set (sat1 := q1 * s) in *. set (sat2 := q2 * s) in *.
  set (ex1 := sat1 * e) in *. set (ex2 := sat2 * e) in *.
  set (tv1 := q1 * f) in *. set (tv2 := q2 * f) in *.
  clearbody sat1 sat2 ex1 ex2 tv1 tv2 m.
  destruct C1 as [[? ->] | [? ->]], C2 as [[? ->] | [? ->]];
    destruct R1 as [(? & ? & ->) | [(? & ? & ->) | [(? & ? & ->)
                   | (? & ? & ->)]]];
    destruct R2 as [(? & ? & ->) | [(? & ? & ->) | [(? & ? & ->)
                   | (? & ? & ->)]]];
    lra.
Qed.

Lemma position_size_monotone_capital_witness :
  Js.le
    (calculatePositionSize defaultConfig (newRiskManager "2026-01-01" None)
       (Js.Fin 50) (Js.Fin 90))
    (calculatePositionSize defaultConfig (newRiskManager "2026-01-01" None)
       (Js.Fin 5000) (Js.Fin 90)) = true.
Proof.
  refine (position_size_monotone_capital defaultConfig _ 50 5000 (Js.Fin 90)
            _ _ _ _ _ _);
    vm_compute; try reflexivity; discriminate.
Defined.

(** X8.  The position never exceeds the satellite bucket: when twice the
    risk per trade is at most the satellite allocation and the exposure is
    at most 1 (all positive), the position size is at most
    [totalCapital * satellite], for every finite capital that is not
    negative; if moreover the satellite allocation is at most 1 it is at
    most the total capital. *)
Theorem position_size_within_satellite :
  forall (cfg : Config) (rm : RiskManager) (totalCapital : Q)
         (confidenceScore : Js.number),
    0 < risk_minOrderSizeUsdt cfg ->
    0 < risk_maxRiskPerTrade cfg ->
    risk_maxRiskPerTrade cfg * 2 <= allocation_satellite cfg ->
    0 < risk_maxSatelliteExposure cfg ->
    risk_maxSatelliteExposure cfg <= 1 ->
    0 <= totalCapital ->
    let size :=
      calculatePositionSize cfg rm (Js.Fin totalCapital) confidenceScore in
    Js.le size (Js.Fin (totalCapital * allocation_satellite cfg)) = true
    /\ (allocation_satellite cfg <= 1 ->
        Js.le size (Js.Fin totalCapital) = true).
Proof.
  intros cfg rm q cs Hm Hr Hrs He He1 Hq size. subst size.
  set (s := allocation_satellite cfg) in *.
  assert (Hsat : 0 <= q * s) by nra.
  destruct (isHalted (dailyStats rm)) eqn:Hh.
  { unfold calculatePositionSize. rewrite Hh. simpl.
    split; [|intro]; q_reflect; nra. }
  destruct (Js.lt cs (Js.Fin (confidence_minToTrade cfg))) eqn:Hc.
  { unfold calculatePositionSize. rewrite Hh, Hc. simpl.
    split; [|intro]; q_reflect; nra. }
  rewrite (calculatePositionSize_finite cfg rm q cs Hh Hc).
  destruct (scaledRisk_positive cfg cs Hr) as [Hf Hf2].
  destruct (floorCapFloor_cases cfg q (q * scaledRisk cfg cs))
    as (r & cap & -> & C & R).
  fold s in C, R. simpl.
  set (m := risk_minOrderSizeUsdt cfg) in *.
  set (e := risk_maxSatelliteExposure cfg) in *.
  set (f := scaledRisk cfg cs) in *.
  assert (A1 : q * f <= q * s) by nra.
  assert (A2 : q * s * e <= q * s) by nra.
  assert (A3 : allocation_satellite cfg <= 1 -> q * s <= q)
    by (fold s; intro; nra).
  set (sat := q * s) in *. set (tv := q * f) in *.
  set (ex := sat * e) in *.
  clearbody sat tv ex m.
  split; [|intro H1; specialize (A3 H1)]; q_reflect;
    destruct C as [[? ->] | [? ->]];
    destruct R as [(? & ? & ->) | [(? & ? & ->) | [(? & ? & ->)
                  | (? & ? & ->)]]]; lra.
Qed.

Lemma position_size_within_satellite_witness :
  Js.le
    (calculatePositionSize defaultConfig (newRiskManager "2026-01-01" None)
       (Js.Fin 50) (Js.Fin 95))
    (Js.Fin (50 * 0.40)) = true.
Proof.
  refine (proj1 (position_size_within_satellite defaultConfig _ 50
                   (Js.Fin 95) _ _ _ _ _ _));
    vm_compute; try reflexivity; discriminate.
Defined.

(* ================================================================== *)
(** ** Further properties of the exit points *)

Lemma clampTarget_finite (g : Js.number) :
  g <> Js.NaN ->
  exists c : Q, clampTarget g = Js.Fin c /\ 0.02 <= c /\ c <= 0.15.
Proof.
  intro H. unfold clampTarget.
  destruct g as [x| | |]; try congruence; simpl.
  - destruct (Js.Qlt_bool (x / 100) 0.02) eqn:E1; simpl.
    + exists 0.02. split; [reflexivity | lra].
    + destruct (Js.Qlt_bool 0.15 (x / 100)) eqn:E2; simpl.
      * exists 0.15. split; [reflexivity | lra].
      * exists (x / 100). split; [reflexivity | q_reflect; lra].
  - exists 0.15. split; [reflexivity | lra].
  - exists 0.02. split; [reflexivity | lra].
Qed.

(** X9.  The exit points bracket the entry price on the right sides: for a
    positive entry price, a stop-loss fraction in (0, 1) and a default
    take-profit fraction in (0, 1), a BUY has
    0 < stopLoss < entryPrice < takeProfit and any other side has
    0 < takeProfit < entryPrice < stopLoss, whatever the target gain. *)
Theorem exit_points_bracket_entry :
  forall (cfg : Config) (entryPrice : Q) (side : string)
         (targetGain : Js.value),
    0 < entryPrice ->
    0 < risk_defaultStopLoss cfg -> risk_defaultStopLoss cfg < 1 ->
    0 < risk_defaultTakeProfit cfg -> risk_defaultTakeProfit cfg < 1 ->
    let exits := getExitPoints cfg (Js.Fin entryPrice) side targetGain in
    exists sl tp : Q,
      stopLoss exits = Js.Fin sl
      /\ takeProfit exits = Js.Fin tp
      /\ (side = "BUY"%string -> 0 < sl /\ sl < entryPrice /\ entryPrice < tp)
      /\ (side <> "BUY"%string ->
          0 < tp /\ tp < entryPrice /\ entryPrice < sl).
Proof.
  intros cfg e side tg He Hs0 Hs1 Ht0 Ht1 exits. subst exits.
  assert (Hf : exists f : Q,
             (if Js.truthy tg && Js.typeof_number tg
              then clampTarget (number_of tg)
              else Js.Fin (risk_defaultTakeProfit cfg)) = Js.Fin f
             /\ 0 < f /\ f < 1).
  { rewrite target_guard. destruct (usableTarget tg) eqn:U.
    - destruct (clampTarget_finite (number_of tg)) as (c & -> & ? & ?).
      + destruct tg as [| |b|[x| | |]|s]; simpl in *; congruence.
      + exists c. split; [reflexivity | lra].
    - exists (risk_defaultTakeProfit cfg). split; [reflexivity | lra]. }
  destruct Hf as (f & Ef & Hf0 & Hf1).
  unfold getExitPoints. fold (clampTarget (number_of tg)). rewrite Ef.
  destruct (String.eqb side "BUY") eqn:Es; cbn [stopLoss takeProfit];
    simpl; eexists; eexists; (split; [reflexivity|]);
    (split; [reflexivity|]).
  - split; [intros _; nra|].
    intro H. apply String.eqb_neq in H. congruence.
  - apply String.eqb_neq in Es. split; [intro; contradiction|].
    intros _. nra.
Qed.

Lemma exit_points_bracket_entry_witness :
  exists sl tp : Q,
    stopLoss
      (getExitPoints defaultConfig (Js.Fin 100) "SELL"
         (Js.VNumber (Js.Fin 50))) = Js.Fin sl
    /\ takeProfit
         (getExitPoints defaultConfig (Js.Fin 100) "SELL"
            (Js.VNumber (Js.Fin 50))) = Js.Fin tp
    /\ 0 < tp /\ tp < 100 /\ 100 < sl.
Proof.
  destruct (exit_points_bracket_entry defaultConfig 100 "SELL"
              (Js.VNumber (Js.Fin 50)))
    as (sl & tp & Hs & Ht & _ & H); try reflexivity.
  exists sl, tp. split; [exact Hs|]. split; [exact Ht|].
  apply H. intro E. discriminate E.
Defined.

(* ================================================================== *)
(** ** Further properties of the trade execution *)

Section ExecutionFacts.

Variable cfg : Config.
Variable RSI_calculate : list Js.number -> list Js.number.
Variable binance : Exchange.
Variable sentimentAnalyzer : Sentiment.

(** The runs of [executeSatelliteTrade], call by call. *)
Lemma executeSatelliteTrade_run (pair : string) (a : Analysis)
  (rm : RiskManager) :
  let run := executeSatelliteTrade cfg binance pair a rm in
  match getTotalValueUsdt binance with
  | None => run = ([GetTotalValueUsdt], rm, Some tt)
  | Some totalValue =>
      let size := calculatePositionSize cfg rm totalValue (confidence a) in
      if Js.le size (Js.Fin 0) then run = ([GetTotalValueUsdt], rm, Some tt)
      else
        match getPrice binance pair with
        | None => run = ([GetTotalValueUsdt; GetPrice pair], rm, Some tt)
        | Some currentPrice =>
            let quantity := Js.div size currentPrice in
            let exits :=
              getExitPoints cfg currentPrice "BUY" (target_gain a) in
            match marketBuy binance pair quantity with
            | None =>
                run = ([GetTotalValueUsdt; GetPrice pair;
                        MarketBuy pair quantity], rm, Some tt)
            | Some executedQty =>
                match ocoSell binance pair executedQty
                        (Js.VNumber (takeProfit exits)) (stopLoss exits) with
                | None =>
                    run = ([GetTotalValueUsdt; GetPrice pair;
                            MarketBuy pair quantity;
                            OcoSell pair executedQty
                              (Js.VNumber (takeProfit exits))
                              (stopLoss exits)], rm, Some tt)
                | Some _ =>
                    run = ([GetTotalValueUsdt; GetPrice pair;
                            MarketBuy pair quantity;
                            OcoSell pair executedQty
                              (Js.VNumber (takeProfit exits))
                              (stopLoss exits);
                            SendTradeAlert pair], recordTrade cfg rm, Some tt)
                end
            end
        end
  end.
Proof.
  cbv zeta.
  unfold executeSatelliteTrade, try_catch, bind, request, query, modify,
    notify, ret.
  destruct (getTotalValueUsdt binance) as [tv|]; [|reflexivity].
  cbn [app]. destruct (Js.le _ _); [reflexivity|].
  destruct (getPrice binance pair) as [p|]; [|reflexivity].
  destruct (marketBuy binance pair _) as [q|]; [|reflexivity].
  destruct (ocoSell binance pair q _ _) as [[]|]; reflexivity.
Qed.


(** While the manager is halted an execution stops after the portfolio
    request. *)
Lemma executeSatelliteTrade_halted (pair : string) (a : Analysis)
  (rm : RiskManager) :
  isHalted (dailyStats rm) = true ->
  executeSatelliteTrade cfg binance pair a rm
  = ([GetTotalValueUsdt], rm, Some tt).
Proof.
  intro Hh. pose proof (executeSatelliteTrade_run pair a rm) as H.
  cbv zeta in H. destruct (getTotalValueUsdt binance) as [tv|]; [|exact H].
  unfold calculatePositionSize in H. rewrite Hh in H. exact H.
Qed.

Lemma scanNews_halted (pair : string) (newsItems : list string)
  (rm : RiskManager) :
  isHalted (dailyStats rm) = true ->
  manager_of (scanNews cfg binance sentimentAnalyzer pair newsItems rm) = rm
  /\ Forall (fun r => isAnalyzeNews r = true \/ r = GetTotalValueUsdt)
       (trace_of (scanNews cfg binance sentimentAnalyzer pair newsItems rm)).
Proof.
  intro Hh. induction newsItems as [|news rest [IH1 IH2]].
  - split; [reflexivity | constructor].
  - cbn [scanNews]. unfold bind, request.
    destruct (isBuySignal (analyzeNews sentimentAnalyzer news pair)).
    + destruct (analyzeNews sentimentAnalyzer news pair) as [a|].
      * rewrite (executeSatelliteTrade_halted pair a rm Hh).
        split; [reflexivity|].
        constructor; [left; reflexivity|].
        constructor; [right; reflexivity | constructor].
      * split; [reflexivity|].
        constructor; [left; reflexivity | constructor].
    + unfold trace_of, manager_of in *.
      destruct (scanNews cfg binance sentimentAnalyzer pair rest rm)
        as [[t rm'] r].
      cbn [fst snd app] in *. split; [exact IH1|].
      constructor; [left; reflexivity | exact IH2].
Qed.

Lemma no_orders_among (t : list Request) :
  Forall (fun r => isAnalyzeNews r = true \/ r = GetTotalValueUsdt) t ->
  filter isMarketBuy t = [] /\ filter isOcoSell t = [].
Proof.
  induction 1 as [|r t [Hr | ->] _ [IH1 IH2]]; [split; reflexivity | |].
  - destruct r; try discriminate Hr. split; assumption.
  - split; assumption.
Qed.

(** X11.  The breaker stops new entries: while the risk manager is halted a
    run of [processPair] sends no market order and no exit order, and
    leaves the risk manager as it was, whatever the exchange and the
    sentiment analyzer answer. *)
Theorem halted_never_trades :
  forall (pair : string) (rm : RiskManager),
    canTrade rm = false ->
    let run :=
      processPair cfg RSI_calculate binance sentimentAnalyzer pair rm in
    filter isMarketBuy (trace_of run) = []
    /\ filter isOcoSell (trace_of run) = []
    /\ manager_of run = rm.
Proof.
  intros pair rm Hc run. subst run.
  unfold canTrade in Hc. apply negb_false_iff in Hc.
  destruct (processPair_cases cfg RSI_calculate binance sentimentAnalyzer
              pair rm) as [(_ & Hm & Ht) | (_ & Hm & Ht)];
    cbv zeta in Hm, Ht.
  - split; [|split; [|exact Hm]];
      destruct Ht as [-> | ->]; reflexivity.
  - destruct (scanNews_halted pair (getLatestNews sentimentAnalyzer pair)
                rm Hc) as [S1 S2].
    rewrite Ht, Hm. cbn [app filter isMarketBuy isOcoSell].
    destruct (no_orders_among _ S2) as [N1 N2].
    split; [exact N1|]. split; [exact N2 | exact S1].
Qed.

End ExecutionFacts.

Lemma halted_never_trades_witness :
  filter isMarketBuy
    (trace_of
       (processPair defaultConfig (fun _ => [Js.Fin 50])
          (quietExchange [] (Js.Fin 100))
          (mkSentiment (fun _ => ["Mainnet launch confirmed by the team"%string])
             (fun _ _ =>
                Some (mkAnalysis "BULLISH" "HIGH" (Js.Fin 95)
                        (Js.VNumber (Js.Fin 8)) "launch" "BUY")))
          "SOLUSDT"
          (updateBalance defaultConfig (Js.Fin 10)
             (newRiskManager "2026-01-01" None)))) = [].
Proof.
  refine (proj1 (halted_never_trades defaultConfig (fun _ => [Js.Fin 50])
                   _ _ "SOLUSDT" _ _)).
  reflexivity.
Defined.

(* ================================================================== *)
(** ** The scan cycle *)

Ltac own_requests :=
  unfold trace_of; cbn [fst];
  repeat (apply Forall_cons; [cbn [pairOf]; auto|]); try apply Forall_nil.

Section CycleFacts.

Variable cfg : Config.
Variable tcfg : TradingConfig.
Variable RSI_calculate : list Js.number -> list Js.number.
Variable sentimentAnalyzer : Sentiment.

Lemma executeSatelliteTrade_own (binance : Exchange) (pair : string)
  (a : Analysis) (rm : RiskManager) :
  Forall (fun r => pairOf r = Some pair \/ r = GetTotalValueUsdt)
    (trace_of (executeSatelliteTrade cfg binance pair a rm)).
Proof.
  pose proof (executeSatelliteTrade_run cfg binance pair a rm) as H.
  cbv zeta in H.
  destruct (getTotalValueUsdt binance) as [tv|]; [|rewrite H; own_requests].
  destruct (Js.le _ _); [rewrite H; own_requests|].
  destruct (getPrice binance pair) as [p|]; [|rewrite H; own_requests].
  destruct (marketBuy binance pair _) as [q|]; [|rewrite H; own_requests].
  destruct (ocoSell binance pair q _ _) as [[]|]; rewrite H; own_requests.
Qed.

Lemma scanNews_own (binance : Exchange) (pair : string)
  (newsItems : list string) (rm : RiskManager) :
  Forall (fun r => pairOf r = Some pair \/ r = GetTotalValueUsdt)
    (trace_of (scanNews cfg binance sentimentAnalyzer pair newsItems rm)).
Proof.
  induction newsItems as [|news rest IH]; [constructor|].
  cbn [scanNews]. unfold bind, request.
  destruct (isBuySignal (analyzeNews sentimentAnalyzer news pair)).
  - destruct (analyzeNews sentimentAnalyzer news pair) as [a|].
    + pose proof (executeSatelliteTrade_own binance pair a rm) as H.
      unfold trace_of in *.
      destruct (executeSatelliteTrade cfg binance pair a rm) as [[t rm'] r].
      cbn [fst app] in *. constructor; [left; reflexivity | exact H].
    + unfold trace_of. cbn [fst app].
      constructor; [left; reflexivity | constructor].
  - unfold trace_of in *.
    destruct (scanNews cfg binance sentimentAnalyzer pair rest rm)
      as [[t rm'] r].
    cbn [fst app] in *. constructor; [left; reflexivity | exact IH].
Qed.

(** The requests of [processPair] are about its pair, the portfolio request
    apart. *)
Lemma processPair_own (binance : Exchange) (pair : string)
  (rm : RiskManager) :
  Forall (fun r => pairOf r = Some pair \/ r = GetTotalValueUsdt)
    (trace_of
       (processPair cfg RSI_calculate binance sentimentAnalyzer pair rm)).
Proof.
  destruct (processPair_cases cfg RSI_calculate binance sentimentAnalyzer
              pair rm) as [(_ & _ & Ht) | (_ & _ & Ht)]; cbv zeta in Ht.
  - destruct Ht as [-> | ->]; own_requests.
  - rewrite Ht. cbn [app]. own_requests. apply scanNews_own.
Qed.

Lemma processPair_buys_once (binance : Exchange) (pair : string)
  (rm : RiskManager) :
  (List.length
     (filter isMarketBuy
        (trace_of
           (processPair cfg RSI_calculate binance sentimentAnalyzer pair
              rm))) <= 1)%nat.
Proof.
  destruct (processPair_cases cfg RSI_calculate binance sentimentAnalyzer
              pair rm) as [(_ & _ & Ht) | (_ & _ & Ht)]; cbv zeta in Ht.
  - destruct Ht as [-> | ->]; cbn; lia.
  - rewrite Ht. cbn [app filter isMarketBuy].
    apply (scanNews_run cfg binance sentimentAnalyzer pair).
Qed.

Lemma own_not_concerned (pair p : string) (t : list Request) :
  Forall (fun r => pairOf r = Some pair \/ r = GetTotalValueUsdt) t ->
  pair <> p ->
  filter (concerns p) (map Sent t) = [].
Proof.
  intros H Hne. induction H as [|r t [Hr | ->] _ IH]; [reflexivity | |].
  - cbn [map filter concerns]. rewrite Hr.
    destruct (String.eqb_spec pair p) as [E|_]; [contradiction | exact IH].
  - exact IH.
Qed.

Lemma buys_le_marketBuys (p : string) (t : list Request) :
  (List.length (filter (buys p) (map Sent t))
   <= List.length (filter isMarketBuy t))%nat.
Proof.
  induction t as [|r t IH]; [cbn; lia|].
  cbn [map filter]. destruct r; cbn [buys isMarketBuy]; try exact IH.
  destruct (String.eqb pair p); cbn [List.length]; lia.
Qed.

Lemma own_not_bought (pair p : string) (t : list Request) :
  Forall (fun r => pairOf r = Some pair \/ r = GetTotalValueUsdt) t ->
  pair <> p ->
  filter (buys p) (map Sent t) = [].
Proof.
  intros H Hne. induction H as [|r t [Hr | ->] _ IH]; [reflexivity | |].
  - cbn [map filter]. destruct r; cbn [buys]; try exact IH.
    cbn [pairOf] in Hr. injection Hr as ->.
    destruct (String.eqb_spec pair p) as [E|_]; [contradiction | exact IH].
  - exact IH.
Qed.

(** The runs of the loop of [tick], pair by pair. *)
Lemma scanPairs_step (binanceAt : nat -> Exchange) (k : nat)
  (active : list string) (p : string) (rest : list string)
  (rm : RiskManager) :
  existsb (String.eqb p) active = false ->
  let first :=
    processPair cfg RSI_calculate (binanceAt k) sentimentAnalyzer p rm in
  let run :=
    scanPairs cfg tcfg RSI_calculate sentimentAnalyzer binanceAt k active
      (p :: rest) rm in
  match getOpenOrders (binanceAt k) with
  | None =>
      run = (map Sent (trace_of first) ++ [Sent GetOpenOrders],
             manager_of first, None)
  | Some currentOpen =>
      if capReached tcfg (satellitePairs tcfg currentOpen) then
        run = (map Sent (trace_of first) ++ [Sent GetOpenOrders],
               manager_of first, Some tt)
      else
        let others :=
          scanPairs cfg tcfg RSI_calculate sentimentAnalyzer binanceAt (S k)
            active rest (manager_of first) in
        run = (map Sent (trace_of first) ++ Sent GetOpenOrders
                 :: events_of others,
               risk_of others, snd others)
  end.
Proof.
  intro Ha. cbv zeta. cbn [scanPairs]. rewrite Ha.
  unfold andThen, sent, request, done, trace_of, manager_of, events_of,
    risk_of.
  pose proof (processPair_cases cfg RSI_calculate (binanceAt k)
                sentimentAnalyzer p rm) as _.
  assert (Hr : snd (processPair cfg RSI_calculate (binanceAt k)
                      sentimentAnalyzer p rm) = Some tt).
  { unfold processPair, try_catch.
    match goal with |- snd (match ?m with _ => _ end) = _ =>
      destruct m as [[? ?] ?] end. reflexivity. }
  destruct (processPair cfg RSI_calculate (binanceAt k) sentimentAnalyzer p
              rm) as [[t rm1] r].
  cbn [snd fst] in *. subst r.
  destruct (getOpenOrders (binanceAt k)) as [orders|]; cbn [map app];
    [|reflexivity].
  destruct (capReached tcfg (satellitePairs tcfg orders)).
  - reflexivity.
  - destruct (scanPairs cfg tcfg RSI_calculate sentimentAnalyzer binanceAt
                (S k) active rest rm1) as [[t2 rm2] r2].
    reflexivity.
Qed.

Lemma scanPairs_skip (binanceAt : nat -> Exchange) (k : nat)
  (active : list string) (p : string) (rest : list string)
  (rm : RiskManager) :
  existsb (String.eqb p) active = true ->
  scanPairs cfg tcfg RSI_calculate sentimentAnalyzer binanceAt k active
    (p :: rest) rm
  = scanPairs cfg tcfg RSI_calculate sentimentAnalyzer binanceAt (S k)
      active rest rm.
Proof. intro Ha. cbn [scanPairs]. rewrite Ha. reflexivity. Qed.


Lemma scanPairs_concerns (binanceAt : nat -> Exchange)
  (active : list string) (q : string) :
  forall (pairs : list string) (k : nat) (rm : RiskManager),
    (forall a, In a pairs -> existsb (String.eqb a) active = false ->
               a <> q) ->
    filter (concerns q)
      (events_of
         (scanPairs cfg tcfg RSI_calculate sentimentAnalyzer binanceAt k
            active pairs rm)) = [].
Proof.
  induction pairs as [|a rest IH]; intros k rm Hq; [reflexivity|].
  assert (Hrest : forall a', In a' rest ->
                             existsb (String.eqb a') active = false ->
                             a' <> q).
  { intros a' Hin. apply Hq. right. exact Hin. }
  destruct (existsb (String.eqb a) active) eqn:Ha.
  - rewrite (scanPairs_skip _ _ _ _ _ _ Ha). apply IH, Hrest.
  - assert (Hne : a <> q) by (apply Hq; [left; reflexivity | exact Ha]).
    pose proof (scanPairs_step binanceAt k active a rest rm Ha) as H.
    cbv zeta in H.
    pose proof (own_not_concerned a q _
                  (processPair_own (binanceAt k) a rm) Hne) as Hown.
    destruct (getOpenOrders (binanceAt k)) as [orders|].
    + destruct (capReached tcfg (satellitePairs tcfg orders)).
      * rewrite H. unfold events_of. cbn [fst]. rewrite filter_app, Hown.
        reflexivity.
      * rewrite H. unfold events_of at 1. cbn [fst].
        rewrite filter_app, Hown. cbn [app filter concerns pairOf].
        apply IH, Hrest.
    + rewrite H. unfold events_of. cbn [fst]. rewrite filter_app, Hown.
      reflexivity.
Qed.

Lemma scanPairs_buys (binanceAt : nat -> Exchange) (active : list string)
  (p : string) :
  forall (pairs : list string) (k : nat) (rm : RiskManager),
    (List.length
       (filter (buys p)
          (events_of
             (scanPairs cfg tcfg RSI_calculate sentimentAnalyzer binanceAt k
                active pairs rm)))
     <= count_occ string_dec pairs p)%nat.
Proof.
  induction pairs as [|a rest IH]; intros k rm; [cbn; lia|].
  assert (Hcount : (count_occ string_dec rest p
                    <= count_occ string_dec (a :: rest) p)%nat).
  { cbn [count_occ]. destruct (string_dec a p); lia. }
  destruct (existsb (String.eqb a) active) eqn:Ha.
  - rewrite (scanPairs_skip _ _ _ _ _ _ Ha). specialize (IH (S k) rm). lia.
  - pose proof (scanPairs_step binanceAt k active a rest rm Ha) as H.
    cbv zeta in H.
    assert (Hfirst :
              (List.length
                 (filter (buys p)
                    (map Sent
                       (trace_of
                          (processPair cfg RSI_calculate (binanceAt k)
                             sentimentAnalyzer a rm))))
               + count_occ string_dec rest p
               <= count_occ string_dec (a :: rest) p)%nat).
    { cbn [count_occ]. destruct (string_dec a p) as [->|Hne].
      - pose proof (buys_le_marketBuys p
                      (trace_of
                         (processPair cfg RSI_calculate (binanceAt k)
                            sentimentAnalyzer p rm))).
        pose proof (processPair_buys_once (binanceAt k) p rm). lia.
      - rewrite (own_not_bought a p _ (processPair_own (binanceAt k) a rm)
                   Hne). cbn. lia. }
    destruct (getOpenOrders (binanceAt k)) as [orders|].
    + destruct (capReached tcfg (satellitePairs tcfg orders)).
      * rewrite H. unfold events_of. cbn [fst].
        rewrite filter_app, length_app. cbn [filter buys List.length]. lia.
      * rewrite H. unfold events_of at 1. cbn [fst].
        rewrite filter_app, length_app. cbn [filter buys].
        specialize (IH (S k)
                      (manager_of
                         (processPair cfg RSI_calculate (binanceAt k)
                            sentimentAnalyzer a rm))). lia.
    + rewrite H. unfold events_of. cbn [fst].
      rewrite filter_app, length_app. cbn [filter buys List.length]. lia.
Qed.

(** Once the cap is found reached after a pair, the loop runs as if the list
    of the pairs ended there. *)
Lemma scanPairs_stops (binanceAt : nat -> Exchange) (active : list string)
  (p : string) (post : list string) (currentOpen : list Order) :
  existsb (String.eqb p) active = false ->
  capReached tcfg (satellitePairs tcfg currentOpen) = true ->
  forall (pre : list string) (k : nat) (rm : RiskManager),
    getOpenOrders (binanceAt (k + List.length pre)%nat) = Some currentOpen ->
    scanPairs cfg tcfg RSI_calculate sentimentAnalyzer binanceAt k active
      (pre ++ p :: post) rm
    = scanPairs cfg tcfg RSI_calculate sentimentAnalyzer binanceAt k active
        (pre ++ [p]) rm.
Proof.
  intros Hp Hcap. induction pre as [|a pre IH]; intros k rm Ho.
  - cbn [app List.length] in *. rewrite Nat.add_0_r in Ho.
    pose proof (scanPairs_step binanceAt k active p post rm Hp) as H1.
    pose proof (scanPairs_step binanceAt k active p [] rm Hp) as H2.
    cbv zeta in H1, H2. rewrite Ho, Hcap in H1, H2. rewrite H1, H2.
    reflexivity.
  - cbn [app List.length] in *.
    rewrite Nat.add_succ_r in Ho. change (S (k + List.length pre))%nat
      with (S k + List.length pre)%nat in Ho.
    destruct (existsb (String.eqb a) active) eqn:Ha.
    + rewrite !(scanPairs_skip _ _ _ _ _ _ Ha). apply IH, Ho.
    + pose proof (scanPairs_step binanceAt k active a (pre ++ p :: post) rm
                    Ha) as H1.
      pose proof (scanPairs_step binanceAt k active a (pre ++ [p]) rm Ha)
        as H2.
      cbv zeta in H1, H2.
      destruct (getOpenOrders (binanceAt k)) as [orders|];
        [|rewrite H1, H2; reflexivity].
      destruct (capReached tcfg (satellitePairs tcfg orders));
        [rewrite H1, H2; reflexivity|].
      rewrite H1, H2, (IH (S k) _ Ho). reflexivity.
Qed.


Lemma satellitePairs_spec (openOrders : list Order) (p : string) :
  In p (satellitePairs tcfg openOrders)
  <-> (exists o, In o openOrders /\ symbol o = p)
      /\ isCoreCoin tcfg p = false.
Proof.
  unfold satellitePairs. rewrite nodup_In, filter_In, in_map_iff.
  rewrite negb_true_iff. split.
  - intros [(o & E & Hin) Hc]. split; [exists o; split; assumption|].
    exact Hc.
  - intros [(o & Hin & E) Hc]. split; [exists o; split; assumption|].
    exact Hc.
Qed.

Lemma includes_In (p : string) (xs : list string) :
  existsb (String.eqb p) xs = true <-> In p xs.
Proof.
  rewrite existsb_exists. split.
  - intros (x & Hin & E). apply String.eqb_eq in E. subst x. exact Hin.
  - intro Hin. exists p. split; [exact Hin | apply String.eqb_refl].
Qed.

Variable fearGreed : option Js.number.

(** The runs of [tick], step by step. *)
Lemma tick_run (binance : Exchange) (binanceAt : nat -> Exchange)
  (rm : RiskManager) :
  let run :=
    tick cfg tcfg RSI_calculate sentimentAnalyzer fearGreed binance
      binanceAt rm in
  match getTotalValueUsdt binance with
  | None => run = ([Sent GetTotalValueUsdt], rm, None)
  | Some totalValue =>
      let rm1 := updateBalance cfg totalValue rm in
      if negb (canTrade rm1) then
        run = ([Sent GetTotalValueUsdt], rm1, Some tt)
      else if Js.lt (gaugeValue fearGreed)
                (Js.Fin (risk_minSentiment tcfg)) then
        run = ([Sent GetTotalValueUsdt; FetchFearGreed], rm1, Some tt)
      else
        match getOpenOrders binance with
        | None =>
            run = ([Sent GetTotalValueUsdt; FetchFearGreed;
                    Sent GetOpenOrders], rm1, None)
        | Some openOrders =>
            if capReached tcfg (satellitePairs tcfg openOrders) then
              run = ([Sent GetTotalValueUsdt; FetchFearGreed;
                      Sent GetOpenOrders], rm1, Some tt)
            else
              let scan :=
                scanPairs cfg tcfg RSI_calculate sentimentAnalyzer binanceAt
                  0 (satellitePairs tcfg openOrders) (trading_pairs tcfg)
                  rm1 in
              run = ([Sent GetTotalValueUsdt; FetchFearGreed;
                      Sent GetOpenOrders] ++ events_of scan,
                     risk_of scan, snd scan)
        end
  end.
Proof.
  cbv zeta.
  unfold tick, getMarketSentiment, gaugeValue, andThen, sent, emit, done,
    request, modify, query, events_of, risk_of.
  destruct (getTotalValueUsdt binance) as [tv|]; [|reflexivity].
  cbn [map app].
  destruct (negb (canTrade (updateBalance cfg tv rm))); [reflexivity|].
  destruct (Js.lt _ _); [reflexivity|].
  destruct (getOpenOrders binance) as [orders|]; [|reflexivity].
  cbn [map app].
  destruct (capReached tcfg (satellitePairs tcfg orders)); [reflexivity|].
  destruct (scanPairs cfg tcfg RSI_calculate sentimentAnalyzer binanceAt 0
              (satellitePairs tcfg orders) (trading_pairs tcfg)
              (updateBalance cfg tv rm)) as [[t2 rm2] r2].
  reflexivity.
Qed.

(** X12.  A cycle of a halted manager, and the cycle whose balance update
    trips a breaker, send the portfolio request and nothing else: the gauge
    is not fetched, no pair is scanned, no order is sent, and the manager
    is halted afterwards. *)
Theorem tick_stops_when_halted :
  forall (binance : Exchange) (binanceAt : nat -> Exchange)
         (rm : RiskManager),
    canTrade rm = false
    \/ (exists totalValue,
           getTotalValueUsdt binance = Some totalValue
           /\ canTrade (updateBalance cfg totalValue rm) = false) ->
    let run :=
      tick cfg tcfg RSI_calculate sentimentAnalyzer fearGreed binance
        binanceAt rm in
    events_of run = [Sent GetTotalValueUsdt]
    /\ canTrade (risk_of run) = false.
Proof.
  intros binance binanceAt rm Hh run. subst run.
  pose proof (tick_run binance binanceAt rm) as H. cbv zeta in H.
  destruct (getTotalValueUsdt binance) as [tv|] eqn:Etv.
  - assert (Hc : canTrade (updateBalance cfg tv rm) = false).
    { destruct Hh as [Hh | (tv' & E & Hh)].
      - unfold canTrade in *. apply negb_false_iff in Hh.
        apply negb_false_iff.
        rewrite (proj1 (updateBalance_halted cfg tv rm)), Hh. reflexivity.
      - injection E as <-. exact Hh. }
    rewrite Hc in H. cbn [negb] in H. rewrite H.
    split; [reflexivity | exact Hc].
  - rewrite H. split; [reflexivity|].
    destruct Hh as [Hh | (tv' & E & _)]; [exact Hh | discriminate E].
Qed.

(** X13.  The panic override: when the gauge reads below
    [config.risk.minSentiment] (a gauge that cannot be read counts as 50),
    the cycle fetches the portfolio value and the gauge and sends nothing
    else: no open orders are read, no pair is scanned, no order is sent. *)
Theorem tick_panic_override :
  forall (binance : Exchange) (binanceAt : nat -> Exchange)
         (rm : RiskManager),
    Js.lt (gaugeValue fearGreed) (Js.Fin (risk_minSentiment tcfg)) = true ->
    let run :=
      tick cfg tcfg RSI_calculate sentimentAnalyzer fearGreed binance
        binanceAt rm in
    Forall (fun e => e = Sent GetTotalValueUsdt \/ e = FetchFearGreed)
      (events_of run).
Proof.
  intros binance binanceAt rm Hg run. subst run.
  pose proof (tick_run binance binanceAt rm) as H. cbv zeta in H.
  destruct (getTotalValueUsdt binance) as [tv|].
  - destruct (negb (canTrade (updateBalance cfg tv rm))).
    + rewrite H. repeat (constructor; auto).
    + rewrite Hg in H. rewrite H. unfold events_of. cbn [fst].
      constructor; [left; reflexivity|].
      constructor; [right; reflexivity | constructor].
  - rewrite H. repeat (constructor; auto).
Qed.

(** X14.  A pair that has an open order when the cycle starts, and that is
    not a core coin, is not scanned in the cycle: no request about it is
    sent, so no second position is opened on it. *)
Theorem tick_skips_open_pairs :
  forall (binance : Exchange) (binanceAt : nat -> Exchange)
         (rm : RiskManager) (openOrders : list Order) (o : Order),
    getOpenOrders binance = Some openOrders ->
    In o openOrders ->
    isCoreCoin tcfg (symbol o) = false ->
    filter (concerns (symbol o))
      (events_of
         (tick cfg tcfg RSI_calculate sentimentAnalyzer fearGreed binance
            binanceAt rm)) = [].
Proof.
  intros binance binanceAt rm openOrders o Ho Hin Hcore.
  pose proof (tick_run binance binanceAt rm) as H. cbv zeta in H.
  destruct (getTotalValueUsdt binance) as [tv|]; [|rewrite H; reflexivity].
  destruct (negb (canTrade (updateBalance cfg tv rm)));
    [rewrite H; reflexivity|].
  destruct (Js.lt _ _); [rewrite H; reflexivity|].
  rewrite Ho in H.
  destruct (capReached tcfg (satellitePairs tcfg openOrders));
    [rewrite H; reflexivity|].
  rewrite H. unfold events_of at 1. cbn [fst app filter concerns pairOf].
  apply scanPairs_concerns. intros a _ Ha ->.
  assert (Hact : existsb (String.eqb (symbol o))
                   (satellitePairs tcfg openOrders) = true).
  { apply includes_In, satellitePairs_spec.
    split; [exists o; split; [exact Hin | reflexivity] | exact Hcore]. }
  congruence.
Qed.

(** X15.  The cap on the satellite positions at the start of a cycle: when
    the open orders are on [config.risk.maxOpenSatelliteTrades] or more
    distinct pairs that are not core coins, no pair is scanned and no order
    is sent. *)
Theorem tick_cap_at_start :
  forall (binance : Exchange) (binanceAt : nat -> Exchange)
         (rm : RiskManager) (openOrders : list Order),
    getOpenOrders binance = Some openOrders ->
    capReached tcfg (satellitePairs tcfg openOrders) = true ->
    Forall (fun e => e = Sent GetTotalValueUsdt \/ e = FetchFearGreed
                     \/ e = Sent GetOpenOrders)
      (events_of
         (tick cfg tcfg RSI_calculate sentimentAnalyzer fearGreed binance
            binanceAt rm)).
Proof.
  intros binance binanceAt rm openOrders Ho Hcap.
  pose proof (tick_run binance binanceAt rm) as H. cbv zeta in H.
  destruct (getTotalValueUsdt binance) as [tv|];
    [|rewrite H; repeat (constructor; auto)].
  destruct (negb (canTrade (updateBalance cfg tv rm)));
    [rewrite H; repeat (constructor; auto)|].
  destruct (Js.lt _ _).
  - rewrite H. unfold events_of. cbn [fst].
    constructor; [auto|]. constructor; [auto | constructor].
  - rewrite Ho, Hcap in H. rewrite H. unfold events_of. cbn [fst].
    constructor; [auto|]. constructor; [auto|].
    constructor; [auto | constructor].
Qed.

(** X16.  The cap during the scan: after each scanned pair the open orders
    are read again, and once they reach the cap no later pair of the list
    is scanned.  Here the pair [p], at the position after [pre], is scanned
    (it has no open satellite order at the start), and the cap is found
    reached after it: no request is sent about a pair that is not [p] or in
    [pre]. *)
Theorem tick_cap_during_scan :
  forall (binance : Exchange) (binanceAt : nat -> Exchange)
         (rm : RiskManager) (pre post : list string) (p : string)
         (currentOpen : list Order),
    trading_pairs tcfg = pre ++ p :: post ->
    (forall openOrders,
        getOpenOrders binance = Some openOrders ->
        ~ In p (satellitePairs tcfg openOrders)) ->
    getOpenOrders (binanceAt (List.length pre)) = Some currentOpen ->
    capReached tcfg (satellitePairs tcfg currentOpen) = true ->
    forall q,
      ~ In q (pre ++ [p]) ->
      filter (concerns q)
        (events_of
           (tick cfg tcfg RSI_calculate sentimentAnalyzer fearGreed binance
              binanceAt rm)) = [].
Proof.
  intros binance binanceAt rm pre post p currentOpen Hpairs Hp Ho Hcap q Hq.
  pose proof (tick_run binance binanceAt rm) as H. cbv zeta in H.
  destruct (getTotalValueUsdt binance) as [tv|]; [|rewrite H; reflexivity].
  destruct (negb (canTrade (updateBalance cfg tv rm)));
    [rewrite H; reflexivity|].
  destruct (Js.lt _ _); [rewrite H; reflexivity|].
  destruct (getOpenOrders binance) as [openOrders|];
    [|rewrite H; reflexivity].
  destruct (capReached tcfg (satellitePairs tcfg openOrders));
    [rewrite H; reflexivity|].
  rewrite H. unfold events_of at 1. cbn [fst app filter concerns pairOf].
  rewrite Hpairs.
  assert (Hact : existsb (String.eqb p) (satellitePairs tcfg openOrders)
                 = false).
  { destruct (existsb (String.eqb p) (satellitePairs tcfg openOrders))
      eqn:E; [|reflexivity].
    apply includes_In in E. elim (Hp openOrders eq_refl E). }
  rewrite (scanPairs_stops binanceAt _ p post currentOpen Hact Hcap pre 0
             _ Ho).
  apply scanPairs_concerns. intros a Ha _ ->. exact (Hq Ha).
Qed.

(** X17.  In one cycle a pair is bought at most as many times as it occurs
    in [config.trading.pairs]: at most once for a pair listed once, never
    for a pair that is not listed. *)
Theorem tick_buys_listed_pairs_once :
  forall (binance : Exchange) (binanceAt : nat -> Exchange)
         (rm : RiskManager) (p : string),
    (List.length
       (filter (buys p)
          (events_of
             (tick cfg tcfg RSI_calculate sentimentAnalyzer fearGreed
                binance binanceAt rm)))
     <= count_occ string_dec (trading_pairs tcfg) p)%nat.
Proof.
  intros binance binanceAt rm p.
  pose proof (tick_run binance binanceAt rm) as H. cbv zeta in H.
  destruct (getTotalValueUsdt binance) as [tv|];
    [|rewrite H; cbn; lia].
  destruct (negb (canTrade (updateBalance cfg tv rm)));
    [rewrite H; cbn; lia|].
  destruct (Js.lt _ _); [rewrite H; cbn; lia|].
  destruct (getOpenOrders binance) as [openOrders|];
    [|rewrite H; cbn; lia].
  destruct (capReached tcfg (satellitePairs tcfg openOrders));
    [rewrite H; cbn; lia|].
  rewrite H. unfold events_of at 1. cbn [fst app filter buys].
  apply scanPairs_buys.
Qed.

End CycleFacts.

Lemma tick_stops_when_halted_witness :
  events_of
    (tick defaultConfig altcoinConfig (fun _ => [Js.Fin 50]) bullishAnalyzer
       (Some (Js.Fin 60)) (quietExchange [] (Js.Fin 100))
       (fun _ => quietExchange [] (Js.Fin 100)) haltedManager)
  = [Sent GetTotalValueUsdt].
Proof.
  refine (proj1 (tick_stops_when_halted defaultConfig altcoinConfig _ _ _ _
                   _ haltedManager _)).
  left. reflexivity.
Defined.

Lemma tick_panic_override_witness :
  Forall (fun e => e = Sent GetTotalValueUsdt \/ e = FetchFearGreed)
    (events_of
       (tick defaultConfig altcoinConfig (fun _ => [Js.Fin 50])
          bullishAnalyzer (Some (Js.Fin 10)) (quietExchange [] (Js.Fin 100))
          (fun _ => quietExchange [] (Js.Fin 100))
          (newRiskManager "2026-01-01" None))).
Proof.
  refine (tick_panic_override defaultConfig altcoinConfig _ _
            (Some (Js.Fin 10)) _ _ _ _).
  reflexivity.
Defined.

Lemma tick_skips_open_pairs_witness :
  filter (concerns "SOLUSDT")
    (events_of
       (tick defaultConfig altcoinConfig (fun _ => [Js.Fin 50])
          bullishAnalyzer (Some (Js.Fin 60))
          (quietExchange [limitOrder "SOLUSDT"] (Js.Fin 100))
          (fun _ => quietExchange [limitOrder "SOLUSDT"] (Js.Fin 100))
          (newRiskManager "2026-01-01" None))) = [].
Proof.
  refine (tick_skips_open_pairs defaultConfig altcoinConfig _ _ _
            (quietExchange [limitOrder "SOLUSDT"] (Js.Fin 100)) _ _
            [limitOrder "SOLUSDT"] (limitOrder "SOLUSDT") _ _ _).
  - reflexivity.
  - left. reflexivity.
  - reflexivity.
Defined.

Lemma tick_cap_at_start_witness :
  Forall (fun e => e = Sent GetTotalValueUsdt \/ e = FetchFearGreed
                   \/ e = Sent GetOpenOrders)
    (events_of
       (tick defaultConfig altcoinConfig (fun _ => [Js.Fin 50])
          bullishAnalyzer (Some (Js.Fin 60))
          (quietExchange [limitOrder "SOLUSDT"; limitOrder "ADAUSDT"]
             (Js.Fin 100))
          (fun _ => quietExchange [] (Js.Fin 100))
          (newRiskManager "2026-01-01" None))).
Proof.
  refine (tick_cap_at_start defaultConfig altcoinConfig _ _ _
            (quietExchange [limitOrder "SOLUSDT"; limitOrder "ADAUSDT"]
               (Js.Fin 100)) _ _
            [limitOrder "SOLUSDT"; limitOrder "ADAUSDT"] _ _).
  - reflexivity.
  - reflexivity.
Defined.

Lemma tick_cap_during_scan_witness :
  filter (concerns "DOTUSDT")
    (events_of
       (tick defaultConfig altcoinConfig (fun _ => [Js.Fin 50])
          bullishAnalyzer (Some (Js.Fin 60)) (quietExchange [] (Js.Fin 100))
          (fun k =>
             quietExchange
               (if (k =? 1)%nat
                then [limitOrder "SOLUSDT"; limitOrder "ADAUSDT"] else [])
               (Js.Fin 100))
          (newRiskManager "2026-01-01" None))) = [].
Proof.
  refine (tick_cap_during_scan defaultConfig altcoinConfig _ _ _
            (quietExchange [] (Js.Fin 100)) _ _ ["SOLUSDT"%string]
            ["DOTUSDT"%string] "ADAUSDT"
            [limitOrder "SOLUSDT"; limitOrder "ADAUSDT"] _ _ _ _
            "DOTUSDT" _).
  - reflexivity.
  - intros openOrders E. injection E as <-. intros [].
  - reflexivity.
  - reflexivity.
  - intros [E | [E | []]]; discriminate E.
Defined.

Section CoreOrders.

Variable cfg : Config.
Variable tcfg : TradingConfig.
Variable RSI_calculate : list Js.number -> list Js.number.
Variable sentimentAnalyzer : Sentiment.
Variable fearGreed : option Js.number.

(** The satellite pairs of a list of orders are those of its orders that
    are not on core coins. *)
Lemma satellitePairs_dropCore (orders : list Order) :
  satellitePairs tcfg
    (filter (fun o => negb (isCoreCoin tcfg (symbol o))) orders)
  = satellitePairs tcfg orders.
Proof.
  unfold satellitePairs. f_equal.
  induction orders as [|o orders IH]; [reflexivity|].
  cbn [filter map].
  destruct (negb (isCoreCoin tcfg (symbol o))) eqn:E.
  - cbn [map filter]. rewrite E, IH. reflexivity.
  - exact IH.
Qed.

(** [processPair] does not read the open orders. *)
Lemma scanNews_dropCore (binance : Exchange) (pair : string)
  (newsItems : list string) (rm : RiskManager) :
  scanNews cfg (dropCoreOrders tcfg binance) sentimentAnalyzer pair newsItems
    rm
  = scanNews cfg binance sentimentAnalyzer pair newsItems rm.
Proof.
  induction newsItems as [|news rest IH]; [reflexivity|].
  cbn [scanNews]. unfold bind, request.
  destruct (isBuySignal (analyzeNews sentimentAnalyzer news pair)).
  - destruct (analyzeNews sentimentAnalyzer news pair) as [a|];
      reflexivity.
  - rewrite IH. reflexivity.
Qed.

Lemma processPair_dropCore (binance : Exchange) (pair : string)
  (rm : RiskManager) :
  processPair cfg RSI_calculate (dropCoreOrders tcfg binance)
    sentimentAnalyzer pair rm
  = processPair cfg RSI_calculate binance sentimentAnalyzer pair rm.
Proof.
  unfold processPair, try_catch, bind, request, ret.
  cbn [getCandles dropCoreOrders].
  destruct (getCandles binance pair "1h") as [c1|]; [|reflexivity].
  destruct (getCandles binance pair "4h") as [c4|]; [|reflexivity].
  destruct (overboughtVeto RSI_calculate c4); [reflexivity|].
  destruct (Js.gt (volatility c1) (Js.Fin 0.05)); [reflexivity|].
  destruct (isCandidate cfg RSI_calculate c1); [|reflexivity].
  rewrite scanNews_dropCore. reflexivity.
Qed.

Lemma scanPairs_dropCore (binanceAt : nat -> Exchange)
  (active : list string) :
  forall (pairs : list string) (k : nat) (rm : RiskManager),
    scanPairs cfg tcfg RSI_calculate sentimentAnalyzer
      (fun i => dropCoreOrders tcfg (binanceAt i)) k active pairs rm
    = scanPairs cfg tcfg RSI_calculate sentimentAnalyzer binanceAt k active
        pairs rm.
Proof.
  induction pairs as [|a rest IH]; intros k rm; [reflexivity|].
  cbn [scanPairs]. destruct (existsb (String.eqb a) active); [apply IH|].
  unfold andThen, sent, request. rewrite processPair_dropCore.
  destruct (processPair cfg RSI_calculate (binanceAt k) sentimentAnalyzer a
              rm) as [[t rm1] [[]|]]; [|reflexivity].
  cbn [getOpenOrders dropCoreOrders].
  destruct (getOpenOrders (binanceAt k)) as [orders|]; [|reflexivity].
  cbn [option_map]. rewrite satellitePairs_dropCore.
  destruct (capReached tcfg (satellitePairs tcfg orders)); [reflexivity|].
  rewrite IH. reflexivity.
Qed.

(** X18.  The open orders on core coins are invisible to the scan: they do
    not count towards the cap on the satellite positions and do not keep
    their pair from being scanned, at the start of the cycle and at every
    re-check inside the loop.  A cycle runs in the same way (the same
    events, the same risk manager, the same outcome) when the exchange
    leaves the orders on core coins out of every answer to
    [getOpenOrders].  (With the default configuration the traded pairs are
    the core coins.) *)
Theorem tick_ignores_core_orders :
  forall (binance : Exchange) (binanceAt : nat -> Exchange)
         (rm : RiskManager),
    tick cfg tcfg RSI_calculate sentimentAnalyzer fearGreed
      (dropCoreOrders tcfg binance)
      (fun k => dropCoreOrders tcfg (binanceAt k)) rm
    = tick cfg tcfg RSI_calculate sentimentAnalyzer fearGreed binance
        binanceAt rm.
Proof.
  intros binance binanceAt rm.
  pose proof (tick_run cfg tcfg RSI_calculate sentimentAnalyzer fearGreed
                (dropCoreOrders tcfg binance)
                (fun k => dropCoreOrders tcfg (binanceAt k)) rm) as H1.
  pose proof (tick_run cfg tcfg RSI_calculate sentimentAnalyzer fearGreed
                binance binanceAt rm) as H2.
  cbv zeta in H1, H2.
  cbn [dropCoreOrders getTotalValueUsdt getOpenOrders] in H1.
  destruct (getTotalValueUsdt binance) as [tv|];
    [|rewrite H1, H2; reflexivity].
  destruct (negb (canTrade (updateBalance cfg tv rm)));
    [rewrite H1, H2; reflexivity|].
  destruct (Js.lt _ _); [rewrite H1, H2; reflexivity|].
  destruct (getOpenOrders binance) as [openOrders|];
    [|rewrite H1, H2; reflexivity].
  cbn [option_map] in H1. rewrite satellitePairs_dropCore in H1.
  destruct (capReached tcfg (satellitePairs tcfg openOrders));
    [rewrite H1, H2; reflexivity|].
  rewrite scanPairs_dropCore in H1. rewrite H1, H2. reflexivity.
Qed.

End CoreOrders.

(* ================================================================== *)
(** ** The trade decisions of a scan cycle *)

Section CycleDecisions.

Variable cfg : Config.
Variable tcfg : TradingConfig.
Variable RSI_calculate : list Js.number -> list Js.number.
Variable sentimentAnalyzer : Sentiment.
Variable fearGreed : option Js.number.

(** Among the requests of a run for [pair], the analyses for [pair] are the
    analyses. *)
Lemma own_analyses (pair : string) (t : list Request) :
  Forall (fun r => pairOf r = Some pair \/ r = GetTotalValueUsdt) t ->
  filter (analyses pair) (map Sent t) = map Sent (filter isAnalyzeNews t).
Proof.
  intro H. induction H as [|r t [Hr | ->] _ IH]; [reflexivity | |].
  - cbn [map filter]. destruct r; cbn [analyses isAnalyzeNews]; try exact IH.
    cbn [pairOf] in Hr. injection Hr as ->. rewrite String.eqb_refl.
    cbn [map]. f_equal. exact IH.
  - exact IH.
Qed.

Lemma decides_analyses (p : string) (e : Event) :
  decides sentimentAnalyzer p e = true -> analyses p e = true.
Proof.
  destruct e as [[]| | |]; cbn [decides analyses]; try discriminate.
  intro H. apply andb_true_iff in H. exact (proj1 H).
Qed.

Lemma analyses_concerns (p : string) (e : Event) :
  analyses p e = true -> concerns p e = true.
Proof.
  destruct e as [[]| | |]; cbn [analyses concerns pairOf];
    try discriminate; auto.
Qed.

Lemma trades_concerns (p : string) (e : Event) :
  trades p e = true -> concerns p e = true.
Proof.
  destruct e as [r| | |]; cbn [trades]; try discriminate.
  intro H. apply andb_true_iff in H. exact (proj2 H).
Qed.

Lemma filter_none {A : Type} (f g : A -> bool) (l : list A) :
  (forall x, f x = true -> g x = true) ->
  filter g l = [] -> filter f l = [].
Proof.
  intros Hfg. induction l as [|x l IH]; [reflexivity|].
  cbn [filter]. destruct (g x) eqn:Eg; [discriminate|].
  intro Hl. destruct (f x) eqn:Ef.
  - rewrite (Hfg x Ef) in Eg. discriminate Eg.
  - exact (IH Hl).
Qed.

(** The items analyzed in a run hold at most one buy signal. *)
Lemma upToFirstSignal_decides (pair : string) (newsItems : list string) :
  (List.length
     (filter (decides sentimentAnalyzer pair)
        (map (fun news => Sent (AnalyzeNews news pair))
           (upToFirstSignal sentimentAnalyzer pair newsItems))) <= 1)%nat.
Proof.
  induction newsItems as [|news rest IH]; [cbn; lia|].
  cbn [upToFirstSignal].
  destruct (isBuySignal (analyzeNews sentimentAnalyzer news pair)) eqn:E.
  - cbn [map filter decides]. rewrite E.
    destruct (String.eqb pair pair); cbn; lia.
  - cbn [map filter decides]. rewrite E, andb_false_r. exact IH.
Qed.

(** In a scan of the news, a market order follows a decision. *)
Lemma scanNews_decides (binance : Exchange) (pair : string)
  (newsItems : list string) :
  forall rm : RiskManager,
    let t :=
      map Sent
        (trace_of
           (scanNews cfg binance sentimentAnalyzer pair newsItems rm)) in
    (List.length (filter (buys pair) t)
     <= List.length (filter (decides sentimentAnalyzer pair) t))%nat.
Proof.
  induction newsItems as [|news rest IH]; intro rm; [cbn; lia|].
  cbv zeta. cbn [scanNews]. unfold bind, request.
  destruct (isBuySignal (analyzeNews sentimentAnalyzer news pair)) eqn:E.
  - destruct (analyzeNews sentimentAnalyzer news pair) as [a|] eqn:Ea;
      [|discriminate E].
    destruct (executeSatelliteTrade_trace cfg binance pair a rm)
      as (_ & H2 & _).
    cbv zeta in H2. unfold trace_of in *.
    destruct (executeSatelliteTrade cfg binance pair a rm) as [[t rm'] r].
    cbn [fst app map filter buys decides] in *.
    rewrite Ea, E, String.eqb_refl. cbn [andb List.length].
    pose proof (buys_le_marketBuys pair t). lia.
  - specialize (IH rm). cbv zeta in IH. unfold trace_of in *.
    destruct (scanNews cfg binance sentimentAnalyzer pair rest rm)
      as [[t rm'] r].
    cbn [fst app map filter buys decides] in *.
    rewrite E, andb_false_r. exact IH.
Qed.

(** One run of [processPair], as the cycle sees it. *)
Lemma processPair_decisions (binance : Exchange) (pair : string)
  (rm : RiskManager) :
  let t :=
    map Sent
      (trace_of
         (processPair cfg RSI_calculate binance sentimentAnalyzer pair rm)) in
  let newsItems := getLatestNews sentimentAnalyzer pair in
  (filter (analyses pair) t = []
   \/ filter (analyses pair) t
      = map (fun news => Sent (AnalyzeNews news pair))
          (upToFirstSignal sentimentAnalyzer pair newsItems))
  /\ (List.length (filter (buys pair) t)
      <= List.length (filter (decides sentimentAnalyzer pair) t))%nat
  /\ ((exists e, In e t /\ trades pair e = true) ->
      exists news,
        In news newsItems
        /\ isBuySignal (analyzeNews sentimentAnalyzer news pair) = true).
Proof.
  cbv zeta.
  pose proof (processPair_own cfg RSI_calculate sentimentAnalyzer binance
                pair rm) as Hown.
  rewrite (own_analyses pair _ Hown). clear Hown.
  destruct (processPair_cases cfg RSI_calculate binance sentimentAnalyzer
              pair rm) as [(_ & _ & Ht) | (_ & _ & Ht)]; cbv zeta in Ht.
  - split; [|split].
    + left. destruct Ht as [-> | ->]; reflexivity.
    + destruct Ht as [-> | ->]; cbn; lia.
    + intros (e & Hin & He). exfalso.
      destruct Ht as [Ht|Ht]; rewrite Ht in Hin; cbn [map In] in Hin;
        repeat (destruct Hin as [<-|Hin]; [discriminate He|]); exact Hin.
  - destruct (scanNews_run cfg binance sentimentAnalyzer pair
                (getLatestNews sentimentAnalyzer pair) rm)
      as (S1 & _ & _ & S4 & _).
    cbv zeta in S1, S4.
    pose proof (scanNews_decides binance pair
                  (getLatestNews sentimentAnalyzer pair) rm) as Hd.
    cbv zeta in Hd. rewrite Ht.
    split; [|split].
    + right. cbn [app filter isAnalyzeNews]. rewrite S1, map_map.
      reflexivity.
    + cbn [app map filter buys decides]. exact Hd.
    + intros (e & Hin & He). cbn [app map In] in Hin.
      destruct Hin as [<-|[<-|[<-|Hin]]]; try discriminate He.
      apply in_map_iff in Hin as (r & <- & Hr).
      apply S4. exists r. split; [exact Hr|].
      cbn [trades] in He. apply andb_true_iff in He as [He _].
      now destruct r.
Qed.

(** The loop of [tick] is a sequence of runs of [processPair], one for each
    entry of the list that it processes. *)
Lemma scanPairs_runs (binanceAt : nat -> Exchange) (active : list string) :
  forall (pairs : list string) (k : nat) (rm : RiskManager),
  exists runs : list (string * Exchange * RiskManager),
    events_of
      (scanPairs cfg tcfg RSI_calculate sentimentAnalyzer binanceAt k active
         pairs rm)
    = pairRuns cfg RSI_calculate sentimentAnalyzer runs
    /\ forall q : string,
         (count_occ string_dec (map (fun run => fst (fst run)) runs) q
          <= count_occ string_dec pairs q)%nat.
Proof.
  induction pairs as [|a rest IH]; intros k rm.
  - exists []. split; [reflexivity | intro q; cbn; lia].
  - destruct (existsb (String.eqb a) active) eqn:Ha.
    + rewrite (scanPairs_skip _ _ _ _ _ _ _ _ _ _ Ha).
      destruct (IH (S k) rm) as (runs & He & Hc).
      exists runs. split; [exact He|]. intro q. specialize (Hc q).
      cbn [count_occ]. destruct (string_dec a q); lia.
    + pose proof (scanPairs_step cfg tcfg RSI_calculate sentimentAnalyzer
                    binanceAt k active a rest rm Ha) as H.
      cbv zeta in H.
      assert (Hone : forall q : string,
                (count_occ string_dec
                   (map (fun run : string * Exchange * RiskManager =>
                           fst (fst run)) [(a, binanceAt k, rm)]) q
                 <= count_occ string_dec (a :: rest) q)%nat).
      { intro q. cbn [map fst count_occ]. destruct (string_dec a q); lia. }
      destruct (getOpenOrders (binanceAt k)) as [orders|].
      * destruct (capReached tcfg (satellitePairs tcfg orders)).
        -- rewrite H. exists [(a, binanceAt k, rm)].
           split; [|exact Hone].
           unfold events_of, pairRuns. cbn [fst snd flat_map].
           rewrite app_nil_r. reflexivity.
        -- destruct (IH (S k)
                       (manager_of
                          (processPair cfg RSI_calculate (binanceAt k)
                             sentimentAnalyzer a rm)))
             as (runs & He & Hc).
           rewrite H. exists ((a, binanceAt k, rm) :: runs). split.
           ++ unfold events_of at 1. cbn [fst]. rewrite He.
              unfold pairRuns. cbn [fst snd flat_map].
              rewrite <- app_assoc. reflexivity.
           ++ intro q. specialize (Hc q). cbn [map fst count_occ].
              destruct (string_dec a q); lia.
      * rewrite H. exists [(a, binanceAt k, rm)].
        split; [|exact Hone].
        unfold events_of, pairRuns. cbn [fst snd flat_map].
        rewrite app_nil_r. reflexivity.
Qed.

(** A cycle is a few requests of [tick] itself, then such a sequence of
    runs. *)
Lemma tick_runs (binance : Exchange) (binanceAt : nat -> Exchange)
  (rm : RiskManager) :
  exists (own : list Event) (runs : list (string * Exchange * RiskManager)),
    events_of
      (tick cfg tcfg RSI_calculate sentimentAnalyzer fearGreed binance
         binanceAt rm)
    = own ++ pairRuns cfg RSI_calculate sentimentAnalyzer runs
    /\ Forall (fun e => e = Sent GetTotalValueUsdt \/ e = FetchFearGreed
                        \/ e = Sent GetOpenOrders) own
    /\ forall q : string,
         (count_occ string_dec (map (fun run => fst (fst run)) runs) q
          <= count_occ string_dec (trading_pairs tcfg) q)%nat.
Proof.
  pose proof (tick_run cfg tcfg RSI_calculate sentimentAnalyzer fearGreed
                binance binanceAt rm) as H.
  cbv zeta in H.
  assert (Hnone : forall own : list Event,
    Forall (fun e => e = Sent GetTotalValueUsdt \/ e = FetchFearGreed
                     \/ e = Sent GetOpenOrders) own ->
    exists (own' : list Event)
           (runs : list (string * Exchange * RiskManager)),
      own = own' ++ pairRuns cfg RSI_calculate sentimentAnalyzer runs
      /\ Forall (fun e => e = Sent GetTotalValueUsdt \/ e = FetchFearGreed
                          \/ e = Sent GetOpenOrders) own'
      /\ forall q : string,
           (count_occ string_dec (map (fun run => fst (fst run)) runs) q
            <= count_occ string_dec (trading_pairs tcfg) q)%nat).
  { intros own Hown. exists own, [].
    split; [unfold pairRuns; cbn [flat_map]; rewrite app_nil_r; reflexivity|].
    split; [exact Hown | intro q; cbn; lia]. }
  destruct (getTotalValueUsdt binance) as [tv|];
    [|rewrite H; apply Hnone; repeat (constructor; auto)].
  destruct (negb (canTrade (updateBalance cfg tv rm)));
    [rewrite H; apply Hnone; repeat (constructor; auto)|].
  destruct (Js.lt _ _).
  { rewrite H. apply Hnone. unfold events_of. cbn [fst].
    constructor; [auto|]. constructor; [auto | constructor]. }
  assert (Hthree :
    Forall (fun e => e = Sent GetTotalValueUsdt \/ e = FetchFearGreed
                     \/ e = Sent GetOpenOrders)
      [Sent GetTotalValueUsdt; FetchFearGreed; Sent GetOpenOrders]).
  { constructor; [auto|]. constructor; [auto|].
    constructor; [auto | constructor]. }
  destruct (getOpenOrders binance) as [openOrders|];
    [|rewrite H; apply Hnone; exact Hthree].
  destruct (capReached tcfg (satellitePairs tcfg openOrders));
    [rewrite H; apply Hnone; exact Hthree|].
  destruct (scanPairs_runs binanceAt (satellitePairs tcfg openOrders)
              (trading_pairs tcfg) 0%nat (updateBalance cfg tv rm))
    as (runs & He & Hc).
  rewrite H. unfold events_of at 1. cbn [fst]. rewrite He.
  exists [Sent GetTotalValueUsdt; FetchFearGreed; Sent GetOpenOrders], runs.
  split; [reflexivity|]. split; [exact Hthree | exact Hc].
Qed.

(** The requests of [tick] itself are no analysis and name no pair. *)
Lemma own_filtered (f : Event -> bool) (own : list Event) :
  f (Sent GetTotalValueUsdt) = false ->
  f FetchFearGreed = false ->
  f (Sent GetOpenOrders) = false ->
  Forall (fun e => e = Sent GetTotalValueUsdt \/ e = FetchFearGreed
                   \/ e = Sent GetOpenOrders) own ->
  filter f own = [].
Proof.
  intros H1 H2 H3 H. induction H as [|e own [->|[->| ->]] _ IH];
    [reflexivity | | |]; cbn [filter].
  - rewrite H1. exact IH.
  - rewrite H2. exact IH.
  - rewrite H3. exact IH.
Qed.

Lemma pairRuns_cons (f : Event -> bool) (a : string) (b : Exchange)
  (rm : RiskManager) (runs : list (string * Exchange * RiskManager)) :
  f (Sent GetOpenOrders) = false ->
  filter f (pairRuns cfg RSI_calculate sentimentAnalyzer
              ((a, b, rm) :: runs))
  = filter f
      (map Sent
         (trace_of
            (processPair cfg RSI_calculate b sentimentAnalyzer a rm)))
    ++ filter f (pairRuns cfg RSI_calculate sentimentAnalyzer runs).
Proof.
  intro H. unfold pairRuns. cbn [flat_map fst snd].
  rewrite !filter_app. cbn [filter]. rewrite H, app_nil_r. reflexivity.
Qed.

Lemma other_pair_silent (f : Event -> bool) (a p : string) (b : Exchange)
  (rm : RiskManager) :
  (forall e, f e = true -> concerns p e = true) ->
  a <> p ->
  filter f
    (map Sent
       (trace_of (processPair cfg RSI_calculate b sentimentAnalyzer a rm)))
  = [].
Proof.
  intros Hf Hne. apply (filter_none f (concerns p)); [exact Hf|].
  apply (own_not_concerned a p); [|exact Hne].
  apply processPair_own.
Qed.

Lemma buys_concerns (p : string) (e : Event) :
  buys p e = true -> concerns p e = true.
Proof.
  destruct e as [[]| | |]; cbn [buys concerns pairOf];
    try discriminate; auto.
Qed.

(** The analyses for [p] in a sequence of runs: those of one run, once for
    each run for [p] that passes the pre-screen. *)
Lemma pairRuns_analyses (p : string)
  (runs : list (string * Exchange * RiskManager)) :
  exists n : nat,
    (n <= count_occ string_dec (map (fun run => fst (fst run)) runs) p)%nat
    /\ filter (analyses p)
         (pairRuns cfg RSI_calculate sentimentAnalyzer runs)
       = List.concat
           (repeat
              (map (fun news => Sent (AnalyzeNews news p))
                 (upToFirstSignal sentimentAnalyzer p
                    (getLatestNews sentimentAnalyzer p))) n).
Proof.
  induction runs as [|[[a b] rm] runs (n & Hn & IH)].
  - exists 0%nat. split; [cbn; lia | reflexivity].
  - rewrite pairRuns_cons by reflexivity. rewrite IH.
    cbn [map fst count_occ]. destruct (string_dec a p) as [->|Hne].
    + destruct (processPair_decisions b p rm) as ([E|E] & _);
        cbv zeta in E; rewrite E.
      * exists n. split; [lia | reflexivity].
      * exists (S n). split; [lia | reflexivity].
    + rewrite (other_pair_silent (analyses p) a p b rm
                 (analyses_concerns p) Hne).
      exists n. split; [exact Hn | reflexivity].
Qed.

Lemma pairRuns_decisions (p : string)
  (runs : list (string * Exchange * RiskManager)) :
  (List.length
     (filter (decides sentimentAnalyzer p)
        (pairRuns cfg RSI_calculate sentimentAnalyzer runs))
   <= count_occ string_dec (map (fun run => fst (fst run)) runs) p)%nat.
Proof.
  induction runs as [|[[a b] rm] runs IH]; [cbn; lia|].
  rewrite pairRuns_cons by reflexivity. rewrite length_app.
  cbn [map fst count_occ]. destruct (string_dec a p) as [->|Hne].
  - assert (Hone :
      (List.length
         (filter (decides sentimentAnalyzer p)
            (map Sent
               (trace_of
                  (processPair cfg RSI_calculate b sentimentAnalyzer p
                     rm)))) <= 1)%nat).
    { assert (Hsub : forall l : list Event,
        filter (decides sentimentAnalyzer p) l
        = filter (decides sentimentAnalyzer p) (filter (analyses p) l)).
      { induction l as [|e l IHl]; [reflexivity|].
        cbn [filter]. destruct (analyses p e) eqn:Ea.
        - cbn [filter]. rewrite IHl. reflexivity.
        - destruct (decides sentimentAnalyzer p e) eqn:Ed; [|exact IHl].
          rewrite (decides_analyses p e Ed) in Ea. discriminate Ea. }
      rewrite Hsub.
      destruct (processPair_decisions b p rm) as ([E|E] & _);
        cbv zeta in E; rewrite E; [cbn; lia|].
      apply upToFirstSignal_decides. }
    lia.
  - rewrite (other_pair_silent (decides sentimentAnalyzer p) a p b rm)
      by (try exact Hne; intros e He;
          apply analyses_concerns, decides_analyses, He).
    cbn [List.length]. lia.
Qed.

Lemma pairRuns_buys (p : string)
  (runs : list (string * Exchange * RiskManager)) :
  (List.length
     (filter (buys p) (pairRuns cfg RSI_calculate sentimentAnalyzer runs))
   <= List.length
        (filter (decides sentimentAnalyzer p)
           (pairRuns cfg RSI_calculate sentimentAnalyzer runs)))%nat.
Proof.
  induction runs as [|[[a b] rm] runs IH]; [cbn; lia|].
  rewrite !pairRuns_cons by reflexivity. rewrite !length_app.
  destruct (string_dec a p) as [->|Hne].
  - destruct (processPair_decisions b p rm) as (_ & H & _).
    cbv zeta in H. lia.
  - rewrite (other_pair_silent (buys p) a p b rm (buys_concerns p) Hne).
    cbn [List.length]. lia.
Qed.

Lemma pairRuns_trades (p : string)
  (runs : list (string * Exchange * RiskManager)) :
  (exists e,
      In e (filter (trades p)
              (pairRuns cfg RSI_calculate sentimentAnalyzer runs))) ->
  exists news,
    In news (getLatestNews sentimentAnalyzer p)
    /\ isBuySignal (analyzeNews sentimentAnalyzer news p) = true.
Proof.
  induction runs as [|[[a b] rm] runs IH]; [intros (e & [])|].
  rewrite pairRuns_cons by reflexivity.
  intros (e & Hin). apply in_app_or in Hin as [Hin|Hin].
  - destruct (string_dec a p) as [->|Hne].
    + apply filter_In in Hin as (Hin & He).
      destruct (processPair_decisions b p rm) as (_ & _ & H).
      cbv zeta in H. apply H. exists e. split; assumption.
    + rewrite (other_pair_silent (trades p) a p b rm (trades_concerns p)
                 Hne) in Hin. destruct Hin.
  - apply IH. exists e. exact Hin.
Qed.

(** Counterexample to C7 as the specification words it: the cycle runs
    [processPair] for every entry of [config.trading.pairs], and the pairs
    with an open order are read once, before the loop.  With SOLUSDT listed
    twice (and the exchange showing the exit order on SOLUSDT at the
    re-checks) one cycle makes two trade decisions on SOLUSDT and sends two
    market orders for it. *)
Lemma repeated_pair_two_decisions :
  let events :=
    events_of
      (tick defaultConfig repeatedPairConfig (fun _ => [Js.Fin 50])
         bullishAnalyzer (Some (Js.Fin 60)) (quietExchange [] (Js.Fin 100))
         (fun _ => quietExchange [stopOrder "SOLUSDT" 98] (Js.Fin 100))
         (newRiskManager "2026-01-01" None)) in
  trading_pairs repeatedPairConfig = ["SOLUSDT"; "SOLUSDT"]%string
  /\ List.length (filter (decides bullishAnalyzer "SOLUSDT") events) = 2%nat
  /\ List.length (filter (buys "SOLUSDT") events) = 2%nat.
Proof. split; [reflexivity|]. split; vm_compute; reflexivity. Qed.

(** C7 (amended).  In a scan cycle, for every pair [p]: a request of a
    trade execution that names [p] (the price, the market order, the exit
    order, the trade alert) is sent only if the analysis of some news item
    of [p] is BULLISH with action BUY and a confidence above 80; the cycle
    processes [p] at most once for each time it is listed in
    [config.trading.pairs], and each time the news items are analyzed in
    order up to the first such item and no further; so the cycle makes at
    most as many trade decisions for [p] as [p] is listed, at most one for
    a pair listed once, and sends at most one market order for each
    decision; when no item of [p] qualifies no request of an execution names
    [p].  In each run of [processPair] at most one execution is started and
    at most one market order is sent, and when no item qualifies nothing is
    executed and the risk manager is left as it was. *)
Theorem one_trade_decision_per_pair :
  forall (binance : Exchange) (binanceAt : nat -> Exchange)
         (rm : RiskManager) (p : string),
    let events :=
      events_of
        (tick cfg tcfg RSI_calculate sentimentAnalyzer fearGreed binance
           binanceAt rm) in
    let listed := count_occ string_dec (trading_pairs tcfg) p in
    let newsItems := getLatestNews sentimentAnalyzer p in
    let noSignal news :=
      isBuySignal (analyzeNews sentimentAnalyzer news p) = false in
    let scanned :=
      map (fun news => Sent (AnalyzeNews news p))
        (upToFirstSignal sentimentAnalyzer p newsItems) in
    let decisions := filter (decides sentimentAnalyzer p) events in
    ((exists e, In e events /\ trades p e = true) ->
     exists news a,
       In news newsItems
       /\ analyzeNews sentimentAnalyzer news p = Some a
       /\ verdict a = "BULLISH"%string
       /\ suggested_action a = "BUY"%string
       /\ Js.gt (confidence a) (Js.Fin 80) = true)
    /\ (exists n : nat,
           (n <= listed)%nat
           /\ filter (analyses p) events = List.concat (repeat scanned n))
    /\ (forall before news after,
          newsItems = before ++ news :: after ->
          Forall noSignal before ->
          ~ noSignal news ->
          upToFirstSignal sentimentAnalyzer p newsItems = before ++ [news])
    /\ (List.length decisions <= listed)%nat
    /\ ((listed <= 1)%nat -> (List.length decisions <= 1)%nat)
    /\ (List.length (filter (buys p) events) <= List.length decisions)%nat
    /\ (Forall noSignal newsItems -> filter (trades p) events = [])
    /\ (forall (exchange : Exchange) (rm0 : RiskManager),
          let run :=
            processPair cfg RSI_calculate exchange sentimentAnalyzer p rm0 in
          (List.length (filter startsExecution (trace_of run)) <= 1)%nat
          /\ (List.length (filter isMarketBuy (trace_of run)) <= 1)%nat
          /\ (In (GetLatestNews p) (trace_of run) ->
              filter isAnalyzeNews (trace_of run)
              = map (fun news => AnalyzeNews news p)
                  (upToFirstSignal sentimentAnalyzer p newsItems))
          /\ (Forall noSignal newsItems ->
              filter isTradeRequest (trace_of run) = []
              /\ manager_of run = rm0)).
Proof.
  intros binance binanceAt rm p events listed newsItems noSignal scanned
    decisions.
  subst events listed newsItems noSignal scanned decisions.
  destruct (tick_runs binance binanceAt rm) as (own & runs & He & Hown & Hc).
  rewrite He. specialize (Hc p).
  assert (Hsignal :
    (exists e,
        In e (own ++ pairRuns cfg RSI_calculate sentimentAnalyzer runs)
        /\ trades p e = true) ->
    exists news,
      In news (getLatestNews sentimentAnalyzer p)
      /\ isBuySignal (analyzeNews sentimentAnalyzer news p) = true).
  { intros (e & Hin & Ht). apply (pairRuns_trades p runs). exists e.
    assert (Hf : In e (filter (trades p)
                         (own ++ pairRuns cfg RSI_calculate
                                   sentimentAnalyzer runs)))
      by (apply filter_In; split; assumption).
    rewrite filter_app, (own_filtered (trades p) own) in Hf;
      [exact Hf | reflexivity | reflexivity | reflexivity | exact Hown]. }
  assert (Hdec :
    (List.length
       (filter (decides sentimentAnalyzer p)
          (own ++ pairRuns cfg RSI_calculate sentimentAnalyzer runs))
     <= count_occ string_dec (trading_pairs tcfg) p)%nat).
  { rewrite filter_app, (own_filtered (decides sentimentAnalyzer p) own)
      by (try reflexivity; exact Hown).
    pose proof (pairRuns_decisions p runs). cbn [app]. lia. }
  split; [|split; [|split; [|split; [|split; [|split; [|split]]]]]].
  - intro H. destruct (Hsignal H) as (news & Hin & Hs).
    apply isBuySignal_true in Hs as (a & Ea & Hv & Ha & Hconf).
    exists news, a. auto.
  - destruct (pairRuns_analyses p runs) as (n & Hn & Ea).
    exists n. split; [lia|].
    rewrite filter_app, (own_filtered (analyses p) own)
      by (try reflexivity; exact Hown).
    exact Ea.
  - intros before news after -> HF Hs. apply upToFirstSignal_prefix.
    + exact HF.
    + now destruct (isBuySignal _).
  - exact Hdec.
  - intro Hl. lia.
  - rewrite !filter_app, (own_filtered (buys p) own),
      (own_filtered (decides sentimentAnalyzer p) own)
      by (try reflexivity; exact Hown).
    apply pairRuns_buys.
  - intro HF.
    destruct (filter (trades p)
                (own ++ pairRuns cfg RSI_calculate sentimentAnalyzer runs))
      as [|e l] eqn:E; [reflexivity|].
    exfalso.
    assert (Hin : In e (filter (trades p)
                          (own ++ pairRuns cfg RSI_calculate
                                    sentimentAnalyzer runs)))
      by (rewrite E; left; reflexivity).
    apply filter_In in Hin as (Hin & Ht).
    destruct Hsignal as (news & Hn & Hs); [exists e; split; assumption|].
    rewrite Forall_forall in HF. rewrite (HF news Hn) in Hs.
    discriminate Hs.
  - intros exchange rm0. cbv zeta.
    destruct (processPair_cases cfg RSI_calculate exchange
                sentimentAnalyzer p rm0)
      as [(_ & Hm & Ht) | (_ & Hm & Ht)]; cbv zeta in Hm, Ht.
    + split; [|split; [|split]].
      * destruct Ht as [-> | ->]; cbn; lia.
      * destruct Ht as [-> | ->]; cbn; lia.
      * intro Hin. exfalso.
        destruct Ht as [Ht|Ht]; rewrite Ht in Hin; cbn [In] in Hin;
          repeat (destruct Hin as [Hin|Hin]; [discriminate Hin|]);
          exact Hin.
      * intros _. split; [|exact Hm].
        destruct Ht as [-> | ->]; reflexivity.
    + destruct (scanNews_run cfg exchange sentimentAnalyzer p
                  (getLatestNews sentimentAnalyzer p) rm0)
        as (S1 & S2 & S3 & _ & S5).
      cbv zeta in S1, S2, S3, S5. rewrite Ht, Hm.
      cbn [app filter startsExecution isMarketBuy isAnalyzeNews
           isTradeRequest].
      split; [exact S2|]. split; [exact S3|]. split; [intros _; exact S1|].
      intro HF. destruct (S5 HF) as (N1 & N2).
      split; [|exact N2]. rewrite N1. apply analyses_not_trade.
Qed.

End CycleDecisions.

Lemma one_trade_decision_per_pair_witness :
  filter (trades "SOLUSDT")
    (events_of
       (tick defaultConfig altcoinConfig (fun _ => [Js.Fin 50])
          (mkSentiment (fun _ => ["Vague partnership rumour"%string])
             (fun _ _ =>
                Some (mkAnalysis "NEUTRAL" "LOW" (Js.Fin 30)
                        (Js.VNumber (Js.Fin 3)) "hype" "FOLD")))
          (Some (Js.Fin 60)) (quietExchange [] (Js.Fin 100))
          (fun _ => quietExchange [] (Js.Fin 100))
          (newRiskManager "2026-01-01" None))) = [].
Proof.
  refine (proj1 (proj2 (proj2 (proj2 (proj2 (proj2 (proj2
            (one_trade_decision_per_pair defaultConfig altcoinConfig
               (fun _ => [Js.Fin 50]) _ (Some (Js.Fin 60)) _ _ _
               "SOLUSDT"))))))) _).
  constructor; [reflexivity | constructor].
Defined.

(* ================================================================== *)
(** ** The core rebalance and the heartbeat *)

Lemma stateless_done {A : Type} (P : Event -> Prop) (a : A) :
  stateless P (done a).
Proof. exists [], (Some a). split; [constructor | reflexivity]. Qed.

Lemma stateless_emit (P : Event -> Prop) (e : Event) :
  P e -> stateless P (emit e).
Proof.
  intro He. exists [e], (Some tt).
  split; [constructor; [exact He | constructor] | reflexivity].
Qed.

Lemma stateless_andThen {A B : Type} (P : Event -> Prop) (m : Run A)
  (f : A -> Run B) :
  stateless P m -> (forall a, stateless P (f a)) ->
  stateless P (andThen m f).
Proof.
  intros (t & r & Ht & Hm) Hf. destruct r as [a|].
  - destruct (Hf a) as (t2 & r2 & Ht2 & H2). exists (t ++ t2), r2.
    split; [apply Forall_app; split; assumption|]. intro rm.
    unfold andThen. rewrite Hm, H2. reflexivity.
  - exists t, None. split; [exact Ht|]. intro rm. unfold andThen.
    rewrite Hm. reflexivity.
Qed.

Lemma stateless_sent {A : Type} (P : Event -> Prop) (m : Eff A) :
  (forall r, P (Sent r)) -> stateless anyRequest m -> stateless P (sent m).
Proof.
  intros HP (t & r & _ & Hm). exists (map Sent t), r. split.
  - apply Forall_map, Forall_forall. intros x _. apply HP.
  - intro rm. unfold sent. rewrite Hm. reflexivity.
Qed.

Lemma stateless_guarded (P : Event -> Prop) (m : Run unit) :
  stateless P m -> stateless P (guarded m).
Proof.
  intros (t & r & Ht & Hm). exists t, (Some tt). split; [exact Ht|].
  intro rm. unfold guarded. rewrite Hm. reflexivity.
Qed.

Lemma stateless_request {A : Type} (r : Request) (answer : option A) :
  stateless anyRequest (request r answer).
Proof.
  exists [r], answer. split; [repeat constructor | reflexivity].
Qed.

Lemma stateless_notify (r : Request) : stateless anyRequest (notify r).
Proof.
  exists [r], (Some tt). split; [repeat constructor | reflexivity].
Qed.

Lemma stateless_ret {A : Type} (a : A) : stateless anyRequest (ret a).
Proof. exists [], (Some a). split; [constructor | reflexivity]. Qed.

Lemma stateless_bind {A B : Type} (m : Eff A) (f : A -> Eff B) :
  stateless anyRequest m -> (forall a, stateless anyRequest (f a)) ->
  stateless anyRequest (bind m f).
Proof.
  intros (t & r & Ht & Hm) Hf. destruct r as [a|].
  - destruct (Hf a) as (t2 & r2 & Ht2 & H2). exists (t ++ t2), r2.
    split; [apply Forall_app; split; assumption|]. intro rm.
    unfold bind. rewrite Hm, H2. reflexivity.
  - exists t, None. split; [exact Ht|]. intro rm. unfold bind.
    rewrite Hm. reflexivity.
Qed.

Lemma stateless_try_catch (m : Eff unit) :
  stateless anyRequest m -> stateless anyRequest (try_catch m).
Proof.
  intros (t & r & Ht & Hm). exists t, (Some tt). split; [exact Ht|].
  intro rm. unfold try_catch. rewrite Hm. reflexivity.
Qed.

Create HintDb stateless.
#[export] Hint Resolve stateless_request stateless_notify stateless_ret
  stateless_try_catch : stateless.

Lemma trailStops_stateless (binance : Exchange)
  (openOrders stopOrders : list Order) :
  stateless anyRequest (trailStops binance openOrders stopOrders).
Proof.
  induction stopOrders as [|o rest IH]; [apply stateless_ret|].
  cbn [trailStops].
  apply stateless_bind; [apply stateless_request|]. intro currentPrice.
  apply stateless_bind; [|intros _; exact IH].
  destruct (Js.gt _ _); [|apply stateless_ret].
  repeat (apply stateless_bind; [auto with stateless | intro]).
  destruct (negb _); auto with stateless.
  all: repeat (apply stateless_bind; [auto with stateless | intro]);
    auto with stateless.
Qed.

Lemma manageTrailingStops_stateless (binance : Exchange) :
  stateless anyRequest (manageTrailingStops binance).
Proof.
  unfold manageTrailingStops. apply stateless_try_catch, stateless_bind;
    [apply stateless_request|].
  intro openOrders. apply trailStops_stateless.
Qed.

Lemma sent_not_recap (r : Request) : notRecap (Sent r).
Proof. reflexivity. Qed.

Section RebalanceFacts.

Variable cfg : Config.
Variable tcfg : TradingConfig.
Variable binance : Exchange.
Variable balances : string -> option Js.number.

Lemma coreValue_stateless (coreCoins : list string) :
  forall acc, stateless notRecap (coreValue binance balances coreCoins acc).
Proof.
  induction coreCoins as [|p rest IH]; intro acc; [apply stateless_done|].
  cbn [coreValue]. apply stateless_andThen; [|intro price; apply IH].
  apply stateless_sent; [exact sent_not_recap | apply stateless_request].
Qed.

Lemma buyCore_stateless (buyAmount : Js.number) (coreCoins : list string) :
  stateless notRecap (buyCore cfg binance buyAmount coreCoins).
Proof.
  induction coreCoins as [|p rest IH]; [apply stateless_done|].
  cbn [buyCore]. apply stateless_andThen; [|intros _; exact IH].
  destruct (Js.ge _ _); [|apply stateless_done].
  apply stateless_andThen;
    [apply stateless_sent; [exact sent_not_recap | apply stateless_request]|].
  intro price.
  apply stateless_andThen;
    [apply stateless_sent; [exact sent_not_recap | apply stateless_request]|].
  intros _. apply stateless_emit. reflexivity.
Qed.

Lemma checkMaintainCore_stateless (totalValue : Js.number) :
  stateless notRecap
    (checkMaintainCore cfg tcfg binance balances totalValue).
Proof.
  unfold checkMaintainCore. apply stateless_guarded.
  apply stateless_andThen; [apply coreValue_stateless|].
  intro current. destruct (Js.lt _ _);
    [apply buyCore_stateless | apply stateless_done].
Qed.

Lemma coreValue_run (prices : string -> Js.number)
  (coreCoins : list string) :
  (forall p, In p coreCoins -> getPrice binance p = Some (prices p)) ->
  forall (acc : Js.number) (rm : RiskManager),
    coreValue binance balances coreCoins acc rm
    = (map (fun p => Sent (GetPrice p)) coreCoins, rm,
       Some (fold_left
               (fun acc p =>
                  Js.add acc
                    (Js.mul
                       (balanceOrZero balances (replaceFirst "USDT" "" p))
                       (prices p)))
               coreCoins acc)).
Proof.
  induction coreCoins as [|p rest IH]; intros Hp acc rm; [reflexivity|].
  cbn [coreValue fold_left map]. unfold andThen, sent, request.
  rewrite (Hp p (or_introl eq_refl)), IH;
    [reflexivity | intros q Hq; apply Hp; right; exact Hq].
Qed.

Lemma buyCore_small (buyAmount : Js.number) (coreCoins : list string)
  (rm : RiskManager) :
  Js.ge buyAmount (Js.Fin (risk_minOrderSizeUsdt cfg)) = false ->
  buyCore cfg binance buyAmount coreCoins rm = ([], rm, Some tt).
Proof.
  intro Hb. induction coreCoins as [|p rest IH]; [reflexivity|].
  cbn [buyCore]. rewrite Hb. unfold andThen, done in *. rewrite IH.
  reflexivity.
Qed.

Lemma buyCore_run (prices : string -> Js.number) (buyAmount : Js.number)
  (coreCoins : list string) (rm : RiskManager) :
  Js.ge buyAmount (Js.Fin (risk_minOrderSizeUsdt cfg)) = true ->
  (forall p, In p coreCoins ->
             getPrice binance p = Some (prices p)
             /\ marketBuy binance p (Js.div buyAmount (prices p)) <> None) ->
  buyCore cfg binance buyAmount coreCoins rm
  = (flat_map
       (fun p =>
          [Sent (GetPrice p);
           Sent (MarketBuy p (Js.div buyAmount (prices p)));
           RebalanceAlert p buyAmount])
       coreCoins,
     rm, Some tt).
Proof.
  intros Hb. induction coreCoins as [|p rest IH]; intro Hp; [reflexivity|].
  cbn [buyCore flat_map]. rewrite Hb.
  destruct (Hp p (or_introl eq_refl)) as [Hprice Hbuy].
  unfold andThen, sent, request, emit, done in *. rewrite Hprice.
  destruct (marketBuy binance p (Js.div buyAmount (prices p))) as [q|];
    [|contradiction].
  rewrite IH; [reflexivity | intros q' Hq; apply Hp; right; exact Hq].
Qed.

Lemma boughtValue_prices (prices : string -> Js.number)
  (coreCoins : list string) (es : list Event) :
  boughtValue prices (map (fun p => Sent (GetPrice p)) coreCoins ++ es)
  = boughtValue prices es.
Proof. induction coreCoins as [|p rest IH]; [reflexivity | exact IH]. Qed.

Lemma boughtValue_purchases (prices : string -> Js.number) (b : Q)
  (coreCoins : list string) :
  (forall p, In p coreCoins -> exists q, prices p = Js.Fin q /\ 0 < q) ->
  exists s,
    boughtValue prices
      (flat_map
         (fun p =>
            [Sent (GetPrice p);
             Sent (MarketBuy p (Js.div (Js.Fin b) (prices p)));
             RebalanceAlert p (Js.Fin b)])
         coreCoins) = Js.Fin s
    /\ s == inject_Z (Z.of_nat (List.length coreCoins)) * b.
Proof.
  induction coreCoins as [|p rest IH]; intro Hp.
  - exists 0. split; [reflexivity|]. cbn. ring.
  - destruct IH as (s & Hs & Es);
      [intros q Hq; apply Hp; right; exact Hq|].
    destruct (Hp p (or_introl eq_refl)) as (q & Hq & Hpos).
    cbn [flat_map app boughtValue]. rewrite Hs, Hq.
    cbn [Js.div]. rewrite (proj2 (Qeq_bool_false q 0)); [|lra].
    cbn [Js.mul Js.add]. eexists. split; [reflexivity|].
    rewrite Es. cbn [List.length]. rewrite Nat2Z.inj_succ.
    unfold Z.succ. rewrite inject_Z_plus. field. lra.
Qed.

Lemma orders_of_prices (coreCoins : list string) :
  filter isOrder (map (fun p => Sent (GetPrice p)) coreCoins) = [].
Proof. induction coreCoins as [|p rest IH]; [reflexivity | exact IH]. Qed.

Lemma orders_of_purchases (prices : string -> Js.number) (b : Js.number)
  (coreCoins : list string) :
  filter isOrder
    (flat_map
       (fun p =>
          [Sent (GetPrice p); Sent (MarketBuy p (Js.div b (prices p)));
           RebalanceAlert p b])
       coreCoins)
  = map (fun p => Sent (MarketBuy p (Js.div b (prices p)))) coreCoins.
Proof.
  induction coreCoins as [|p rest IH]; [reflexivity|].
  cbn [flat_map app filter isOrder map]. rewrite IH. reflexivity.
Qed.



End RebalanceFacts.



Section HeartbeatFacts.

Variable cfg : Config.
Variable tcfg : TradingConfig.
Variable binance : Exchange.
Variable balances : string -> option Js.number.

Lemma checkMaintainCore_returns (totalValue : Js.number) (rm : RiskManager) :
  snd (checkMaintainCore cfg tcfg binance balances totalValue rm) = Some tt.
Proof.
  unfold checkMaintainCore, guarded.
  match goal with |- snd (match ?m with _ => _ end) = _ =>
    destruct m as [[? ?] ?] end.
  reflexivity.
Qed.

Lemma manageTrailingStops_returns (rm : RiskManager) :
  snd (manageTrailingStops binance rm) = Some tt.
Proof.
  unfold manageTrailingStops, try_catch.
  match goal with |- snd (match ?m with _ => _ end) = _ =>
    destruct m as [[? ?] ?] end.
  reflexivity.
Qed.

(** The recap a heartbeat sends when one is due. *)
Lemma heartbeat_run (now : Js.number) (lastRecapTime : option Js.number) :
  exists t,
    Forall notRecap t
    /\ forall rm,
        heartbeat cfg tcfg binance balances now lastRecapTime rm
        = match getTotalValueUsdt binance with
          | None => ([Sent GetTotalValueUsdt], rm, Some lastRecapTime)
          | Some totalValue =>
              let rm1 := updateBalance cfg totalValue rm in
              if recapDue now lastRecapTime then
                (Sent GetTotalValueUsdt
                 :: t ++ [DailyRecap
                            (Js.mul (Js.toNumber (dailyPnL (dailyStats rm1)))
                               (Js.Fin 100))
                            totalValue (tradesCount (dailyStats rm1))
                            (canTrade rm1)],
                 rm1, Some (Some now))
              else (Sent GetTotalValueUsdt :: t, rm1, Some lastRecapTime)
          end.
Proof.
  destruct (getTotalValueUsdt binance) as [tv|] eqn:Etv.
  - destruct (checkMaintainCore_stateless cfg tcfg binance balances tv)
      as (t1 & r1 & Ht1 & H1).
    destruct (manageTrailingStops_stateless binance) as (t2 & r2 & _ & H2).
    exists (t1 ++ map Sent t2). split.
    + apply Forall_app. split; [exact Ht1|].
      apply Forall_map, Forall_forall. intros r _. reflexivity.
    + intro rm. cbv zeta.
      pose proof (checkMaintainCore_returns tv (updateBalance cfg tv rm))
        as R1.
      pose proof (manageTrailingStops_returns (updateBalance cfg tv rm))
        as R2.
      rewrite H1 in R1. rewrite H2 in R2. cbn [snd] in R1, R2. subst r1 r2.
      unfold heartbeat, andThen, sent, request, modify, sendDailyRecap, done.
      rewrite Etv. cbn [map app]. rewrite H1, H2.
      destruct (recapDue now lastRecapTime); cbn [app].
      * rewrite <- app_assoc. reflexivity.
      * rewrite !app_nil_r. reflexivity.
  - exists []. split; [constructor|]. intro rm.
    unfold heartbeat, andThen, sent, request. rewrite Etv. reflexivity.
Qed.

Lemma filter_not_recap (t : list Event) :
  Forall notRecap t ->
  filter isRecap t = [] /\ filter (fun e => negb (isRecap e)) t = t.
Proof.
  induction 1 as [|e t He _ [IH1 IH2]]; [split; reflexivity|].
  cbn [filter]. rewrite He. cbn [negb]. rewrite IH2. split; auto.
Qed.

(** X21.  A heartbeat only refreshes the balance of the risk manager: the
    core purchases and the replaced stops are never recorded as trades, and
    a heartbeat whose portfolio request fails leaves the manager as it
    was.  It never throws. *)
Theorem heartbeat_only_updates_balance :
  forall (now : Js.number) (lastRecapTime : option Js.number)
         (rm : RiskManager),
    let run := heartbeat cfg tcfg binance balances now lastRecapTime rm in
    risk_of run
    = match getTotalValueUsdt binance with
      | Some totalValue => updateBalance cfg totalValue rm
      | None => rm
      end
    /\ snd run <> None.
Proof.
  intros now lastRecapTime rm run. subst run.
  destruct (heartbeat_run now lastRecapTime) as (t & _ & H). rewrite H.
  destruct (getTotalValueUsdt binance) as [tv|];
    [|split; [reflexivity | discriminate]].
  cbv zeta. destruct (recapDue now lastRecapTime);
    split; (reflexivity || discriminate).
Qed.

(** X22.  No second recap within a day: a heartbeat at a time that is at
    most 86400000 ms after the last recap sends no recap and keeps the time
    of the last one, whatever the exchange answers. *)
Theorem heartbeat_recap_spacing :
  forall (n t : Q) (rm : RiskManager),
    ~ t == 0 ->
    n - t <= 86400000 ->
    let run :=
      heartbeat cfg tcfg binance balances (Js.Fin n) (Some (Js.Fin t)) rm in
    filter isRecap (events_of run) = []
    /\ snd run = Some (Some (Js.Fin t)).
Proof.
  intros n t rm Ht Hn run. subst run.
  destruct (heartbeat_run (Js.Fin n) (Some (Js.Fin t))) as (es & Hes & H).
  rewrite H.
  destruct (getTotalValueUsdt binance) as [tv|];
    [|split; reflexivity].
  cbv zeta.
  assert (Hdue : recapDue (Js.Fin n) (Some (Js.Fin t)) = false).
  { unfold recapDue. cbn [Js.truthy Js.sub Js.neg Js.add Js.gt Js.lt].
    rewrite (proj2 (Qeq_bool_false t 0) Ht). cbn [negb orb].
    apply Qlt_bool_false. lra. }
  rewrite Hdue. unfold events_of. cbn [fst snd filter isRecap].
  rewrite (proj1 (filter_not_recap es Hes)). split; reflexivity.
Qed.


(** X24.  The breaker does not gate the heartbeat: apart from the recap,
    what a heartbeat sends does not depend on the risk manager, so the core
    rebalance buys and the stops are replaced in the same way while trading
    is halted. *)
Theorem heartbeat_ignores_breaker :
  forall (now : Js.number) (lastRecapTime : option Js.number)
         (rm rm' : RiskManager),
    filter (fun e => negb (isRecap e))
      (events_of (heartbeat cfg tcfg binance balances now lastRecapTime rm))
    = filter (fun e => negb (isRecap e))
        (events_of
           (heartbeat cfg tcfg binance balances now lastRecapTime rm')).
Proof.
  intros now lastRecapTime rm rm'.
  destruct (heartbeat_run now lastRecapTime) as (es & Hes & H).
  rewrite !H. destruct (getTotalValueUsdt binance) as [tv|]; [|reflexivity].
  cbv zeta. destruct (recapDue now lastRecapTime); [|reflexivity].
  unfold events_of. cbn [fst filter isRecap negb].
  rewrite !filter_app. reflexivity.
Qed.

End HeartbeatFacts.

Lemma heartbeat_recap_spacing_witness :
  filter isRecap
    (events_of
       (heartbeat defaultConfig defaultTradingConfig
          (quietExchange [] (Js.Fin 100)) (fun _ => None)
          (Js.Fin 1000060000) (Some (Js.Fin 1000000000))
          (newRiskManager "2026-01-01" None))) = [].
Proof.
  refine (proj1 (heartbeat_recap_spacing defaultConfig defaultTradingConfig
                   (quietExchange [] (Js.Fin 100)) (fun _ => None)
                   1000060000 1000000000 _ _ _)).
  - intro E. discriminate E.
  - intro E. discriminate E.
Defined.


(* ================================================================== *)
(** ** The remote control *)

(** X25.  A manual resume does not override the daily trade cap: when the
    trade counter has reached [maxTradesPerDay], the manager can trade
    right after the resume, but the next cycle halts it again at its
    balance update and sends nothing but the portfolio request. *)
Theorem resume_cannot_lift_trade_cap :
  forall (cfg : Config) (tcfg : TradingConfig)
         (RSI_calculate : list Js.number -> list Js.number)
         (sentimentAnalyzer : Sentiment) (fearGreed : option Js.number)
         (binance : Exchange) (binanceAt : nat -> Exchange)
         (rm : RiskManager) (totalValue : Js.number),
    maxTradesReached cfg (dailyStats rm) = true ->
    getTotalValueUsdt binance = Some totalValue ->
    let run :=
      tick cfg tcfg RSI_calculate sentimentAnalyzer fearGreed binance
        binanceAt (handleResume rm) in
    canTrade (handleResume rm) = true
    /\ events_of run = [Sent GetTotalValueUsdt]
    /\ canTrade (risk_of run) = false.
Proof.
  intros cfg tcfg RSI_calculate sentimentAnalyzer fearGreed binance
    binanceAt rm tv Hmax Etv run. subst run.
  split; [reflexivity|].
  pose proof (tick_run cfg tcfg RSI_calculate sentimentAnalyzer fearGreed
                binance binanceAt (handleResume rm)) as H.
  cbv zeta in H. rewrite Etv in H.
  assert (Hc : canTrade (updateBalance cfg tv (handleResume rm)) = false).
  { unfold canTrade. apply negb_false_iff.
    rewrite (proj1 (updateBalance_halted cfg tv (handleResume rm))).
    apply orb_true_iff. right. unfold breakerCondition.
    apply orb_true_iff. left. apply orb_true_iff. right.
    unfold maxTradesReached in *.
    pose proof (call_tradesCount cfg (CallUpdateBalance tv)
                  (handleResume rm)) as Ht.
    cbn [call] in Ht. rewrite Ht. exact Hmax. }
  rewrite Hc in H. cbn [negb] in H. rewrite H.
  split; [reflexivity | exact Hc].
Qed.

(** X26.  Only an administrator commands the bot: a message of a bot, a
    message that does not start with an exclamation mark, and a message of
    an author who is not in [adminUserIds] leave the risk manager as it is
    and do not end the process; the only answer they can get is the
    refusal. *)
Theorem handleCommand_only_admins :
  forall (adminUserIds : list string) (message : Message)
         (rm : RiskManager),
    author_bot message = true
    \/ String.prefix "!" (content message) = false
    \/ ~ In (author_id message) adminUserIds ->
    let result := handleCommand adminUserIds message rm in
    snd (fst result) = rm
    /\ snd result = Returned
    /\ (fst (fst result) = [] \/ fst (fst result) = [Unauthorized]).
Proof.
  intros adminUserIds message rm H result. subst result.
  unfold handleCommand.
  destruct (author_bot message); [cbn; auto|].
  destruct (String.prefix "!" (content message)); [|cbn; auto].
  cbn [negb].
  destruct (existsb (String.eqb (author_id message)) adminUserIds) eqn:E;
    [|cbn; auto].
  destruct H as [H | [H | H]]; try discriminate H.
  elim H. apply existsb_exists in E. destruct E as (x & Hin & Ex).
  apply String.eqb_eq in Ex. subst x. exact Hin.
Qed.

Lemma toLowerChar_space (c : Ascii.ascii) :
  (Ascii.nat_of_ascii (toLowerChar c) =? 32)%nat
  = (Ascii.nat_of_ascii c =? 32)%nat.
Proof.
  destruct c as [[] [] [] [] [] [] [] []]; vm_compute; reflexivity.
Qed.

Lemma toLowerCase_hasSpace (s : string) :
  hasSpace (toLowerCase s) = hasSpace s.
Proof.
  induction s as [|c rest IH]; [reflexivity|].
  cbn [toLowerCase hasSpace]. rewrite toLowerChar_space, IH. reflexivity.
Qed.

Lemma firstWord_append (w rest : string) :
  hasSpace w = false ->
  rest = EmptyString \/ (exists r, rest = append " " r) ->
  firstWord (append w rest) = w.
Proof.
  intros Hw Hrest. induction w as [|c w IH].
  - cbn [append]. destruct Hrest as [-> | (r & ->)]; reflexivity.
  - cbn [hasSpace] in Hw. apply orb_false_iff in Hw. destruct Hw as [Hc Hw].
    cbn [append firstWord]. rewrite Hc, (IH Hw). reflexivity.
Qed.

Lemma prefix_mark (s : string) : String.prefix "!" (append "!" s) = true.
Proof. destruct s; reflexivity. Qed.


Lemma resume_cannot_lift_trade_cap_witness :
  events_of
    (tick defaultConfig altcoinConfig (fun _ => [Js.Fin 50]) bullishAnalyzer
       (Some (Js.Fin 60)) (quietExchange [] (Js.Fin 100))
       (fun _ => quietExchange [] (Js.Fin 100))
       (handleResume
          (recordTrades defaultConfig 10
             (newRiskManager "2026-01-01" None))))
  = [Sent GetTotalValueUsdt].
Proof.
  refine (proj1 (proj2 (resume_cannot_lift_trade_cap defaultConfig
                          altcoinConfig _ _ _
                          (quietExchange [] (Js.Fin 100)) _ _ (Js.Fin 1000)
                          _ _))).
  - vm_compute. reflexivity.
  - reflexivity.
Defined.

Lemma handleCommand_only_admins_witness :
  snd (fst (handleCommand ["7"%string] (mkMessage false "42" "!pause")
              (newRiskManager "2026-01-01" None)))
  = newRiskManager "2026-01-01" None.
Proof.
  refine (proj1 (handleCommand_only_admins ["7"%string]
                   (mkMessage false "42" "!pause") _ _)).
  right. right. intros [E | []]. discriminate E.
Defined.


(* ================================================================== *)
(** ** The portfolio value *)

Lemma notNegative_add (x y : Js.number) :
  notNegative x -> notNegative y -> notNegative (Js.add x y).
Proof.
  unfold notNegative.
  destruct x as [x| | |], y as [y| | |]; cbn [Js.add Js.lt]; intros Hx Hy;
    try reflexivity; try discriminate.
  q_reflect. lra.
Qed.

Lemma notNegative_mul (t p : Js.number) :
  Js.le t (Js.Fin 0) = false -> notNegative p -> notNegative (Js.mul t p).
Proof.
  unfold notNegative.
  destruct t as [t| | |], p as [p| | |]; cbn [Js.mul Js.lt Js.le];
    intros Ht Hp; try reflexivity; try discriminate; q_reflect.
  - nra.
  - rewrite (Qcompare_0_Gt t Ht). reflexivity.
  - destruct (p ?= 0) eqn:E; try reflexivity.
    apply Qlt_alt in E. lra.
Qed.

Lemma positive_notNegative (t : Js.number) :
  Js.le t (Js.Fin 0) = false -> notNegative t.
Proof.
  unfold notNegative. destruct t as [t| | |]; cbn [Js.lt Js.le]; intro Ht;
    try reflexivity; try discriminate.
  q_reflect. lra.
Qed.

Lemma sumValues_notNegative (getPrice : string -> option Js.number)
  (entries : Binance.Balances) :
  (forall s p, getPrice s = Some p -> notNegative p) ->
  forall totalValue,
    notNegative totalValue ->
    notNegative (Binance.sumValues getPrice entries totalValue).
Proof.
  intro Hp. induction entries as [|[a b] rest IH]; intros acc Hacc;
    [exact Hacc|].
  cbn [Binance.sumValues].
  destruct (Js.le (Binance.total b) (Js.Fin 0)) eqn:Ht; [apply IH, Hacc|].
  destruct (String.eqb a "USDT").
  - apply IH, notNegative_add; [exact Hacc|].
    apply positive_notNegative, Ht.
  - destruct (getPrice (append a "USDT")) as [p|] eqn:Ep; [|apply IH, Hacc].
    apply IH, notNegative_add; [exact Hacc|].
    apply notNegative_mul; [exact Ht | exact (Hp _ _ Ep)].
Qed.

(** X28.  The portfolio value is never below zero: when no price the
    exchange answers is below zero, the value [getTotalValueUsdt] returns is
    not below zero, whatever the balances hold (entries whose total is zero
    or negative are skipped, assets whose price request fails count for
    nothing), in paper mode and with a live account. *)
Theorem total_value_never_negative :
  forall (paper : Binance.Paper)
         (accountInfo : option (list Binance.AccountBalance))
         (getPrice : string -> option Js.number)
         (balances balances' : Binance.Balances) (totalValue : Js.number),
    (forall s p, getPrice s = Some p -> Js.lt p (Js.Fin 0) = false) ->
    Binance.getTotalValueUsdt paper accountInfo getPrice balances
    = (balances', Some totalValue) ->
    Js.lt totalValue (Js.Fin 0) = false.
Proof.
  intros paper accountInfo getPrice balances balances' totalValue Hp H.
  unfold Binance.getTotalValueUsdt in H.
  destruct (Binance.updateBalances paper accountInfo balances)
    as [bs [[]|]]; [|discriminate H].
  injection H as _ <-.
  apply sumValues_notNegative; [exact Hp | reflexivity].
Qed.

Lemma total_value_never_negative_witness :
  Js.lt (Js.Fin (0 + (0 + 50) + 3 * 2)) (Js.Fin 0) = false.
Proof.
  refine (total_value_never_negative (Binance.mkPaper true (Js.Fin 50)) None
            (fun _ => Some (Js.Fin 2))
            [("SOL"%string, Binance.mkBalance (Js.Fin 3) (Js.Fin 0) (Js.Fin 3))]
            [("SOL"%string,
              Binance.mkBalance (Js.Fin 3) (Js.Fin 0) (Js.Fin 3));
             ("USDT"%string,
              Binance.mkBalance (Js.Fin 50) (Js.Fin 0) (Js.Fin 50))]
            _ _ _).
  - intros s p E. injection E as <-. reflexivity.
  - reflexivity.
Defined.

(* ================================================================== *)
(** ** A refused replacement of a stop *)

Lemma trailStops_quiet (binance : Exchange) (openOrders pre : list Order)
  (rm : RiskManager) :
  Forall (fun o =>
            exists p, getPrice binance (symbol o) = Some p
                      /\ Js.gt p (Js.mul (stopPrice o) (Js.Fin 1.02))
                         = false) pre ->
  forall rest,
    trailStops binance openOrders (pre ++ rest) rm
    = (map (fun o => GetPrice (symbol o)) pre
       ++ trace_of (trailStops binance openOrders rest rm),
       manager_of (trailStops binance openOrders rest rm),
       snd (trailStops binance openOrders rest rm)).
Proof.
  induction 1 as [|o pre (p & Hp & Hgt) _ IH]; intro rest.
  - cbn [app map]. unfold trace_of, manager_of.
    destruct (trailStops binance openOrders rest rm) as [[t m] r].
    reflexivity.
  - cbn [app trailStops map]. unfold bind at 1. unfold request at 1.
    rewrite Hp. unfold bind at 1. rewrite Hgt. unfold ret at 1.
    rewrite IH. reflexivity.
Qed.

(** X29.  A refused replacement leaves the position without its stop: when
    the stop of an order has to be raised, the old order is cancelled
    first; if the exchange then refuses the new exit order, the pass ends
    there.  The cancelled stop is not restored, no alert is sent, and the
    stop orders that follow are not examined in this pass. *)
Theorem trailing_stop_refused_replacement :
  forall (binance : Exchange) (orders pre rest : list Order) (order : Order)
         (currentPrice : Js.number) (rm : RiskManager),
    getOpenOrders binance = Some orders ->
    filter isStopOrder orders = pre ++ order :: rest ->
    Forall (fun o =>
              exists p, getPrice binance (symbol o) = Some p
                        /\ Js.gt p (Js.mul (stopPrice o) (Js.Fin 1.02))
                           = false) pre ->
    getPrice binance (symbol order) = Some currentPrice ->
    Js.gt currentPrice (Js.mul (stopPrice order) (Js.Fin 1.02)) = true ->
    cancelOrderList binance (symbol order) (orderListId order) = Some tt ->
    cancelOrder binance (symbol order) (orderId order) = Some tt ->
    ocoSell binance (symbol order) (origQty order)
      (originalTP orders order currentPrice)
      (Js.mul (stopPrice order) (Js.Fin 1.01)) = None ->
    manageTrailingStops binance rm
    = (GetOpenOrders
       :: map (fun o => GetPrice (symbol o)) pre
       ++ [GetPrice (symbol order);
           if negb (orderListId order =? -1)%Z
           then CancelOrderList (symbol order) (orderListId order)
           else CancelOrder (symbol order) (orderId order);
           OcoSell (symbol order) (origQty order)
             (originalTP orders order currentPrice)
             (Js.mul (stopPrice order) (Js.Fin 1.01))],
       rm, Some tt).
Proof.
  intros binance orders pre rest order p rm Ho Hstops Hpre Hp Hgt Hcl Hc
    Hoco.
  assert (Hlast : trailStops binance orders (order :: rest) rm
                  = ([GetPrice (symbol order);
                      if negb (orderListId order =? -1)%Z
                      then CancelOrderList (symbol order) (orderListId order)
                      else CancelOrder (symbol order) (orderId order);
                      OcoSell (symbol order) (origQty order)
                        (originalTP orders order p)
                        (Js.mul (stopPrice order) (Js.Fin 1.01))],
                     rm, None)).
  { cbn [trailStops]. unfold bind at 1. unfold request at 1. rewrite Hp.
    unfold bind at 1. rewrite Hgt. unfold bind, request, notify.
    destruct (negb (orderListId order =? -1)%Z);
      rewrite ?Hcl, ?Hc, Hoco; reflexivity. }
  unfold manageTrailingStops, try_catch, bind, request. rewrite Ho, Hstops.
  rewrite (trailStops_quiet binance orders pre rm Hpre), Hlast.
  reflexivity.
Qed.

Lemma trailing_stop_refused_replacement_witness :
  manageTrailingStops
    (refusingExchange [stopOrder "SOLUSDT" 100] (Js.Fin 103))
    (newRiskManager "2026-01-01" None)
  = ([GetOpenOrders; GetPrice "SOLUSDT"; CancelOrderList "SOLUSDT" 7;
      OcoSell "SOLUSDT" (Js.VNumber (Js.Fin 1))
        (Js.VNumber (Js.mul (Js.Fin 103) (Js.Fin 1.04)))
        (Js.mul (Js.Fin 100) (Js.Fin 1.01))],
     newRiskManager "2026-01-01" None, Some tt).
Proof.
  refine (trailing_stop_refused_replacement
            (refusingExchange [stopOrder "SOLUSDT" 100] (Js.Fin 103))
            [stopOrder "SOLUSDT" 100] [] [] (stopOrder "SOLUSDT" 100)
            (Js.Fin 103) _ _ _ _ _ _ _ _ _).
  - reflexivity.
  - reflexivity.
  - constructor.
  - reflexivity.
  - reflexivity.
  - reflexivity.
  - reflexivity.
  - reflexivity.
Defined.
